(** * MedicAgent orchestration core: a shallow embedding and its properties

    The development follows the TypeScript sources of the backend:

    - [agents/specialized/notification/policy.ts]  (module [Policy])
    - [agents/tools/notification.ts]               (module [Tools])
    - [agents/specialized/NotificationAgent.ts]    (module [NotificationAgent])
    - [agents/router/intent-routing.ts],
      [agents/router/RouterAgent.ts]               (module [Router])
    - [agents/graph/SimpleAgentGraph.ts]           (modules [Graph] and
                                                    [Semaphore])
    - [lib/bullmq.ts]                              (module [BullMQ])
    - [agents/graph/AgentEventBus.ts]              (module [EventBus])
    - [routes/agents-graph.ts]                     (module [ChatRoute])

    Conventions of the embedding.

    - JavaScript numbers that the code only uses as integers (epoch
      milliseconds, counts, parsed decimal literals) are [Z].  A [Date] is
      valid within 8.64e15 milliseconds of the epoch and invalid beyond;
      the rounding of a double is not modelled (it sets in above 2^53,
      which is beyond the range of a valid [Date]).
    - Strings are [string] and hold ASCII characters: the character classes
      [\s], [\d], [\w], [toLowerCase] and [trim] are the ASCII ones.
    - A value that may be [undefined] is an [option].
    - A computation that may throw (an [async] function whose promise may
      reject) lives in the error monad [Exn]; [try]/[catch] is [tryCatch].
      What is thrown is an [Error], as everywhere in the sources.
    - Calls into external collaborators (the language model, the queue, the
      plan store, the system clock, the hash function) are parameters. *)

From Stdlib Require Import ZArith Lia List String Ascii Bool.
From stdpp Require Import base option list gmap strings sorting.

Open Scope Z_scope.

(** ** JavaScript prelude *)

Module JS.

(** A thrown value: an [Error], carried as its [message]. *)
Definition Exception := string.

Inductive Exn (A : Type) : Type :=
| Ok (a : A)
| Throw (e : Exception).
Arguments Ok {A} a.
Arguments Throw {A} e.

Definition bind {A B} (m : Exn A) (k : A -> Exn B) : Exn B :=
  match m with
  | Ok a => k a
  | Throw e => Throw e
  end.

(** [try { body } catch (e) { handler e }] *)
Definition tryCatch {A} (body : Exn A) (handler : Exception -> Exn A) : Exn A :=
  match body with
  | Ok a => Ok a
  | Throw e => handler e
  end.

Definition isOk {A} (m : Exn A) : bool :=
  match m with Ok _ => true | Throw _ => false end.

(** [new Error(msg)] *)
Definition newError (msg : string) : Exception := msg.

(** Truthiness of a string and of an optional string. *)
Definition truthy (s : string) : bool :=
  match s with EmptyString => false | _ => true end.

(** [String(error)], as a template literal renders an [Error]: its name
    alone when the message is empty. *)
Definition errorToString (e : Exception) : string :=
  if truthy e then ("Error: " ++ e)%string else "Error"%string.

(** [String(error?.message || error)] *)
Definition messageOrString (e : Exception) : string :=
  if truthy e then e else errorToString e.

Definition truthyOpt (o : option string) : bool :=
  match o with Some s => truthy s | None => false end.

(** An optional string that counts only when it is truthy, as in
    [x ? { x } : {}] and [if (x) entry.x = x]. *)
Definition ifTruthy (o : option string) : option string :=
  if truthyOpt o then o else None.

(** [a || b] on optional strings. *)
Definition orElse (a b : option string) : option string :=
  if truthyOpt a then a else b.

Definition isSpace (c : ascii) : bool :=
  let n := nat_of_ascii c in
  ((9 <=? n)%nat && (n <=? 13)%nat) || (n =? 32)%nat.

Definition isDigit (c : ascii) : bool :=
  let n := nat_of_ascii c in (48 <=? n)%nat && (n <=? 57)%nat.

Definition isUpper (c : ascii) : bool :=
  let n := nat_of_ascii c in (65 <=? n)%nat && (n <=? 90)%nat.

Definition isLower (c : ascii) : bool :=
  let n := nat_of_ascii c in (97 <=? n)%nat && (n <=? 122)%nat.

(** [\w] *)
Definition isWord (c : ascii) : bool :=
  isDigit c || isUpper c || isLower c || (nat_of_ascii c =? 95)%nat.

Definition lowerChar (c : ascii) : ascii :=
  if isUpper c then ascii_of_nat (nat_of_ascii c + 32) else c.

Fixpoint toLowerCase (s : string) : string :=
  match s with
  | EmptyString => EmptyString
  | String c t => String (lowerChar c) (toLowerCase t)
  end.

Fixpoint trimStart (s : string) : string :=
  match s with
  | String c t => if isSpace c then trimStart t else s
  | EmptyString => EmptyString
  end.

Fixpoint trimEnd (s : string) : string :=
  match s with
  | EmptyString => EmptyString
  | String c t =>
      match trimEnd t with
      | EmptyString => if isSpace c then EmptyString else String c EmptyString
      | t' => String c t'
      end
  end.

Definition trim (s : string) : string := trimEnd (trimStart s).

(** [parseInt(s, 10)] on a string of decimal digits. *)
Definition digitVal (c : ascii) : Z := Z.of_nat (nat_of_ascii c - 48).

Definition parseDigits (cs : list ascii) : Z :=
  fold_left (fun acc c => 10 * acc + digitVal c) cs 0.

(** Decimal rendering of a number, as [String(n)] gives for an integer. *)
Fixpoint natDigits (fuel : nat) (n : nat) (acc : string) : string :=
  match fuel with
  | O => acc
  | S fuel' =>
      let acc' := String (ascii_of_nat (48 + n mod 10)) acc in
      if (n <? 10)%nat then acc' else natDigits fuel' (n / 10) acc'
  end.

Definition natToString (n : nat) : string := natDigits (S n) n EmptyString.

Definition numberToString (z : Z) : string :=
  if z <? 0 then ("-" ++ natToString (Z.to_nat (- z)))%string
  else natToString (Z.to_nat z).

End JS.

Export JS.

(** ** Regular expressions

    A backtracking matcher with the priorities of the ECMAScript one: greedy
    quantifiers, alternatives from left to right, leftmost match.  Only the
    constructs that the sources use are present. *)

Module Regex.

Inductive regex : Type :=
| Eps
| Chr (p : ascii -> bool)
| Seq (a b : regex)
| Alt (a b : regex)
| Star (a : regex)
| Grp (i : nat) (a : regex)
| WordB
| Bol
| Eol.

Definition Plus (a : regex) : regex := Seq a (Star a).
Definition Opt (a : regex) : regex := Alt a Eps.
(** [a{1,2}] *)
Definition Rep12 (a : regex) : regex := Seq a (Opt a).
(** [a{2}] *)
Definition Rep2 (a : regex) : regex := Seq a a.

Definition chr (c : ascii) : regex := Chr (fun x => Ascii.eqb x c).
(** A literal under the [i] flag. *)
Definition chrI (c : ascii) : regex :=
  Chr (fun x => Ascii.eqb (lowerChar x) (lowerChar c)).

Fixpoint Lit (s : string) : regex :=
  match s with
  | EmptyString => Eps
  | String c EmptyString => chr c
  | String c t => Seq (chr c) (Lit t)
  end.

Fixpoint LitI (s : string) : regex :=
  match s with
  | EmptyString => Eps
  | String c EmptyString => chrI c
  | String c t => Seq (chrI c) (LitI t)
  end.

Fixpoint Alts (rs : list regex) : regex :=
  match rs with
  | [] => Eps
  | [r] => r
  | r :: rs' => Alt r (Alts rs')
  end.

Definition digit : regex := Chr isDigit.
Definition space : regex := Chr isSpace.

(** The matcher's position: the character before the cursor, the rest of
    the input, and the text captured by each group so far. *)
Record mstate : Type := MState {
  prev : option ascii;
  rest : list ascii;
  caps : list (nat * list ascii)
}.

Definition Cont := mstate -> option mstate.

Definition atBoundary (st : mstate) : bool :=
  let before := match prev st with Some c => isWord c | None => false end in
  let after := match rest st with c :: _ => isWord c | [] => false end in
  xorb before after.

Fixpoint run (r : regex) (k : Cont) : Cont :=
  match r with
  | Eps => k
  | Chr p => fun st =>
      match rest st with
      | c :: t => if p c then k (MState (Some c) t (caps st)) else None
      | [] => None
      end
  | Seq a b => run a (run b k)
  | Alt a b => fun st =>
      match run a k st with
      | Some res => Some res
      | None => run b k st
      end
  | Star a => fun st0 =>
      (fix loop (n : nat) : Cont := fun st =>
         match n with
         | O => k st
         | S n' =>
             match run a (fun st' =>
                            if (length (rest st') <? length (rest st))%nat
                            then loop n' st' else None) st with
             | Some res => Some res
             | None => k st
             end
         end) (length (rest st0)) st0
  | Grp i a => fun st =>
      run a (fun st' =>
               let consumed :=
                 take (length (rest st) - length (rest st')) (rest st) in
               k (MState (prev st') (rest st') ((i, consumed) :: caps st'))) st
  | WordB => fun st => if atBoundary st then k st else None
  | Bol => fun st => match prev st with None => k st | Some _ => None end
  | Eol => fun st => match rest st with [] => k st | _ => None end
  end.

(** A match: the captures and the input left after it. *)
Definition matchAt (r : regex) (p : option ascii) (s : list ascii)
  : option mstate :=
  run r Some (MState p s []).

(** Leftmost match, trying every start position in turn. *)
Fixpoint searchFrom (r : regex) (p : option ascii) (s : list ascii)
  : option mstate :=
  match matchAt r p s with
  | Some res => Some res
  | None =>
      match s with
      | [] => None
      | c :: t => searchFrom r (Some c) t
      end
  end.

Definition chars (s : string) : list ascii := list_ascii_of_string s.

(** [s.match(r)] without the [g] flag. *)
Definition search (r : regex) (s : string) : option mstate :=
  searchFrom r None (chars s).

(** [r.test(s)] *)
Definition test (r : regex) (s : string) : bool :=
  match search r s with Some _ => true | None => false end.

(** [m[i]]: the text of group [i], [None] when the group did not take part. *)
Fixpoint lookupCap (i : nat) (cs : list (nat * list ascii))
  : option (list ascii) :=
  match cs with
  | [] => None
  | (j, txt) :: cs' => if (i =? j)%nat then Some txt else lookupCap i cs'
  end.

Definition group (i : nat) (m : mstate) : option (list ascii) :=
  lookupCap i (caps m).

(** [Array.from(s.matchAll(r))] for a pattern that never matches the empty
    string: after a match the scan resumes where the match ended. *)
Fixpoint matchAllFrom (fuel : nat) (r : regex) (p : option ascii)
  (s : list ascii) : list mstate :=
  match fuel with
  | O => []
  | S fuel' =>
      match searchFrom r p s with
      | None => []
      | Some m =>
          if (length (rest m) <? length s)%nat
          then m :: matchAllFrom fuel' r (prev m) (rest m)
          else [m]
      end
  end.

Definition matchAll (r : regex) (s : string) : list mstate :=
  matchAllFrom (S (String.length s)) r None (chars s).

End Regex.

(** ** Dates

    A [Date] is its time value: milliseconds since the epoch, at most
    8.64e15 away from it, or [None] for an invalid date (the time value
    [NaN]).  Every construction and every setter clips the time value.
    Local time is given by the time zone of the host: the offset in force
    at an instant, and the offset with which a local time value is read
    back ([LocalTZA(t, true)] and [LocalTZA(t, false)] of ECMAScript). *)

Module JSDate.

Definition MS_PER_MINUTE : Z := 60000.
Definition MS_PER_HOUR : Z := 3600000.
Definition MS_PER_DAY : Z := 86400000.

Definition MAX_TIME : Z := 8640000000000000.

Definition validTime (t : Z) : bool := (- MAX_TIME <=? t) && (t <=? MAX_TIME).

Definition Date : Type := option Z.

(** [new Date(value)] *)
Definition newDate (value : Z) : Date :=
  if validTime value then Some value else None.

Record Zone : Type := {
  (** the offset of local time at a UTC instant *)
  offsetAt : Z -> Z;
  (** the offset with which a local time value is converted to UTC *)
  offsetOfLocal : Z -> Z
}.

(** A zone without daylight saving. *)
Definition fixedZone (offset : Z) : Zone :=
  {| offsetAt := fun _ => offset; offsetOfLocal := fun _ => offset |}.

Section LocalTime.
Variable zone : Zone.

Definition toLocal (t : Z) : Z := t + offsetAt zone t.

Definition toUTC (l : Z) : Z := l - offsetOfLocal zone l.

(** A setter of local fields: the local time value is changed, converted
    back and clipped; an invalid date stays invalid. *)
Definition setLocal (d : Date) (f : Z -> Z) : Date :=
  d ≫= fun t => newDate (toUTC (f (toLocal t))).

Definition minFromTime (l : Z) : Z := (l / MS_PER_MINUTE) mod 60.
Definition hourFromTime (l : Z) : Z := (l / MS_PER_HOUR) mod 24.

(** [d.setSeconds(0, 0)] *)
Definition setSeconds0 (d : Date) : Date :=
  setLocal d (fun l => l - l mod MS_PER_MINUTE).

(** [d.setMinutes(m)] and [d.setHours(h)]: the other local fields are
    kept, values out of range carry over. *)
Definition setMinutes (d : Date) (m : Z) : Date :=
  setLocal d (fun l => l + (m - minFromTime l) * MS_PER_MINUTE).

Definition setHours (d : Date) (h : Z) : Date :=
  setLocal d (fun l => l + (h - hourFromTime l) * MS_PER_HOUR).

(** [d.setHours(h, m, s, ms)] *)
Definition setHours4 (d : Date) (h m s ms : Z) : Date :=
  setLocal d (fun l =>
    l - l mod MS_PER_DAY + h * MS_PER_HOUR + m * MS_PER_MINUTE + s * 1000
    + ms).

(** [d.getDay()] of a valid date: 0 is Sunday; the epoch fell on a
    Thursday. *)
Definition getDay (t : Z) : Z := (toLocal t / MS_PER_DAY + 4) mod 7.

(** [d.setDate(d.getDate() + delta)] *)
Definition addDays (d : Date) (delta : Z) : Date :=
  setLocal d (fun l => l + delta * MS_PER_DAY).
End LocalTime.

(** Days since the epoch to the proleptic Gregorian (year, month, day). *)
Definition civilFromDays (days : Z) : Z * Z * Z :=
  let z := days + 719468 in
  let era := z / 146097 in
  let doe := z - era * 146097 in
  let yoe := (doe - doe / 1460 + doe / 36524 - doe / 146096) / 365 in
  let y := yoe + era * 400 in
  let doy := doe - (365 * yoe + yoe / 4 - yoe / 100) in
  let mp := (5 * doy + 2) / 153 in
  let d := doy - (153 * mp + 2) / 5 + 1 in
  let m := if mp <? 10 then mp + 3 else mp - 9 in
  (if m <=? 2 then y + 1 else y, m, d).

Fixpoint zeros (n : nat) : string :=
  match n with O => EmptyString | S n' => String "0" (zeros n') end.

Definition pad (width : nat) (z : Z) : string :=
  let s := natToString (Z.to_nat z) in
  (zeros (width - String.length s) ++ s)%string.

Definition yearString (y : Z) : string :=
  if (0 <=? y) && (y <=? 9999) then pad 4 y
  else if y <? 0 then ("-" ++ pad 6 (- y))%string
  else ("+" ++ pad 6 y)%string.

(** [d.toISOString()] of a valid date; on an invalid one the method throws
    a [RangeError]. *)
Definition toISOString (t : Z) : string :=
  let '(y, m, d) := civilFromDays (t / MS_PER_DAY) in
  let r := t mod MS_PER_DAY in
  (yearString y ++ "-" ++ pad 2 m ++ "-" ++ pad 2 d ++ "T"
     ++ pad 2 (r / MS_PER_HOUR) ++ ":" ++ pad 2 ((r / MS_PER_MINUTE) mod 60)
     ++ ":" ++ pad 2 ((r / 1000) mod 60) ++ "." ++ pad 3 (r mod 1000)
     ++ "Z")%string.

End JSDate.

(** ** Shared data types ([base/AgentTypes.ts], [lib/bullmq.ts]) *)

Module Types.

(** Opaque payloads ([unknown], [any], [Record<string, unknown>]): scalars,
    and objects or arrays carried as their serialised text. *)
Inductive Json : Type :=
| JNull
| JBool (b : bool)
| JNum (z : Z)
| JStr (s : string)
| JObj (repr : string).

(** [Boolean(v)] *)
Definition jsTruthy (v : Json) : bool :=
  match v with
  | JNull => false
  | JBool b => b
  | JNum z => negb (z =? 0)
  | JStr s => truthy s
  | JObj _ => true
  end.

Record AgentMetadata : Type := {
  md_timezone : option string;
  md_locale : option string;
  md_googleAccessToken : option string
}.

Record AgentInput : Type := {
  in_userId : string;
  in_sessionId : string;
  in_message : string;
  in_metadata : option AgentMetadata;
  in_intent : option string;
  in_entities : option (gmap string Json)
}.

Inductive ActionStatus : Type := Pending | Done | Failed.

Record AgentAction : Type := {
  act_type : string;
  act_status : option ActionStatus;
  act_payload : option (gmap string Json)
}.

Inductive FollowupType : Type := Question | Confirm | Info.

Record Followup : Type := { fu_type : FollowupType; fu_text : string }.

(** [AgentOutput], with the fields that the graph reads off a handler's
    result ([AgentResult], [RouterResult] and the router's multi-agent
    flags). *)
Record AgentOutput : Type := {
  out_reply : string;
  out_route : option string;
  out_intent : option string;
  out_entities : option (gmap string Json);
  out_actions : option (list AgentAction);
  out_followups : option (list Followup);
  out_sharedData : option (gmap string Json);
  out_usageTotalTokens : option Z;
  out_multiAgentRequest : option bool;
  out_additionalAgents : option (list string)
}.

Definition plainOutput (reply : string) (actions : list AgentAction)
  : AgentOutput :=
  {| out_reply := reply; out_route := None; out_intent := None;
     out_entities := None; out_actions := Some actions;
     out_followups := None; out_sharedData := None;
     out_usageTotalTokens := None; out_multiAgentRequest := None;
     out_additionalAgents := None |}.

(** A handler, by its [process] method. *)
Definition Agent : Type := AgentInput -> Exn AgentOutput.

Inductive Channel : Type := Sms | Whatsapp.

Record Repeat : Type := {
  rp_cron : string;
  rp_tz : option string;
  rp_limit : option Z
}.

Record Retry : Type := { attempts : Z; backoffMs : Z }.

Record NotificationPlan : Type := {
  pl_channel : Channel;
  pl_to : list string;
  pl_body : string;
  pl_scheduleAt : option string;
  pl_repeat : option Repeat;
  pl_retry : Retry;
  pl_idempotencyKey : string;
  pl_labels : option (list string);
  pl_policyNotes : option (list string)
}.

End Types.

Export Types.

(** ** The scheduling policy ([notification/types.ts], [notification/policy.ts]) *)

Module Policy.

Import Regex JSDate.

Inductive OperationType : Type := Create | Update | Cancel | Query.

Inductive IntentKind : Type := Notify | Remind | FollowUp.

Definition intentKindString (k : IntentKind) : string :=
  match k with
  | Notify => "notify"
  | Remind => "remind"
  | FollowUp => "follow_up"
  end.

Record Recipient : Type := { phoneE164 : string; rc_name : option string }.

Inductive Schedule : Type :=
| Now
| Datetime (iso : string) (timezone : option string)
| Relative (durationISO8601 : string)
| Cron (expr : string) (timezone : option string) (limit : option Z).

Inductive VarValue : Type := VStr (s : string) | VNum (z : Z).

Record NotificationIntent : Type := {
  intent : IntentKind;
  channel : Channel;
  recipients : list Recipient;
  schedule : option Schedule;
  templateKey : option string;
  message : option string;
  variables : option (gmap string VarValue);
  timezone : option string;
  metadata : option (gmap string string)
}.

Record ParsedIntent : Type := {
  base : NotificationIntent;
  operation : option OperationType;
  notificationId : option string
}.

Record PolicyContext : Type := { defaultTz : string; input : AgentInput }.

Inductive PolicyResult : Type :=
| PolicyOk (plan : NotificationPlan) (notes : list string)
| PolicyFail (error : string).

Definition forceChannel (i : NotificationIntent) (notes : list string)
  : Channel * list string :=
  match channel i with
  | Sms => (Sms, notes)
  | _ => (Sms, notes ++ ["Channel forced to sms."%string])
  end.

(** The resolution from [intent.recipients] is commented out in the
    source; the function returns the internal number for every intent. *)
Definition pickRecipients (i : NotificationIntent) : list string :=
  ["+61412345678"%string].

(** [/\{\{(\w+)\}\}/g] *)
Definition placeholderRe : regex :=
  Seq (Lit "{{") (Seq (Grp 1 (Plus (Chr isWord))) (Lit "}}")).

(** [tpl.replace(re, f)] with the [g] flag, for a pattern that never
    matches the empty string. *)
Fixpoint replaceAllFrom (fuel : nat) (r : regex) (f : mstate -> string)
  (p : option ascii) (s : list ascii) : string :=
  match fuel with
  | O => string_of_list_ascii s
  | S fuel' =>
      match s with
      | [] => EmptyString
      | c :: t =>
          match matchAt r p s with
          | Some m =>
              if (length (rest m) <? length s)%nat
              then (f m ++ replaceAllFrom fuel' r f (prev m) (rest m))%string
              else String c (replaceAllFrom fuel' r f (Some c) t)
          | None => String c (replaceAllFrom fuel' r f (Some c) t)
          end
      end
  end.

Definition replaceAll (r : regex) (f : mstate -> string) (s : string)
  : string :=
  replaceAllFrom (S (String.length s)) r f None (chars s).

Definition varToString (v : VarValue) : string :=
  match v with
  | VStr s => s
  | VNum z => numberToString z
  end.

Definition templates : gmap string string :=
  {[ "reminder.simple"%string :=
       "Hi{{name}}, this is your reminder: {{text}}"%string ]}.

Definition renderTemplate (key : string) (vars : gmap string VarValue)
  : string :=
  let tpl := default EmptyString (templates !! key) in
  replaceAll placeholderRe
    (fun m =>
       match group 1 m with
       | Some k =>
           match vars !! string_of_list_ascii k with
           | Some v => varToString v
           | None => EmptyString
           end
       | None => EmptyString
       end) tpl.

Definition pickBody (i : NotificationIntent) (notes : list string)
  (ctx : PolicyContext) : string * list string :=
  let direct := trim (default EmptyString (message i)) in
  if truthy direct then (direct, notes)
  else if truthyOpt (templateKey i) then
    let key := default EmptyString (templateKey i) in
    let rendered := renderTemplate key (default ∅ (variables i)) in
    (trim rendered,
     notes ++ [("Template(" ++ key ++ ") has been applied.")%string])
  else
    let fallback := trim (in_message (input ctx)) in
    if truthy fallback
    then (fallback, notes ++ ["Using original message as fallback."%string])
    else (EmptyString, notes).

Definition pickTimezone (i : NotificationIntent) (ctx : PolicyContext)
  : string :=
  default (defaultTz ctx)
    (orElse (orElse (timezone i) (in_metadata (input ctx) ≫= md_timezone))
       (Some (defaultTz ctx))).

(** [/^P(?:(\d+)D)?(?:T(?:(\d+)H)?(?:(\d+)M)?)?$/] *)
Definition durationRe : regex :=
  Seq Bol (Seq (chr "P")
    (Seq (Opt (Seq (Grp 1 (Plus digit)) (chr "D")))
      (Seq (Opt (Seq (chr "T")
              (Seq (Opt (Seq (Grp 2 (Plus digit)) (chr "H")))
                   (Opt (Seq (Grp 3 (Plus digit)) (chr "M"))))))
           Eol))).

(** [Number(m[i] ?? 0)] for a group of digits. *)
Definition groupNumber (i : nat) (m : mstate) : Z :=
  match group i m with
  | Some ds => parseDigits ds
  | None => 0
  end.

Definition durationToMs (iso : string) : Exn Z :=
  match search durationRe iso with
  | None => Throw (newError "invalid duration")
  | Some m =>
      let days := groupNumber 1 m in
      let hours := groupNumber 2 m in
      let mins := groupNumber 3 m in
      Ok (((days * 24 + hours) * 60 + mins) * 60 * 1000)
  end.

(** [/\bat\s+(\d{1,2})(?::(\d{2}))?\s*(am|pm)?\b/] *)
Definition timeRe : regex :=
  Seq WordB (Seq (Lit "at") (Seq (Plus space)
    (Seq (Grp 1 (Rep12 digit))
      (Seq (Opt (Seq (chr ":") (Grp 2 (Rep2 digit))))
        (Seq (Star space)
          (Seq (Opt (Grp 3 (Alt (Lit "am") (Lit "pm")))) WordB)))))).

(** [/\btomorrow\b/] *)
Definition tomorrowRe : regex := Seq WordB (Seq (Lit "tomorrow") WordB).

(** [/\bin\s+(\d+)\s*(minute|minutes|hour|hours|day|days)\b/] *)
Definition relRe : regex :=
  Seq WordB (Seq (Lit "in") (Seq (Plus space)
    (Seq (Grp 1 (Plus digit))
      (Seq (Star space)
        (Seq (Grp 2 (Alts [Lit "minute"; Lit "minutes"; Lit "hour";
                           Lit "hours"; Lit "day"; Lit "days"]))
             WordB))))).

(** [/\bnext\s+(monday|tuesday|wednesday|thursday|friday|saturday|sunday)\b/] *)
Definition weekdayRe : regex :=
  Seq WordB (Seq (Lit "next") (Seq (Plus space)
    (Seq (Grp 1 (Alts [Lit "monday"; Lit "tuesday"; Lit "wednesday";
                       Lit "thursday"; Lit "friday"; Lit "saturday";
                       Lit "sunday"]))
         WordB))).

Definition weekdayMap : gmap string Z :=
  {[ "sunday"%string := 0; "monday"%string := 1; "tuesday"%string := 2;
     "wednesday"%string := 3; "thursday"%string := 4;
     "friday"%string := 5; "saturday"%string := 6 ]}.

(** [m[i] || ''] *)
Definition groupText (i : nat) (m : mstate) : string :=
  match group i m with
  | Some cs => string_of_list_ascii cs
  | None => EmptyString
  end.

(** [parseInt(m[i] || '0', 10)] for a group of digits. *)
Definition groupInt (i : nat) (m : mstate) : Z :=
  match group i m with
  | Some [] | None => 0
  | Some ds => parseDigits ds
  end.

Section Clock.
(** The time zone of the host. *)
Variable zone : Zone.

Definition nextWeekday (from targetWeekday : Z) : Date :=
  let curr := getDay zone from in
  let delta := targetWeekday - curr in
  let delta := if delta <=? 0 then delta + 7 else delta in
  addDays zone (Some from) delta.

(** The closure [extractTime] of [inferDateTimeFromMessage]. *)
Definition extractTime (timeMatch : option mstate) (base : Date) : Date :=
  match timeMatch with
  | None => base
  | Some m =>
      let hourRaw := groupInt 1 m in
      let minute := groupInt 2 m in
      let meridiem := groupText 3 m in
      let hour :=
        if String.eqb meridiem "am" then hourRaw mod 12
        else if String.eqb meridiem "pm" then hourRaw mod 12 + 12
        else hourRaw in
      let d := setSeconds0 zone base in
      let d := setMinutes zone d minute in
      setHours zone d hour
  end.

(** [todayAt.getTime() > now.getTime()], false for an invalid date. *)
Definition isAfter (d : Date) (now : Z) : bool :=
  match d with
  | Some t => now <? t
  | None => false
  end.

(** [now] is the reading of the clock taken by [new Date()] on entry.  The
    result is [null] ([None]), or a date that may be invalid. *)
Definition inferDateTimeFromMessage (now : Z) (message : string)
  : option Date :=
  let text := toLowerCase message in
  let timeMatch := search timeRe text in
  (* 1) tomorrow *)
  if test tomorrowRe text then
    let base := newDate (now + 24 * 60 * 60 * 1000) in
    let scheduled := extractTime timeMatch base in
    Some (match timeMatch with
          | None => setHours4 zone scheduled 9 0 0 0
          | Some _ => scheduled
          end)
  else
  (* 2) in X minutes/hours/days *)
  match search relRe text with
  | Some rel =>
      let amount := groupInt 1 rel in
      let unit := groupText 2 rel in
      let ms :=
        if test (Lit "minute") unit then amount * 60 * 1000
        else if test (Lit "hour") unit then amount * 60 * 60 * 1000
        else if test (Lit "day") unit then amount * 24 * 60 * 60 * 1000
        else 0 in
      Some (newDate (now + ms))
  | None =>
  (* 3) next weekday *)
  match search weekdayRe text with
  | Some weekdayMatch =>
      let target := default 0 (weekdayMap !! groupText 1 weekdayMatch) in
      let base := nextWeekday now target in
      let scheduled := extractTime timeMatch base in
      Some (match timeMatch with
            | None => setHours4 zone scheduled 9 0 0 0
            | Some _ => scheduled
            end)
  | None =>
  (* 4) explicit time today (if in future), otherwise tomorrow *)
  match timeMatch with
  | Some _ =>
      let todayAt := extractTime timeMatch (Some now) in
      if isAfter todayAt now then Some todayAt
      else
        let tomorrow := newDate (now + 24 * 60 * 60 * 1000) in
        Some (extractTime timeMatch tomorrow)
  | None => None
  end end end.

(** [clock k] is the [k]-th reading of the system clock ([Date.now()],
    [new Date()]) made during the call, counted from 0; a reading is the
    time value of a valid date. *)
Variable clock : nat -> Z.

Record PickedSchedule : Type := {
  scheduleAt : option string;
  repeat : option Repeat;
  extraNotes : list string
}.

Definition pickSchedule (i : NotificationIntent) (tz : string)
  (ctx : PolicyContext) : PickedSchedule :=
  match schedule i with
  | Some (Datetime iso _) =>
      {| scheduleAt := Some iso; repeat := None; extraNotes := [] |}
  | Some (Relative duration) =>
      match durationToMs duration with
      | Ok ms =>
          (* the note is pushed before [toISOString] can throw *)
          {| scheduleAt := toISOString <$> newDate (clock 0%nat + ms);
             repeat := None;
             extraNotes :=
               ["Relative schedule converted to absolute time."%string] |}
      | Throw _ =>
          {| scheduleAt := None; repeat := None; extraNotes := [] |}
      end
  | Some (Cron expr _ limit) =>
      {| scheduleAt := None;
         repeat := Some {| rp_cron := expr; rp_tz := Some tz;
                           rp_limit := limit |};
         extraNotes := [] |}
  | Some Now | None =>
      (* Natural-language fallback: infer from the utterance. *)
      match inferDateTimeFromMessage (clock 0%nat)
              (in_message (input ctx)) with
      | Some (Some inferred) =>
          if clock 1%nat <? inferred then
            {| scheduleAt := Some (toISOString inferred); repeat := None;
               extraNotes :=
                 ["Natural language schedule inferred from utterance."%string] |}
          else
            {| scheduleAt := Some (toISOString (clock 2%nat));
               repeat := None; extraNotes := [] |}
      | Some None =>
          (* an invalid date: the comparison with [Date.now()] is false *)
          {| scheduleAt := Some (toISOString (clock 2%nat));
             repeat := None; extraNotes := [] |}
      | None =>
          {| scheduleAt := Some (toISOString (clock 1%nat));
             repeat := None; extraNotes := [] |}
      end
  end.

End Clock.

Definition defaultRetry : Retry := {| attempts := 3; backoffMs := 2000 |}.

Record BuildPlanArgs : Type := {
  a_channel : Channel;
  a_to : list string;
  a_body : string;
  a_scheduleAt : option string;
  a_repeat : option Repeat;
  a_retry : Retry;
  a_idempotencyKey : string;
  a_label : option string;
  a_notes : list string
}.

Definition buildPlan (args : BuildPlanArgs) : NotificationPlan :=
  {| pl_channel := a_channel args;
     pl_to := a_to args;
     pl_body := a_body args;
     pl_scheduleAt := ifTruthy (a_scheduleAt args);
     pl_repeat := a_repeat args;
     pl_retry := a_retry args;
     pl_idempotencyKey := a_idempotencyKey args;
     pl_labels :=
       match ifTruthy (a_label args) with
       | Some l => Some [l]
       | None => None
       end;
     pl_policyNotes :=
       match a_notes args with
       | [] => None
       | ns => Some ns
       end |}.

Definition succeed (plan : NotificationPlan) (notes : list string)
  : PolicyResult := PolicyOk plan notes.

Definition fail (error : string) : PolicyResult := PolicyFail error.

(** *** [JSON.stringify] of the identity-relevant fields *)

Definition dquote : ascii := ascii_of_nat 34.

Definition hexDigit (n : nat) : ascii :=
  if (n <? 10)%nat then ascii_of_nat (48 + n) else ascii_of_nat (87 + n).

Definition escapeChar (c : ascii) : string :=
  let n := nat_of_ascii c in
  let esc (x : ascii) := String "\"%char (String x EmptyString) in
  if (n =? 34)%nat then esc dquote
  else if (n =? 92)%nat then esc "\"%char
  else if (n =? 8)%nat then esc "b"%char
  else if (n =? 9)%nat then esc "t"%char
  else if (n =? 10)%nat then esc "n"%char
  else if (n =? 12)%nat then esc "f"%char
  else if (n =? 13)%nat then esc "r"%char
  else if (n <? 32)%nat then
    ("\u00" ++ String (hexDigit (n / 16))
                 (String (hexDigit (n mod 16)) EmptyString))%string
  else String c EmptyString.

Fixpoint escapeString (s : string) : string :=
  match s with
  | EmptyString => EmptyString
  | String c t => (escapeChar c ++ escapeString t)%string
  end.

Definition jsonString (s : string) : string :=
  String dquote (escapeString s ++ String dquote EmptyString).

Fixpoint joinWith (sep : string) (xs : list string) : string :=
  match xs with
  | [] => EmptyString
  | [x] => x
  | x :: xs' => (x ++ sep ++ joinWith sep xs')%string
  end.

Definition jsonStringArray (xs : list string) : string :=
  ("[" ++ joinWith "," (map jsonString xs) ++ "]")%string.

Definition jsonField (k v : string) : string :=
  (jsonString k ++ ":" ++ v)%string.

Definition jsonObject (fields : list (option string)) : string :=
  ("{" ++ joinWith "," (omap id fields) ++ "}")%string.

Definition jsonRepeat (r : Repeat) : string :=
  jsonObject
    [ Some (jsonField "cron" (jsonString (rp_cron r)));
      option_map (fun tz => jsonField "tz" (jsonString tz)) (rp_tz r);
      option_map (fun n => jsonField "limit" (numberToString n)) (rp_limit r) ].

(** The object literal [{ to, body, scheduleAt, repeat }]. *)
Record IdempotencyData : Type := {
  d_to : list string;
  d_body : string;
  d_scheduleAt : option string;
  d_repeat : option Repeat
}.

Definition stringify (d : IdempotencyData) : string :=
  jsonObject
    [ Some (jsonField "to" (jsonStringArray (d_to d)));
      Some (jsonField "body" (jsonString (d_body d)));
      option_map (fun s => jsonField "scheduleAt" (jsonString s))
        (d_scheduleAt d);
      option_map (fun r => jsonField "repeat" (jsonRepeat r)) (d_repeat d) ].

Section Evaluate.
Variable zone : Zone.
Variable clock : nat -> Z.
(** [createHash('sha256').update(s).digest('hex')] *)
Variable sha256hex : string -> string.

Definition generateIdempotencyKey (data : IdempotencyData) : string :=
  let str := stringify data in
  substring 0 32 (sha256hex str).

Definition evaluatePolicy (i : NotificationIntent) (ctx : PolicyContext)
  : PolicyResult :=
  let notes : list string := [] in
  let '(channel, notes) := forceChannel i notes in
  let to := pickRecipients i in
  if (length to =? 0)%nat
  then fail "No valid recipient phone numbers found."
  else
    let '(body, notes) := pickBody i notes ctx in
    if (String.length body =? 0)%nat then fail "Message body is empty."
    else
      let tz := pickTimezone i ctx in
      let picked := pickSchedule zone clock i tz ctx in
      let notes := notes ++ extraNotes picked in
      let retry := defaultRetry in
      let idempotencyKey :=
        generateIdempotencyKey
          {| d_to := to; d_body := body;
             d_scheduleAt := scheduleAt picked;
             d_repeat := repeat picked |} in
      let plan :=
        buildPlan
          {| a_channel := channel; a_to := to; a_body := body;
             a_scheduleAt := ifTruthy (scheduleAt picked);
             a_repeat := repeat picked;
             a_retry := retry;
             a_idempotencyKey := idempotencyKey;
             a_label := Some (intentKindString (intent i));
             a_notes := notes |} in
      succeed plan notes.

End Evaluate.

End Policy.

(** ** Notification tools ([agents/tools/notification.ts]) *)

Module Tools.

Import Regex.

(** An entry of the plan store, as [findMatchingPlanTool] reads it. *)
Record StoredPlanBody : Type := {
  when_iso : option string;
  schedule_iso : option string;
  summary : option string;
  sp_templateKey : option string
}.

Record StoredPlan : Type := {
  sp_notificationId : option string;
  sp_id : option string;
  sp_plan : option StoredPlanBody
}.

(** Scores are kept in tenths: an exact date match is 10 (1 in the
    source), the vocabulary bonus 1 (0.1), the lifted minimum 5 (0.5). *)
(** [p?.plan || p] *)
Inductive PlanRef : Type :=
| PlanBody (b : StoredPlanBody)
| PlanEntry (p : StoredPlan).

Definition planRef (p : StoredPlan) : PlanRef :=
  match sp_plan p with
  | Some b => PlanBody b
  | None => PlanEntry p
  end.

Record Candidate : Type := {
  c_id : option string;
  c_plan : PlanRef;
  c_score : Z
}.

Inductive MatchResult : Type :=
| Matched (notificationId : string) (plan : PlanRef)
| NotFound
| Ambiguous (candidates : list Candidate)
| MatchError (error : string).

(** [/(\d{1,2})\/(\d{1,2})/g] *)
Definition dateRe : regex :=
  Seq (Grp 1 (Rep12 digit)) (Seq (chr "/") (Grp 2 (Rep12 digit))).

(** [/appointment|booking|reminder|notification|report/i] *)
Definition vocabularyRe : regex :=
  Alts [LitI "appointment"; LitI "booking"; LitI "reminder";
        LitI "notification"; LitI "report"].

Definition groupDigits (i : nat) (m : mstate) : Z :=
  match group i m with
  | Some ds => parseDigits ds
  | None => 0
  end.

Definition mentionedDates (utterance : string) : list (Z * Z) :=
  map (fun m => (groupDigits 1 m, groupDigits 2 m))
    (matchAll dateRe utterance).

(** [.sort((a, b) => b.score - a.score)]: descending and stable. *)
Fixpoint insertDesc (x : Candidate) (l : list Candidate) : list Candidate :=
  match l with
  | [] => [x]
  | y :: l' =>
      if c_score x <? c_score y then y :: insertDesc x l'
      else x :: y :: l'
  end.

Definition sortDesc (l : list Candidate) : list Candidate :=
  foldr insertDesc [] l.

Definition setScore (c : Candidate) (s : Z) : Candidate :=
  {| c_id := c_id c; c_plan := c_plan c; c_score := s |}.

Section Store.
(** [mcp.listUserPlans(userId)] *)
Variable listUserPlans : string -> Exn (list StoredPlan).
(** [new Date(iso)] read through [getUTCMonth() + 1] and [getUTCDate()];
    [None] for an invalid date. *)
Variable utcMonthDay : string -> option (Z * Z).

Definition listUserPlansTool (userId : string) : Exn (list StoredPlan) :=
  listUserPlans userId.

Definition scoreCandidate (utterance : string) (dates : list (Z * Z))
  (p : StoredPlan) : Candidate :=
  let id := orElse (sp_notificationId p) (sp_id p) in
  let whenIso :=
    orElse (sp_plan p ≫= when_iso) (sp_plan p ≫= schedule_iso) in
  if negb (truthyOpt id) || negb (truthyOpt whenIso)
  then {| c_id := None; c_plan := planRef p; c_score := 0 |}
  else
    let dateScore :=
      match whenIso ≫= utcMonthDay with
      | Some (month, day) =>
          if existsb (fun d => (month =? fst d) && (day =? snd d)) dates
          then 10 else 0
      | None => 0
      end in
    let textScore := if test vocabularyRe utterance then 1 else 0 in
    {| c_id := id; c_plan := planRef p; c_score := dateScore + textScore |}.

Definition scoredCandidates (utterance : string) (plans : list StoredPlan)
  : list Candidate :=
  List.filter (fun c => truthyOpt (c_id c))
    (map (scoreCandidate utterance (mentionedDates utterance)) plans).

Definition findMatchingPlanTool (userId utterance : string) : MatchResult :=
  match listUserPlansTool userId with
  | Throw e => MatchError e
  | Ok plans =>
      if (length plans =? 0)%nat then NotFound
      else
        let dates := mentionedDates utterance in
        let candidates := sortDesc (scoredCandidates utterance plans) in
        match candidates with
        | [] => NotFound
        | c0 :: others =>
            (* If no date mentioned, return not_found *)
            if (length dates =? 0)%nat then NotFound
            else
              (* If date mentioned but top candidate scored 0, lift *)
              let top := if c_score c0 =? 0 then setScore c0 5 else c0 in
              let candidates := top :: others in
              let ties :=
                List.filter (fun c => c_score c =? c_score top)
                  candidates in
              if (1 <? length ties)%nat then Ambiguous (take 3 ties)
              else Matched (default EmptyString (c_id top)) (c_plan top)
        end
  end.

End Store.

End Tools.

(** ** The notification handler ([agents/specialized/NotificationAgent.ts]) *)

Module NotificationAgent.

Import Policy Tools.

(** Calls that change the job queue, the dead-letter queue or the plan
    store, in the order in which the handler issues them. *)
Inductive Effect : Type :=
| EEnqueue (plan : NotificationPlan)
| ERemoveJob (jobId : string)
| ESavePlan (userId notificationId : string) (plan : NotificationPlan)
    (jobId status : string)
| EDlqPut (reason : string).

(** A handler computation: the calls issued so far and the outcome. *)
Definition M (A : Type) : Type := list Effect * Exn A.

Definition ret {A} (a : A) : M A := ([], Ok a).

Definition bindM {A B} (m : M A) (k : A -> M B) : M B :=
  match m with
  | (es, Ok a) => let '(es', r) := k a in (es ++ es', r)
  | (es, Throw e) => (es, Throw e)
  end.

(** A read of a collaborator: nothing is recorded. *)
Definition query {A} (r : Exn A) : M A := ([], r).

(** A recorded call and the collaborator's answer. *)
Definition call {A} (e : Effect) (r : Exn A) : M A := ([e], r).

Definition tryCatchM {A} (body : M A) (handler : Exception -> M A) : M A :=
  match body with
  | (es, Ok a) => (es, Ok a)
  | (es, Throw e) => let '(es', r) := handler e in (es ++ es', r)
  end.

#[local] Notation "x <- m ;; k" := (bindM m (fun x => k))
  (at level 100, m at next level, right associativity).

(** The prompts sent to the language model, by template and arguments. *)
Inductive Prompt : Type :=
| ExtractIntentPrompt (message : string)
| NotificationMessagePrompt (kind : IntentKind) (originalMessage : string)
    (sched : option Schedule).

(** The external collaborators of the handler. *)
Record World : Type := {
  generate : Prompt -> Exn string;
  (** [JSON.parse(raw) as ParsedIntent]; [None] when parsing throws. *)
  parseIntent : string -> option ParsedIntent;
  listUserPlans : string -> Exn (list StoredPlan);
  utcMonthDay : string -> option (Z * Z);
  getJobId : string -> Exn (option string);
  removeJobById : string -> Exn unit;
  enqueueNotification : NotificationPlan -> Exn string;
  savePlanForUser :
    string -> string -> NotificationPlan -> string -> string -> Exn unit;
  putToNotificationDLQ : string -> Exn unit;
  zone : JSDate.Zone;
  clock : nat -> Z;
  sha256hex : string -> string
}.

Definition defaultTz : string := "Australia/Sydney".

Section Agent.
Variable w : World.

(** [planner.ts] *)
Definition extractIntent (message : string) : Exn ParsedIntent :=
  bind (generate w (ExtractIntentPrompt message)) (fun raw =>
    Ok (match parseIntent w raw with
        | Some parsed => parsed
        | None =>
            {| base := {| intent := Notify; channel := Sms;
                          recipients := []; schedule := Some Now;
                          templateKey := None; message := None;
                          variables := None; timezone := None;
                          metadata := None |};
               operation := None; notificationId := None |}
        end)).

Definition generateNotificationMessage (i : NotificationIntent)
  (originalMessage : string) : string :=
  match generate w (NotificationMessagePrompt (intent i) originalMessage
                      (schedule i)) with
  | Ok response => trim response
  | Throw _ => ("Notification: " ++ originalMessage)%string
  end.

(** [tools/notification.ts] *)
Definition enqueueNotificationTool (plan : NotificationPlan)
  (idempotencyKey : string) : M (Exn string) :=
  let plan' :=
    {| pl_channel := pl_channel plan; pl_to := pl_to plan;
       pl_body := pl_body plan; pl_scheduleAt := pl_scheduleAt plan;
       pl_repeat := pl_repeat plan; pl_retry := pl_retry plan;
       pl_idempotencyKey := idempotencyKey;
       pl_labels := pl_labels plan;
       pl_policyNotes := pl_policyNotes plan |} in
  ([EEnqueue plan'], Ok (enqueueNotification w plan')).

Definition cancelNotificationByIdTool (notificationId : string) : M bool :=
  existing <- query (getJobId w notificationId) ;;
  if truthyOpt existing then
    _ <- call (ERemoveJob (default EmptyString existing))
           (removeJobById w (default EmptyString existing)) ;;
    ret true
  else ret false.

Definition withNotificationId (p : ParsedIntent) (id : string)
  : ParsedIntent :=
  {| base := base p; operation := operation p;
     notificationId := Some id |}.

Definition withMessage (p : ParsedIntent) (msg : string) : ParsedIntent :=
  let b := base p in
  {| base := {| intent := intent b; channel := channel b;
                recipients := recipients b; schedule := schedule b;
                templateKey := templateKey b; message := Some msg;
                variables := variables b; timezone := timezone b;
                metadata := metadata b |};
     operation := operation p; notificationId := notificationId p |}.

Definition action (type : string) (status : ActionStatus)
  (payload : option (gmap string Json)) : AgentAction :=
  {| act_type := type; act_status := Some status;
     act_payload := payload |}.

Definition isOp (p : ParsedIntent) (op : OperationType) : bool :=
  match operation p, op with
  | Some Create, Create | Some Update, Update
  | Some Cancel, Cancel | Some Query, Query => true
  | _, _ => false
  end.

(** The tail of [process]: policy evaluation and submission. *)
Definition submit (input : AgentInput) (parsed : ParsedIntent)
  : M AgentOutput :=
  let policy :=
    evaluatePolicy (zone w) (clock w) (sha256hex w) (base parsed)
      {| Policy.defaultTz := defaultTz; Policy.input := input |} in
  match policy with
  | PolicyFail error =>
      _ <- call (EDlqPut error) (putToNotificationDLQ w error) ;;
      ret (plainOutput
             ("Unable to schedule notification: " ++ error)%string
             [action "plan_notification" Failed
                (Some {[ "reason"%string := JStr error ]})])
  | PolicyOk plan _ =>
      tryCatchM
        (let notificationId :=
           default (pl_idempotencyKey plan)
             (ifTruthy (notificationId parsed)) in
         enq <- enqueueNotificationTool plan notificationId ;;
         jobId <- query enq ;;
         _ <- call (ESavePlan (in_userId input) notificationId plan jobId
                      "scheduled")
                (savePlanForUser w (in_userId input) notificationId plan
                   jobId "scheduled") ;;
         ret {| out_reply := ("Notification scheduled. jobId=" ++ jobId)%string;
                out_route := None; out_intent := None;
                out_entities := None;
                out_actions :=
                  Some [action "schedule_notification" Done
                          (Some {[ "jobId"%string := JStr jobId ]})];
                out_followups :=
                  Some [{| fu_type := Info;
                           fu_text :=
                             match pl_policyNotes plan with
                             | Some ns => joinWith (String " " (String (ascii_of_nat 10) EmptyString)) ns
                             | None => EmptyString
                             end |}];
                out_sharedData :=
                  Some {[ "notificationSchedule"%string := JObj jobId ]};
                out_usageTotalTokens := None;
                out_multiAgentRequest := None;
                out_additionalAgents := None |})
        (fun err =>
           let reason := ("ENQUEUE_FAILED: " ++ err)%string in
           _ <- call (EDlqPut reason) (putToNotificationDLQ w reason) ;;
           ret (plainOutput
                  "An error occurred while enqueuing. Please try again later."
                  [action "schedule_notification" Failed
                     (Some {[ "reason"%string := JStr reason ]})]))
  end.

Definition process (input : AgentInput) : M AgentOutput :=
  parsed <- query (extractIntent (in_message input)) ;;
  let matching :=
    findMatchingPlanTool (listUserPlans w) (utcMonthDay w)
      (in_userId input) (in_message input) in
  if isOp parsed Cancel then
    let resolved : ParsedIntent + AgentOutput :=
      if negb (truthyOpt (notificationId parsed)) then
        match matching with
        | Matched id _ => inl (withNotificationId parsed id)
        | Ambiguous _ =>
            inr (plainOutput
                   "I found multiple matching notifications. Please specify which one you want to cancel."
                   [action "cancel_notification" Pending None])
        | _ =>
            inr (plainOutput
                   "I couldn't find a matching notification to cancel. You can say 'list my notifications' to review them."
                   [action "cancel_notification" Failed None])
        end
      else inl parsed in
    match resolved with
    | inr out => ret out
    | inl parsed =>
        ok <- cancelNotificationByIdTool
                (default EmptyString (notificationId parsed)) ;;
        ret (plainOutput
               (if ok : bool then "The notification has been canceled."
                else "Could not find a notification to cancel.")
               [action "cancel_notification"
                  (if ok then Done else Failed) None])
    end
  else if isOp parsed Query then
    let plans :=
      match listUserPlansTool (listUserPlans w) (in_userId input) with
      | Ok plans => plans
      | Throw _ => []
      end in
    let count := Z.of_nat (length plans) in
    ret (plainOutput
           ("You have " ++ numberToString count ++ " notifications.")%string
           [action "query_notification" Done
              (Some {[ "count"%string := JNum count ]})])
  else
    (* Update without an explicit id: resolve by matching *)
    let resolved : ParsedIntent + AgentOutput :=
      if isOp parsed Update && negb (truthyOpt (notificationId parsed)) then
        match matching with
        | Matched id _ => inl (withNotificationId parsed id)
        | Ambiguous _ =>
            inr {| out_reply :=
                     "I found multiple matching notifications. Please specify which one you want to update.";
                   out_route := None; out_intent := None;
                   out_entities := None;
                   out_actions :=
                     Some [action "update_notification" Pending None];
                   out_followups :=
                     Some [{| fu_type := Question;
                              fu_text :=
                                "I found several notifications around that date. Can you clarify which one?" |}];
                   out_sharedData := None; out_usageTotalTokens := None;
                   out_multiAgentRequest := None;
                   out_additionalAgents := None |}
        | _ =>
            inr (plainOutput
                   "I couldn't find a matching notification to update. You can say 'list my notifications' to review them."
                   [action "update_notification" Failed None])
        end
      else inl parsed in
    match resolved with
    | inr out => ret out
    | inl parsed =>
        (* Update: remove the old job, then re-schedule with the same id *)
        _ <- (if isOp parsed Update && truthyOpt (notificationId parsed)
              then
                existing <- query (getJobId w
                              (default EmptyString (notificationId parsed))) ;;
                if truthyOpt existing
                then call (ERemoveJob (default EmptyString existing))
                       (removeJobById w (default EmptyString existing))
                else ret tt
              else ret tt) ;;
        (* Generate a message body if the parse gave none *)
        let parsed :=
          if negb (truthyOpt (message (base parsed)))
             || String.eqb (trim (default EmptyString (message (base parsed))))
                  EmptyString
          then withMessage parsed
                 (generateNotificationMessage (base parsed)
                    (in_message input))
          else parsed in
        submit input parsed
    end.

End Agent.

End NotificationAgent.

(** ** The router ([agents/router/intent-routing.ts],
       [agents/router/RouterAgent.ts]) *)

Module Router.

Import Regex.

Definition FALLBACK_INTENT : string := "health.advice".

Definition INTENT_TO_ROUTE : gmap string string :=
  {[ "appointment.book"%string := "appointment"%string;
     "appointment.check"%string := "appointment"%string;
     "report.cognitive.weekly"%string := "report"%string;
     "report.generate"%string := "report"%string;
     "report.summary"%string := "report"%string;
     "report.status"%string := "report"%string;
     "health.advice"%string := "gp"%string;
     "notification.schedule"%string := "notification"%string ]}.

Definition resolveRoute (intent : string) : string :=
  default "gp"%string (INTENT_TO_ROUTE !! intent).

Record GuardInput : Type := {
  gi_intent : string;
  gi_entities : option (gmap string Json);
  gi_metadata : option AgentMetadata
}.

Record BlockResult : Type := { blocked : bool; reason : option string }.

(** [/^appointment\./] *)
Definition appointmentRe : regex := Seq Bol (Lit "appointment.").

(** [!metadata || !metadata.googleAccessToken
     || metadata.googleAccessToken === 'test-token'] *)
Definition lacksToken (metadata : option AgentMetadata) : bool :=
  match metadata with
  | None => true
  | Some md =>
      negb (truthyOpt (md_googleAccessToken md))
      || bool_decide (md_googleAccessToken md = Some "test-token"%string)
  end.

Definition BLOCK_RULES : list (GuardInput -> BlockResult) :=
  [ fun gi =>
      if test appointmentRe (gi_intent gi) && lacksToken (gi_metadata gi)
      then {| blocked := true;
              reason := Some "Google Calendar access is required to manage appointments."%string |}
      else {| blocked := false; reason := None |} ].

(** What [classify] returns. *)
Record Classification : Type := {
  cl_intent : string;
  cl_entities : option (gmap string Json);
  cl_usageTotalTokens : option Z;
  cl_multiAgentRequest : option bool;
  cl_additionalAgents : option (list string)
}.

(** The handlers that [process] dispatched to, in order. *)
Definition Dispatched : Type := list (string * AgentInput).

Definition replyOnly (route intent reply : string) : AgentOutput :=
  {| out_reply := reply; out_route := Some route; out_intent := Some intent;
     out_entities := None; out_actions := None; out_followups := None;
     out_sharedData := None; out_usageTotalTokens := None;
     out_multiAgentRequest := None; out_additionalAgents := None |}.

(** The first guard that blocks, as the [for] loop finds it. *)
Fixpoint firstBlock (guards : list (GuardInput -> BlockResult))
  (gi : GuardInput) : option BlockResult :=
  match guards with
  | [] => None
  | guard :: guards' =>
      let res := guard gi in
      if blocked res then Some res else firstBlock guards' gi
  end.

Section RouterAgent.
(** [classify]: the tiered classification; it catches its own failures. *)
Variable classify : string -> Classification.
(** The handlers registered with the router, by route. *)
Variable registry : gmap string Agent.

Definition errorOutput (err : Exception) : AgentOutput :=
  {| out_reply :=
       "I'm sorry, I encountered an error while processing your request. Please try again.";
     out_route := Some "gp"%string; out_intent := Some "error"%string;
     out_entities := None;
     out_actions :=
       Some [{| act_type := "error"; act_status := Some Failed;
                act_payload :=
                  Some {[ "reason"%string := JStr "ROUTER_PROCESSING_ERROR";
                          "details"%string := JStr (messageOrString err) ]} |}];
     out_followups := None; out_sharedData := None;
     out_usageTotalTokens := None; out_multiAgentRequest := None;
     out_additionalAgents := None |}.

(** [{ route, intent, ...usagePart, ...multiAgentPart, ...result }] *)
Definition mergeResult (route : string) (c : Classification)
  (result : AgentOutput) : AgentOutput :=
  let orElseOf {A} (a b : option A) : option A :=
    match a with Some _ => a | None => b end in
  {| out_reply := out_reply result;
     out_route := orElseOf (out_route result) (Some route);
     out_intent := orElseOf (out_intent result) (Some (cl_intent c));
     out_entities := out_entities result;
     out_actions := out_actions result;
     out_followups := out_followups result;
     out_sharedData := out_sharedData result;
     out_usageTotalTokens :=
       orElseOf (out_usageTotalTokens result) (cl_usageTotalTokens c);
     out_multiAgentRequest :=
       orElseOf (out_multiAgentRequest result)
         (if default false (cl_multiAgentRequest c)
          then cl_multiAgentRequest c else None);
     out_additionalAgents :=
       orElseOf (out_additionalAgents result) (cl_additionalAgents c) |}.

Definition process (input : AgentInput) : Dispatched * Exn AgentOutput :=
  let c := classify (in_message input) in
  (* apply guards *)
  match firstBlock BLOCK_RULES
          {| gi_intent := cl_intent c; gi_entities := cl_entities c;
             gi_metadata := in_metadata input |} with
  | Some res =>
      ([], Ok (replyOnly "none" "blocked"
                 (default "Request is blocked by guard rule."%string
                    (ifTruthy (reason res)))))
  | None =>
      let route := resolveRoute (cl_intent c) in
      let target :=
        match registry !! route with
        | Some t => Some (route, t)
        | None => (fun t => ("gp"%string, t)) <$> registry !! "gp"%string
        end in
      match target with
      | None =>
          ([], Ok (replyOnly "gp" (cl_intent c)
                     "I'm not sure how to help with that yet."))
      | Some (name, target) =>
          let targetInput :=
            {| in_userId := in_userId input;
               in_sessionId := in_sessionId input;
               in_message := in_message input;
               in_metadata := in_metadata input;
               in_intent := Some (cl_intent c);
               in_entities := cl_entities c |} in
          ([(name, targetInput)],
           tryCatch
             (bind (target targetInput) (fun result =>
              Ok (mergeResult route c result)))
             (fun err => Ok (errorOutput err)))
      end
  end.

(** The router as the graph sees it. *)
Definition agent : Agent := fun input => snd (process input).

End RouterAgent.

(** *** Classification ([RouterAgent.classify] and its tiers) *)

(** The prompts of the classifier, by template. *)
Inductive ClassifyPrompt : Type :=
| AgentsWithDetailsPrompt (message : string)
| AgentsPrompt (message : string)
| HybridPrompt (message : string)
| LabelPrompt (message : string).

(** The language model and the reading of its replies. *)
Record Classifier : Type := {
  (** [llm.generate(prompt, options)] *)
  llmGenerate : ClassifyPrompt -> Exn string;
  (** [llm.generateWithUsage], an optional method: the text and
      [usage?.totalTokens]. *)
  llmGenerateWithUsage : option (ClassifyPrompt -> Exn (string * option Z));
  (** [JSON.parse(response)] when it is an array: its elements, each by
      the property key it converts to; [None] when parsing throws or the
      value is not an array. *)
  parseAgents : string -> option (list string);
  (** [JSON.parse(responseText)] read through [result.intent]: [None]
      when parsing throws or gives [null]; otherwise the member [intent]
      when it is a string. *)
  parseIntentField : string -> option (option string)
}.

(** The table of [agentToIntent].  It is an object literal: the lookup is
    modelled for names that are not members of [Object.prototype]. *)
Definition AGENT_TO_INTENT : gmap string string :=
  {[ "notification"%string := "notification.schedule"%string;
     "appointment"%string := "appointment.book"%string;
     "medication"%string := "notification.schedule"%string;
     "report"%string := "report.cognitive.weekly"%string;
     "gp"%string := "health.advice"%string ]}.

Definition agentToIntent (agent : string) : option string :=
  ifTruthy (AGENT_TO_INTENT !! agent).

(** [/(sms|notification|notify|push|message|text)/] *)
Definition channelWordsRe : regex :=
  Grp 1 (Alts [Lit "sms"; Lit "notification"; Lit "notify"; Lit "push";
               Lit "message"; Lit "text"]).

(** [/(remind|reminder|take|medication|pill|dose|medicine)/] *)
Definition medicationWordsRe : regex :=
  Grp 1 (Alts [Lit "remind"; Lit "reminder"; Lit "take"; Lit "medication";
               Lit "pill"; Lit "dose"; Lit "medicine"]).

(** [/(book|schedule|appointment|gp|doctor)/] *)
Definition bookingWordsRe : regex :=
  Grp 1 (Alts [Lit "book"; Lit "schedule"; Lit "appointment"; Lit "gp";
               Lit "doctor"]).

(** [/(today|tomorrow|mon|tue|wed|thu|fri|sat|sun|am|pm|:\d\d|\d ?(am|pm)|next|this)/] *)
Definition timeWordsRe : regex :=
  Grp 1 (Alts [Lit "today"; Lit "tomorrow"; Lit "mon"; Lit "tue";
               Lit "wed"; Lit "thu"; Lit "fri"; Lit "sat"; Lit "sun";
               Lit "am"; Lit "pm";
               Seq (chr ":") (Seq digit digit);
               Seq digit (Seq (Opt (chr " "))
                            (Grp 2 (Alt (Lit "am") (Lit "pm"))));
               Lit "next"; Lit "this"]).

(** [/(report|summary|status)/] *)
Definition reportWordsRe : regex :=
  Grp 1 (Alts [Lit "report"; Lit "summary"; Lit "status"]).

(** [/(weekly|cognitive)/] *)
Definition weeklyWordsRe : regex :=
  Grp 1 (Alts [Lit "weekly"; Lit "cognitive"]).

(** [/(report|summary)/] *)
Definition summaryWordsRe : regex :=
  Grp 1 (Alts [Lit "report"; Lit "summary"]).

Definition ruleBased (message : string) : option string :=
  let text := toLowerCase message in
  (* Notification-related patterns (highest priority) *)
  if test channelWordsRe text && test medicationWordsRe text
  then Some "notification.schedule"%string
  (* Appointment-related patterns *)
  else if test bookingWordsRe text && test timeWordsRe text
  then Some "appointment.book"%string
  (* Medication-related patterns now route to notification.schedule *)
  else if test medicationWordsRe text
  then Some "notification.schedule"%string
  (* Report-related patterns *)
  else if test reportWordsRe text then Some "report.generate"%string
  (* Specific report types *)
  else if test weeklyWordsRe text && test summaryWordsRe text
  then Some "report.cognitive.weekly"%string
  else None.

(** [known.includes(x) ? x : FALLBACK_INTENT], with
    [known = Object.keys(INTENT_TO_ROUTE)]. *)
Definition knownOrFallback (label : string) : string :=
  if bool_decide (is_Some (INTENT_TO_ROUTE !! label)) then label
  else FALLBACK_INTENT.

Section Classify.
Variable llm : Classifier.

(** The call through [generateWithUsage] when the model has it, else
    through [generate]. *)
Definition generateText (prompt : ClassifyPrompt)
  : Exn (string * option Z) :=
  match llmGenerateWithUsage llm with
  | Some generateWithUsage => generateWithUsage prompt
  | None => bind (llmGenerate llm prompt) (fun text => Ok (text, None))
  end.

Definition llmBasedClassificationWithDetails (message : string)
  : option Classification :=
  match llmGenerate llm (AgentsWithDetailsPrompt message) with
  | Throw _ => None
  | Ok response =>
      match parseAgents llm response with
      | Some (agent0 :: others) =>
          match agentToIntent agent0 with
          | Some primaryAgent =>
              Some {| cl_intent := primaryAgent;
                      cl_entities := Some ∅;
                      cl_usageTotalTokens := None;
                      cl_multiAgentRequest :=
                        Some (1 <? length (agent0 :: others))%nat;
                      cl_additionalAgents := Some others |}
          | None => None
          end
      | _ => None
      end
  end.

Definition llmBasedClassification (message : string) : option string :=
  match llmGenerate llm (AgentsPrompt message) with
  | Throw _ => None
  | Ok response =>
      match parseAgents llm response with
      | Some (agent0 :: _) => agentToIntent agent0
      | _ => None
      end
  end.

(** The intent and the token usage. *)
Definition simpleClassify (message : string) : Exn (string * option Z) :=
  match llmBasedClassification message with
  | Some llmIntent => Ok (llmIntent, None)
  | None =>
      match ruleBased message with
      | Some ruleBasedIntent => Ok (ruleBasedIntent, None)
      | None =>
          bind (generateText (LabelPrompt message))
            (fun '(labelText, usageTotalTokens) =>
               let label := toLowerCase (trim labelText) in
               Ok (knownOrFallback label, usageTotalTokens))
      end
  end.

Definition hybridClassify (message : string) : Exn (string * option Z) :=
  bind (generateText (HybridPrompt message))
    (fun '(responseText, usageTotalTokens) =>
       match parseIntentField llm responseText with
       | Some intentField =>
           Ok (match intentField with
               | Some i => knownOrFallback i
               | None => FALLBACK_INTENT
               end, usageTotalTokens)
       | None => simpleClassify message
       end).

Definition plainClassification (intent : string) (usage : option Z)
  : Classification :=
  {| cl_intent := intent; cl_entities := Some ∅;
     cl_usageTotalTokens := usage;
     cl_multiAgentRequest := None; cl_additionalAgents := None |}.

Definition classify (message : string) : Classification :=
  (* Step 1: LLM-based multi-agent classification *)
  match llmBasedClassificationWithDetails message with
  | Some llmResult => llmResult
  | None =>
      (* Step 2: rule-based classification *)
      match ruleBased message with
      | Some quick => plainClassification quick None
      | None =>
          (* Step 3: hybrid classification *)
          match hybridClassify message with
          | Ok (intent, usage) => plainClassification intent usage
          | Throw _ => plainClassification FALLBACK_INTENT None
          end
      end
  end.

End Classify.

End Router.

(** ** The orchestration graph ([graph/SimpleAgentGraph.ts],
       [graph/CollaborationTypes.ts], [graph/StateSchema.ts]) *)

Module Graph.

Import Regex.

Inductive MessageType : Type := Request | Response | Notification.

Inductive MessageContent : Type :=
| RouterRequest (intent : option string)
    (entities : option (gmap string Json)) (originalMessage : string)
| AgentResponse (result : AgentOutput).

(** An A2A message; its [timestamp] and [messageId] come from the clock and
    the UUID generator and are left out. *)
Record AgentMessage : Type := {
  msg_from : string;
  msg_to : string;
  msg_type : MessageType;
  msg_content : MessageContent
}.

Record GraphContext : Type := {
  ctx_intent : option string;
  ctx_entities : option (gmap string Json);
  ctx_sharedData : option (gmap string Json);
  ctx_multiAgentRequest : option bool;
  ctx_additionalAgents : option (list string)
}.

Record UsageInfo : Type := { totalTokens : option Z }.

Record TimelineEntry : Type := {
  tl_step : string;
  tl_ms : Z;
  tl_intent : option string;
  tl_route : option string;
  tl_usage : option UsageInfo
}.

Record AgentGraphState : Type := {
  userId : string;
  sessionId : string;
  originalMessage : string;
  metadata : option AgentMetadata;
  messages : list AgentMessage;
  currentAgent : option string;
  finalOutput : option AgentOutput;
  context : GraphContext;
  error : option string;
  timeline : option (list TimelineEntry)
}.

Inductive Priority : Type := High | Medium | Low.

#[global] Instance Priority_eq_dec : EqDecision Priority.
Proof. solve_decision. Defined.

Definition priorityCode (p : Priority) : nat :=
  match p with High => 0 | Medium => 1 | Low => 2 end.

Definition priorityOfCode (n : nat) : Priority :=
  match n with O => High | S O => Medium | _ => Low end.

#[global] Instance Priority_countable : Countable Priority.
Proof.
  apply (inj_countable' priorityCode priorityOfCode).
  intros []; reflexivity.
Defined.

Record CollaborationRule : Type := {
  name : string;
  priority : Priority;
  cost : Z;
  latency : Z;
  targetAgent : string;
  shouldExecute :
    gmap string Json -> option string -> option string -> bool
}.

Inductive StrategyType : Type :=
| Sequential
| Parallel
| WinnerTakeAll
| AllFinishMerge.

Record ExecutionStrategy : Type := {
  st_type : StrategyType;
  st_reason : string
}.

Record CollaborationResult : Type := {
  cr_rule : CollaborationRule;
  cr_result : AgentGraphState;
  cr_success : bool;
  cr_error : option Exception
}.

Record ParallelExecutionResult : Type := {
  pr_rule : CollaborationRule;
  pr_result : AgentGraphState;
  pr_error : option Exception
}.

Inductive PromiseSettledResult (A : Type) : Type :=
| Fulfilled (value : A)
| Rejected (reason : Exception).
Arguments Fulfilled {A} value.
Arguments Rejected {A} reason.

Definition MAX_CONCURRENT_EXECUTIONS : Z := 2.

(** *** Concurrent branches

    Branches started together settle in an order chosen by the scheduler:
    at step [k], [sched k] picks one of the branches still pending. *)

Fixpoint completionFrom (sched : nat -> nat) (step : nat)
  (pending : list nat) (fuel : nat) : list nat :=
  match fuel with
  | O => []
  | S fuel' =>
      match pending !! (sched step mod length pending)%nat with
      | Some i =>
          i :: completionFrom sched (S step)
                 (delete (sched step mod length pending)%nat pending) fuel'
      | None => []
      end
  end.

Definition completionOrder (sched : nat -> nat) (n : nat) : list nat :=
  completionFrom sched 0 (seq 0 n) n.

Definition settle {A} (r : Exn A) : PromiseSettledResult A :=
  match r with
  | Ok a => Fulfilled a
  | Throw e => Rejected e
  end.

(** [Promise.allSettled(promises)]: every branch writes its outcome into
    the slot of its own position as it settles; the array is delivered once
    all have settled. *)
Definition allSettled {A} (sched : nat -> nat) (promises : list (Exn A))
  : list (PromiseSettledResult A) :=
  let n := length promises in
  let slots :=
    foldl (fun slots i => <[ i := settle <$> promises !! i ]> slots)
      (replicate n None) (completionOrder sched n) in
  omap id slots.

(** *** The graph *)

(** The handlers and the environment of one graph instance. *)
Record Env : Type := {
  routerAgent : Agent;
  appointmentAgent : Agent;
  gpAgent : Agent;
  notificationAgent : Agent;
  reportAgent : Agent;
  (** The model's verdict on ingesting a message: the [ingest] field of
      its JSON reply when that is a boolean; [Throw] when the call or the
      parse fails.  The model is asked anew at every call of the ingestion
      hook; the first argument names the call (the stage, or the rule). *)
  ingestVerdict : string -> string -> Exn (option bool);
  (** Wall-clock duration measured for a stage. *)
  elapsedMs : string -> Z;
  sched : nat -> nat
}.

(** The constructor: the router is a [RouterAgent] over [classify] with the
    four handlers registered. *)
Definition SimpleAgentGraph (classify : string -> Router.Classification)
  (appointment gp notification report : Agent)
  (ingestVerdict : string -> string -> Exn (option bool))
  (elapsedMs : string -> Z)
  (sched : nat -> nat) : Env :=
  {| routerAgent :=
       Router.agent classify
         (<[ "report"%string := report ]>
          (<[ "notification"%string := notification ]>
          (<[ "gp"%string := gp ]>
          (<[ "appointment"%string := appointment ]> ∅))));
     appointmentAgent := appointment;
     gpAgent := gp;
     notificationAgent := notification;
     reportAgent := report;
     ingestVerdict := ingestVerdict;
     elapsedMs := elapsedMs;
     sched := sched |}.

Section Graph.
Variable g : Env.

Definition initializeAgents : gmap string Agent :=
  <[ "report"%string := reportAgent g ]>
  (<[ "notification"%string := notificationAgent g ]>
  (<[ "gp"%string := gpAgent g ]>
  (<[ "appointment"%string := appointmentAgent g ]>
  (<[ "router"%string := routerAgent g ]> ∅)))).

Definition agents : gmap string Agent := initializeAgents.

(** [validateContext({ sharedData: {} })] *)
Definition initialContext : GraphContext :=
  {| ctx_intent := None; ctx_entities := None;
     ctx_sharedData := Some ∅; ctx_multiAgentRequest := None;
     ctx_additionalAgents := None |}.

Definition createInitialState (input : AgentInput) : AgentGraphState :=
  {| userId := in_userId input;
     sessionId := in_sessionId input;
     originalMessage := in_message input;
     metadata := in_metadata input;
     messages := [];
     currentAgent := None;
     finalOutput := None;
     context := initialContext;
     error := None;
     timeline := None |}.

Definition createTimelineEntry (step : string) (ms : Z)
  (intent route : option string) (usage : option UsageInfo)
  : TimelineEntry :=
  {| tl_step := step; tl_ms := ms;
     tl_intent := ifTruthy intent;
     tl_route := ifTruthy route;
     tl_usage := usage |}.

Definition extractUsageFromResult (result : AgentGraphState)
  : option UsageInfo :=
  match finalOutput result ≫= out_usageTotalTokens with
  | Some n => Some {| totalTokens := Some n |}
  | None => None
  end.

Definition handleProcessingError (err : Exception)
  (initialState : AgentGraphState) : AgentGraphState :=
  {| userId := userId initialState;
     sessionId := sessionId initialState;
     originalMessage := originalMessage initialState;
     metadata := metadata initialState;
     messages := messages initialState;
     currentAgent := currentAgent initialState;
     finalOutput :=
       Some (plainOutput
               "I'm sorry, I encountered an error. Please try again."
               [{| act_type := "error"; act_status := Some Failed;
                   act_payload := None |}]);
     context := context initialState;
     error := Some ("Processing error: " ++ errorToString err)%string;
     timeline := timeline initialState |}.

Definition createRouterMessage (result : AgentOutput)
  (originalMessage : string) : AgentMessage :=
  {| msg_from := "router";
     msg_to := default "chat"%string (ifTruthy (out_route result));
     msg_type := Request;
     msg_content :=
       RouterRequest (out_intent result) (out_entities result)
         originalMessage |}.

Definition handleRouterError (err : Exception) (state : AgentGraphState)
  : AgentGraphState :=
  {| userId := userId state;
     sessionId := sessionId state;
     originalMessage := originalMessage state;
     metadata := metadata state;
     messages := messages state;
     currentAgent := Some "error_handler"%string;
     finalOutput := finalOutput state;
     context := context state;
     error := Some ("Router error: " ++ errorToString err)%string;
     timeline := timeline state |}.

Definition agentInput (state : AgentGraphState)
  (intent : option string) (entities : option (gmap string Json))
  : AgentInput :=
  {| in_userId := userId state;
     in_sessionId := sessionId state;
     in_message := originalMessage state;
     in_metadata := metadata state;
     in_intent := intent;
     in_entities := entities |}.

Definition executeRouter (state : AgentGraphState) : Exn AgentGraphState :=
  tryCatch
    (bind (match agents !! "router"%string with
           | Some a => Ok a
           | None => Throw (newError "Router agent not found")
           end) (fun routerAgent =>
     bind (routerAgent (agentInput state None None)) (fun result =>
     let message := createRouterMessage result (originalMessage state) in
     Ok {| userId := userId state;
           sessionId := sessionId state;
           originalMessage := originalMessage state;
           metadata := metadata state;
           messages := messages state ++ [message];
           currentAgent :=
             Some (default "chat"%string (ifTruthy (out_route result)));
           finalOutput := Some result;
           context :=
             {| ctx_intent := out_intent result;
                ctx_entities := out_entities result;
                ctx_sharedData := ctx_sharedData (context state);
                ctx_multiAgentRequest := out_multiAgentRequest result;
                ctx_additionalAgents := out_additionalAgents result |};
           error := error state;
           timeline := timeline state |})))
    (fun err => Ok (handleRouterError err state)).

Definition getAgent (agentName : string) : Exn Agent :=
  match agents !! agentName with
  | Some a => Ok a
  | None => Throw (newError ("Agent not found: " ++ agentName)%string)
  end.

Definition createAgentResponseMessage (agentName : string)
  (result : AgentOutput) : AgentMessage :=
  {| msg_from := agentName; msg_to := "router"; msg_type := Response;
     msg_content := AgentResponse result |}.

Definition handleSpecializedAgentError (err : Exception)
  (state : AgentGraphState) : AgentGraphState :=
  let agentName := default "chat"%string (ifTruthy (currentAgent state)) in
  {| userId := userId state;
     sessionId := sessionId state;
     originalMessage := originalMessage state;
     metadata := metadata state;
     messages := messages state;
     currentAgent := Some "error_handler"%string;
     finalOutput := finalOutput state;
     context := context state;
     error :=
       Some ("Agent execution error in " ++ agentName ++ ": "
               ++ errorToString err)%string;
     timeline := timeline state |}.

Definition executeSpecializedAgent (state : AgentGraphState)
  : Exn AgentGraphState :=
  tryCatch
    (let agentName :=
       default "chat"%string (ifTruthy (currentAgent state)) in
     bind (getAgent agentName) (fun agent =>
     bind (agent (agentInput state (ctx_intent (context state))
                    (ctx_entities (context state)))) (fun result =>
     let responseMessage := createAgentResponseMessage agentName result in
     Ok {| userId := userId state;
           sessionId := sessionId state;
           originalMessage := originalMessage state;
           metadata := metadata state;
           messages := messages state ++ [responseMessage];
           currentAgent := currentAgent state;
           finalOutput := Some result;
           context := context state;
           error := error state;
           timeline := timeline state |})))
    (fun err => Ok (handleSpecializedAgentError err state)).

(** [/\b(cognitive|memory|...|status)\b/] on the lower-cased text. *)
Definition reportCriteriaRe : regex :=
  Seq WordB
    (Seq (Grp 1 (Alts [Lit "cognitive"; Lit "memory"; Lit "brain";
                       Lit "focus"; Lit "mental"; Lit "mood";
                       Lit "anxiety"; Lit "stress"; Lit "physical";
                       Lit "exercise"; Lit "sleep"; Lit "pain"; Lit "bp";
                       Lit "blood pressure"; Lit "heart"; Lit "summary";
                       Lit "report"; Lit "status"]))
         WordB).

Definition matchesReportCriteria (text : string) : bool :=
  test reportCriteriaRe (toLowerCase text).

Definition isReportCandidate (call text : string) : bool :=
  match ingestVerdict g call text with
  | Ok (Some b) => b
  | Ok None => matchesReportCriteria text
  | Throw _ => matchesReportCriteria text
  end.

Definition withSharedData (state : AgentGraphState)
  (sd : gmap string Json) : AgentGraphState :=
  {| userId := userId state;
     sessionId := sessionId state;
     originalMessage := originalMessage state;
     metadata := metadata state;
     messages := messages state;
     currentAgent := currentAgent state;
     finalOutput := finalOutput state;
     context :=
       {| ctx_intent := ctx_intent (context state);
          ctx_entities := ctx_entities (context state);
          ctx_sharedData := Some sd;
          ctx_multiAgentRequest := ctx_multiAgentRequest (context state);
          ctx_additionalAgents := ctx_additionalAgents (context state) |};
     error := error state;
     timeline := timeline state |}.

(** The method marks [state.context.sharedData] in place; the marked
    state is returned and the caller goes on with it.  The best-effort
    writes to the interaction store and the vector store are not
    recorded. *)
Definition saveIfReportCandidateOnce (call : string)
  (state : AgentGraphState) : Exn AgentGraphState :=
  let text := originalMessage state in
  if negb (truthy text) then Ok state
  else if negb (isReportCandidate call text) then Ok state
  else
    let sd := default ∅ (ctx_sharedData (context state)) in
    let already :=
      match sd !! "__reportIngested"%string with
      | Some v => jsTruthy v
      | None => false
      end in
    if already then Ok state
    else
      Ok (withSharedData state
            (<[ "__reportIngested"%string := JBool true ]> sd)).

Definition withTimeline (state : AgentGraphState)
  (tl : list TimelineEntry) : AgentGraphState :=
  {| userId := userId state;
     sessionId := sessionId state;
     originalMessage := originalMessage state;
     metadata := metadata state;
     messages := messages state;
     currentAgent := currentAgent state;
     finalOutput := finalOutput state;
     context := context state;
     error := error state;
     timeline := Some tl |}.

Definition executeRouterStage (state : AgentGraphState)
  : Exn AgentGraphState :=
  bind (executeRouter state) (fun routerResult =>
  bind (saveIfReportCandidateOnce "router" routerResult) (fun routerResult =>
  let timelineEntry :=
    createTimelineEntry "router" (elapsedMs g "router")
      (ctx_intent (context routerResult)) (currentAgent routerResult)
      (extractUsageFromResult routerResult) in
  Ok (withTimeline routerResult
        (default [] (timeline routerResult) ++ [timelineEntry])))).

Definition executeSpecializedAgentStage (state : AgentGraphState)
  : Exn AgentGraphState :=
  bind (executeSpecializedAgent state) (fun agentResult =>
  let step :=
    ("agent:" ++ default "chat" (ifTruthy (currentAgent agentResult)))%string in
  let timelineEntry :=
    createTimelineEntry step (elapsedMs g step) None None
      (extractUsageFromResult agentResult) in
  Ok (withTimeline agentResult
        (default (default [] (timeline state)) (timeline agentResult)
           ++ [timelineEntry]))).

(** *** Collaboration *)

Definition truthyKey (sd : gmap string Json) (k : string) : bool :=
  match sd !! k with
  | Some v => jsTruthy v
  | None => false
  end.

Definition isAgent (currentAgent : option string) (a : string) : bool :=
  match currentAgent with
  | Some c => String.eqb c a
  | None => false
  end.

Definition createNotificationToAppointmentRule : CollaborationRule :=
  {| name := "notification-to-appointment";
     priority := High;
     cost := 1;
     latency := 1000;
     targetAgent := "appointment";
     shouldExecute := fun sharedData intent currentAgent =>
       isAgent currentAgent "notification"
       && truthyKey sharedData "notificationSchedule"
       && negb (truthyKey sharedData "appointmentSchedule") |}.

Definition createAppointmentToReportRule : CollaborationRule :=
  {| name := "appointment-to-report";
     priority := Low;
     cost := 2;
     latency := 2000;
     targetAgent := "report";
     shouldExecute := fun sharedData intent currentAgent =>
       isAgent currentAgent "appointment"
       && truthyKey sharedData "appointmentSchedule"
       && negb (truthyKey sharedData "reportSchedule") |}.

Definition getCollaborationRules : list CollaborationRule :=
  [ createNotificationToAppointmentRule; createAppointmentToReportRule ].

Definition extractSharedData (state : AgentGraphState)
  : option (gmap string Json) :=
  finalOutput state ≫= out_sharedData.

Definition getApplicableRules (sharedData : gmap string Json)
  (state : AgentGraphState) : list CollaborationRule :=
  List.filter
    (fun rule =>
       shouldExecute rule sharedData (ctx_intent (context state))
         (currentAgent state))
    getCollaborationRules.

Definition hasMixedPriorities (rules : list CollaborationRule) : bool :=
  let priorities : gset Priority := list_to_set (map priority rules) in
  (1 <? size priorities)%nat.

Definition hasSamePriority (rules : list CollaborationRule) : bool :=
  if (length rules <=? 1)%nat then false
  else
    let firstPriority := priority <$> head rules in
    forallb (fun r => bool_decide (Some (priority r) = firstPriority))
      rules.

Definition determineExecutionStrategy (rules : list CollaborationRule)
  (state : AgentGraphState) : ExecutionStrategy :=
  if (length rules =? 1)%nat then
    {| st_type := Sequential; st_reason := "Single rule execution" |}
  else if hasMixedPriorities rules then
    {| st_type := WinnerTakeAll; st_reason := "Mixed priority rules" |}
  else if hasSamePriority rules then
    {| st_type := AllFinishMerge; st_reason := "Same priority rules" |}
  else
    {| st_type := Sequential;
       st_reason := "Default sequential execution" |}.

Definition createCollaborationState (state : AgentGraphState)
  (rule : CollaborationRule) : AgentGraphState :=
  {| userId := userId state;
     sessionId := sessionId state;
     originalMessage := originalMessage state;
     metadata := metadata state;
     messages := messages state;
     currentAgent := Some (targetAgent rule);
     finalOutput := finalOutput state;
     context :=
       {| ctx_intent := ctx_intent (context state);
          ctx_entities := ctx_entities (context state);
          ctx_sharedData :=
            Some (default ∅ (finalOutput state ≫= out_sharedData)
                    ∪ default ∅ (ctx_sharedData (context state)));
          ctx_multiAgentRequest := ctx_multiAgentRequest (context state);
          ctx_additionalAgents := ctx_additionalAgents (context state) |};
     error := error state;
     timeline := timeline state |}.

(** The part of [executeCollaborationRule] after the hook: the target
    handler on the collaboration state. *)
Definition invokeRule (state : AgentGraphState) (rule : CollaborationRule)
  : Exn AgentGraphState :=
  let nextState := createCollaborationState state rule in
  executeSpecializedAgent nextState.

(** The hook, then the target handler on the collaboration state. *)
Definition executeCollaborationRule (state : AgentGraphState)
  (rule : CollaborationRule) : Exn AgentGraphState :=
  bind (saveIfReportCandidateOnce ("rule:" ++ name rule) state) (fun state =>
  invokeRule state rule).

(** The spread of [result.context] over [mergedState.context] takes
    [intent], [entities] and the multi-agent fields from [result]: these
    keys are present in every context from the router stage on, which is
    where the states of a collaboration come from. *)
Definition mergeSingleResult (mergedState result : AgentGraphState)
  : AgentGraphState :=
  {| userId := userId mergedState;
     sessionId := sessionId mergedState;
     originalMessage := originalMessage mergedState;
     metadata := metadata mergedState;
     messages := messages mergedState ++ messages result;
     currentAgent := currentAgent mergedState;
     finalOutput := finalOutput mergedState;
     context :=
       {| ctx_intent := ctx_intent (context result);
          ctx_entities := ctx_entities (context result);
          ctx_sharedData :=
            Some (default ∅ (finalOutput result ≫= out_sharedData)
                    ∪ (default ∅ (ctx_sharedData (context result))
                       ∪ default ∅ (ctx_sharedData (context mergedState))));
          ctx_multiAgentRequest := ctx_multiAgentRequest (context result);
          ctx_additionalAgents := ctx_additionalAgents (context result) |};
     error := error mergedState;
     timeline := timeline mergedState |}.

Definition mergeCollaborationResults (originalState : AgentGraphState)
  (results : list AgentGraphState) : AgentGraphState :=
  if (length results =? 0)%nat then originalState
  else foldl mergeSingleResult originalState results.

Definition executeSequentialCollaboration (state : AgentGraphState)
  (rules : list CollaborationRule) : Exn AgentGraphState :=
  Ok (foldl (fun currentState rule =>
               match executeCollaborationRule currentState rule with
               | Ok result => result
               | Throw _ => currentState
               end) state rules).

(** *** Branches on one state object

    The three fan-out strategies call [executeCollaborationRule] for every
    rule on the same state object.  The hook of a branch marks that object
    in place, so a branch goes on with the object as it is when its own
    hook has completed, marked perhaps by the hook of another branch; and
    what the strategy reads from [state] afterwards is the object as the
    hooks have left it.  The scheduler picks the order in which the hooks
    complete with its first [length rules] picks and the order in which
    the handlers complete with its next ones. *)

(** The state object after the hooks, and for every branch what its hook
    returned: the object as the branch found it. *)
Definition runHooks (state : AgentGraphState)
  (rules : list CollaborationRule)
  : AgentGraphState * list (Exn AgentGraphState) :=
  foldl (fun acc i =>
           match rules !! i with
           | Some rule =>
               let found :=
                 saveIfReportCandidateOnce ("rule:" ++ name rule)
                   (fst acc) in
               (match found with Ok marked => marked | Throw _ => fst acc end,
                <[ i := found ]> (snd acc))
           | None => acc
           end)
    (state, replicate (length rules) (Ok state))
    (completionOrder (sched g) (length rules)).

(** The state object after the hooks and the outcome of every branch, in
    list order. *)
Definition runBranches (state : AgentGraphState)
  (rules : list CollaborationRule)
  : AgentGraphState * list (Exn AgentGraphState) :=
  let '(state, found) := runHooks state rules in
  (state,
   zip_with (fun rule view => bind view (fun view => invokeRule view rule))
     rules found).

(** The scheduler's picks after those that ordered the hooks. *)
Definition handlerSched (rules : list CollaborationRule) : nat -> nat :=
  fun k => sched g (length rules + k)%nat.

(** The branches take a permit of the semaphore before they run, which
    bounds how many run at once; each pushes its result when it
    completes, so [results] is in completion order.  (With more rules than
    permits a branch starts only when another has completed; the model
    orders the hooks and the completions independently.) *)
Definition executeParallelCollaboration (state : AgentGraphState)
  (rules : list CollaborationRule) : Exn AgentGraphState :=
  let '(state, outcomes) := runBranches state rules in
  let executeRule (i : nat) : option ParallelExecutionResult :=
    rule ← rules !! i;
    outcome ← outcomes !! i;
    Some match outcome with
         | Ok result =>
             {| pr_rule := rule; pr_result := result; pr_error := None |}
         | Throw e =>
             {| pr_rule := rule; pr_result := state; pr_error := Some e |}
         end in
  let results :=
    omap executeRule
      (completionOrder (handlerSched rules) (length rules)) in
  let successfulResults :=
    List.filter
      (fun r => match pr_error r with Some _ => false | None => true end)
      results in
  Ok (mergeCollaborationResults state (map pr_result successfulResults)).

(** The [async rule => { try ... catch ... }] of the two fan-out
    strategies on the outcome of [executeCollaborationRule]: it never
    rejects.  [state] is the state object, read once all have settled. *)
Definition attemptRule (state : AgentGraphState) (rule : CollaborationRule)
  (outcome : Exn AgentGraphState) : Exn CollaborationResult :=
  tryCatch
    (bind outcome (fun result =>
     Ok {| cr_rule := rule; cr_result := result; cr_success := true;
           cr_error := None |}))
    (fun err =>
     Ok {| cr_rule := rule; cr_result := state; cr_success := false;
           cr_error := Some err |}).

Definition isSuccessful (r : PromiseSettledResult CollaborationResult)
  : bool :=
  match r with
  | Fulfilled v => cr_success v
  | Rejected _ => false
  end.

Definition findFirstSuccessfulResult
  (results : list (PromiseSettledResult CollaborationResult))
  : option CollaborationResult :=
  match List.find isSuccessful results with
  | Some (Fulfilled v) => Some v
  | _ => None
  end.

(** [rules.map(async rule => ...)], settled. *)
Definition settledAttempts (state : AgentGraphState)
  (rules : list CollaborationRule)
  : AgentGraphState * list (PromiseSettledResult CollaborationResult) :=
  let '(state, outcomes) := runBranches state rules in
  let promises := zip_with (attemptRule state) rules outcomes in
  (state, allSettled (handlerSched rules) promises).

Definition executeWinnerTakeAllCollaboration (state : AgentGraphState)
  (rules : list CollaborationRule) : Exn AgentGraphState :=
  let '(state, results) := settledAttempts state rules in
  match findFirstSuccessfulResult results with
  | Some successfulResult => Ok (cr_result successfulResult)
  | None => Ok state
  end.

Definition extractSuccessfulResults
  (results : list (PromiseSettledResult CollaborationResult))
  : list AgentGraphState :=
  omap (fun r => match r with
                 | Fulfilled v => Some (cr_result v)
                 | Rejected _ => None
                 end)
    (List.filter isSuccessful results).

Definition executeAllFinishMergeCollaboration (state : AgentGraphState)
  (rules : list CollaborationRule) : Exn AgentGraphState :=
  let '(state, results) := settledAttempts state rules in
  let successfulResults := extractSuccessfulResults results in
  Ok (mergeCollaborationResults state successfulResults).

Definition executeCollaborationStrategy (state : AgentGraphState)
  (rules : list CollaborationRule) (strategy : ExecutionStrategy)
  : Exn AgentGraphState :=
  match st_type strategy with
  | Sequential => executeSequentialCollaboration state rules
  | Parallel => executeParallelCollaboration state rules
  | WinnerTakeAll => executeWinnerTakeAllCollaboration state rules
  | AllFinishMerge => executeAllFinishMergeCollaboration state rules
  end.

Definition executeGenericCollaboration (state : AgentGraphState)
  : Exn AgentGraphState :=
  if default false (ctx_multiAgentRequest (context state)) then Ok state
  else
    match extractSharedData state with
    | None => Ok state
    | Some sharedData =>
        let applicableRules := getApplicableRules sharedData state in
        if (length applicableRules =? 0)%nat then Ok state
        else
          let executionStrategy :=
            determineExecutionStrategy applicableRules state in
          executeCollaborationStrategy state applicableRules
            executionStrategy
    end.

Definition executeCollaborationStage (state : AgentGraphState)
  : Exn AgentGraphState :=
  bind (saveIfReportCandidateOnce "collaboration" state) (fun state =>
  bind (executeGenericCollaboration state) (fun collaborationResult =>
  let timelineEntry :=
    createTimelineEntry "collaboration" (elapsedMs g "collaboration")
      None None None in
  Ok (withTimeline collaborationResult
        (default (default [] (timeline state))
           (timeline collaborationResult) ++ [timelineEntry])))).

(** Router, then the specialised agent, then the collaboration stage. *)
Definition process (input : AgentInput) : Exn AgentGraphState :=
  let initialState := createInitialState input in
  tryCatch
    (bind (executeRouterStage initialState) (fun routerResult =>
     if truthyOpt (error routerResult) then Ok routerResult
     else
       bind (executeSpecializedAgentStage routerResult) (fun agentResult =>
       if truthyOpt (error agentResult) then Ok agentResult
       else executeCollaborationStage agentResult)))
    (fun err => Ok (handleProcessingError err initialState)).

End Graph.

End Graph.

(** ** The job queue ([lib/bullmq.ts]) *)

Module BullMQ.

(** A number that may be [NaN]. *)
Inductive JsNumber : Type :=
| Num (z : Z)
| NaN.

Record Backoff : Type := { bo_type : string; bo_delay : Z }.

Record JobsOptions : Type := {
  jo_attempts : Z;
  jo_backoff : Backoff;
  jo_removeOnComplete : Z;
  jo_removeOnFail : Z;
  jo_jobId : string;
  jo_delay : option JsNumber;
  jo_repeat : option Repeat
}.

Definition withDelay (opts : JobsOptions) (delay : JsNumber) : JobsOptions :=
  {| jo_attempts := jo_attempts opts; jo_backoff := jo_backoff opts;
     jo_removeOnComplete := jo_removeOnComplete opts;
     jo_removeOnFail := jo_removeOnFail opts; jo_jobId := jo_jobId opts;
     jo_delay := Some delay; jo_repeat := jo_repeat opts |}.

Definition withRepeat (opts : JobsOptions) (repeat : Repeat) : JobsOptions :=
  {| jo_attempts := jo_attempts opts; jo_backoff := jo_backoff opts;
     jo_removeOnComplete := jo_removeOnComplete opts;
     jo_removeOnFail := jo_removeOnFail opts; jo_jobId := jo_jobId opts;
     jo_delay := jo_delay opts; jo_repeat := Some repeat |}.

Section Queue.
(** [Date.now()] *)
Variable now : Z.
(** [new Date(iso).getTime()]; [None] for an invalid date. *)
Variable getTime : string -> option Z.
(** [notificationQueue.add(name, data, opts)], by the id of the job. *)
Variable add : string -> NotificationPlan -> JobsOptions -> Exn string.

(** [Math.max(0, ts - now)] *)
Definition delayUntil (ts : option Z) : JsNumber :=
  match ts with
  | Some t => Num (Z.max 0 (t - now))
  | None => NaN
  end.

(** The options that [enqueueNotification] passes to the queue. *)
Definition jobsOptions (plan : NotificationPlan) : JobsOptions :=
  let opts :=
    {| jo_attempts := attempts (pl_retry plan);
       jo_backoff :=
         if backoffMs (pl_retry plan) =? 0
         then {| bo_type := "exponential"; bo_delay := 2000 |}
         else {| bo_type := "exponential";
                 bo_delay := backoffMs (pl_retry plan) |};
       jo_removeOnComplete := 100;
       jo_removeOnFail := 50;
       jo_jobId := pl_idempotencyKey plan;
       jo_delay := None;
       jo_repeat := None |} in
  let opts :=
    match pl_scheduleAt plan, pl_repeat plan with
    | Some scheduleAt, None =>
        if truthy scheduleAt then
          let ts := getTime scheduleAt in
          let delay := delayUntil ts in
          (* Ensure a minimal positive delay *)
          let delay :=
            match delay with
            | Num 0 => Num 20000
            | _ => delay
            end in
          withDelay opts delay
        else opts
    | _, _ => opts
    end in
  let opts :=
    match pl_repeat plan with
    | Some repeat =>
        withRepeat opts
          {| rp_cron := rp_cron repeat; rp_tz := rp_tz repeat;
             rp_limit := rp_limit repeat |}
    | None => opts
    end in
  opts.

Definition enqueueNotification (plan : NotificationPlan) : Exn string :=
  add "notify" plan (jobsOptions plan).

End Queue.

End BullMQ.

(** ** The semaphore of the parallel strategy ([graph/SimpleAgentGraph.ts])

    A branch of [executeParallelCollaboration] is [executeRule]: it
    acquires a permit, runs its rule and releases the permit in a
    [finally] block.  A branch that finds no permit leaves its [resolve]
    callback in the queue of the semaphore and continues when a release
    calls it.  Branches are named by their position in [rules]; an
    interleaving of the branches is the list of the positions of the
    branches that take their next step. *)

Module Semaphore.

Record Semaphore : Type := {
  permits : Z;
  (** the queued [resolve] callbacks, by the branches they continue *)
  waiting : list nat
}.

(** [new Semaphore(permits)] *)
Definition new (permits : Z) : Semaphore :=
  {| permits := permits; waiting := [] |}.

(** [acquire()] called by branch [i]: the semaphore afterwards and whether
    the promise is already resolved. *)
Definition acquire (i : nat) (s : Semaphore) : Semaphore * bool :=
  if 0 <? permits s
  then ({| permits := permits s - 1; waiting := waiting s |}, true)
  else ({| permits := permits s; waiting := waiting s ++ [i] |}, false).

(** [release()]: the semaphore afterwards and the branch whose [resolve]
    was called. *)
Definition release (s : Semaphore) : Semaphore * option nat :=
  match waiting s with
  | resolve :: rest => ({| permits := permits s; waiting := rest |},
                        Some resolve)
  | [] => ({| permits := permits s + 1; waiting := [] |}, None)
  end.

(** Where a branch of [executeRule] stands. *)
Inductive Status : Type :=
| Idle       (* before [semaphore.acquire()] *)
| Waiting    (* at [await semaphore.acquire()], promise pending *)
| Running    (* in the [try] block *)
| Finished.  (* after the [finally] block *)

Definition isRunning (st : Status) : bool :=
  match st with Running => true | _ => false end.

Definition isFinished (st : Status) : bool :=
  match st with Finished => true | _ => false end.

Record Execution : Type := {
  semaphore : Semaphore;
  branches : list Status
}.

(** [rules.map(executeRule)] before any branch has taken a step. *)
Definition start (permits : Z) (rules : nat) : Execution :=
  {| semaphore := new permits; branches := replicate rules Idle |}.

(** The next step of branch [i]. *)
Definition step (i : nat) (e : Execution) : Execution :=
  match branches e !! i with
  | Some Idle =>
      let '(s, resolved) := acquire i (semaphore e) in
      {| semaphore := s;
         branches :=
           <[ i := if resolved then Running else Waiting ]> (branches e) |}
  | Some Running =>
      let '(s, resolve) := release (semaphore e) in
      let branches := <[ i := Finished ]> (branches e) in
      {| semaphore := s;
         branches :=
           match resolve with
           | Some j => <[ j := Running ]> branches
           | None => branches
           end |}
  | _ => e
  end.

Definition run (schedule : list nat) (e : Execution) : Execution :=
  foldl (fun e i => step i e) e schedule.

Definition running (e : Execution) : nat :=
  length (List.filter isRunning (branches e)).

Definition allFinished (e : Execution) : bool :=
  forallb isFinished (branches e).

(** [SEMAPHORE_CONFIG.MAX_CONCURRENT_EXECUTIONS] *)
Definition MAX_CONCURRENT_EXECUTIONS : Z := 2.

End Semaphore.

(** ** The event bus ([graph/AgentEventBus.ts])

    The bus keeps the messages that were sent; the listeners that
    [sendMessage] notifies have no access to the history and are left
    out. *)

Module EventBus.

Section Bus.
(** [content: any] *)
Context {Content : Type}.

Record AgentMessage : Type := {
  msg_from : string;
  msg_to : string;
  msg_type : string;
  msg_content : Content;
  msg_timestamp : Z;
  msg_messageId : string
}.

Definition maxHistorySize : nat := 1000.

(** [l.slice(start)] *)
Definition slice {A} (start : Z) (l : list A) : list A :=
  let len := Z.of_nat (length l) in
  let k := if start <? 0 then Z.max (len + start) 0 else Z.min start len in
  drop (Z.to_nat k) l.

Definition addToHistory (messageHistory : list AgentMessage)
  (message : AgentMessage) : list AgentMessage :=
  let messageHistory := messageHistory ++ [message] in
  (* Limit history size *)
  if (maxHistorySize <? length messageHistory)%nat
  then slice (- Z.of_nat maxHistorySize) messageHistory
  else messageHistory.

(** [sendMessage], by the history afterwards; [timestamp] is the clock and
    [messageId] the generated id. *)
Definition sendMessage (messageHistory : list AgentMessage)
  (from to type : string) (content : Content) (timestamp : Z)
  (messageId : string) : list AgentMessage :=
  addToHistory messageHistory
    {| msg_from := from; msg_to := to; msg_type := type;
       msg_content := content; msg_timestamp := timestamp;
       msg_messageId := messageId |}.

Definition involves (agent : string) (msg : AgentMessage) : bool :=
  String.eqb (msg_from msg) agent || String.eqb (msg_to msg) agent.

(** [limit] is [None] when it is [undefined] or [NaN]. *)
Definition getMessageHistory (messageHistory : list AgentMessage)
  (agent : option string) (limit : option Z) : list AgentMessage :=
  let history := messageHistory in
  let history :=
    match agent with
    | Some a => if truthy a then List.filter (involves a) history else history
    | None => history
    end in
  let history :=
    match limit with
    | Some n => if n =? 0 then history else slice (- n) history
    | None => history
    end in
  history.

End Bus.

Arguments AgentMessage : clear implicits.

End EventBus.

(** ** The chat route ([routes/agents-graph.ts]) *)

Module ChatRoute.

Import Graph.

(** The body of a [POST /chat] request; the three required fields are
    strings when they are present. *)
Record ChatRequest : Type := {
  rq_userId : option string;
  rq_sessionId : option string;
  rq_message : option string;
  rq_metadata : option AgentMetadata;
  (** truthiness of [stream], [timeline] and [tokenStream] *)
  rq_stream : bool;
  rq_timeline : bool;
  rq_tokenStream : bool
}.

Record ChatResponse : Type := {
  rs_reply : string;
  rs_actions : list AgentAction;
  rs_followups : list Followup;
  rs_a2aMessages : list AgentMessage;
  rs_context : GraphContext;
  rs_currentAgent : option string;
  rs_error : option string;
  rs_timeline : option (list TimelineEntry)
}.

(** A server-sent event, by its [type]. *)
Inductive SseEvent : Type :=
| EvStatus
| EvStep
| EvResult (data : ChatResponse)
| EvDone
| EvError (error : string).

Inductive Reply : Type :=
| Status400 (error : string)
| Status500 (error message : string)
| Send (response : ChatResponse)
| EventStream (events : list SseEvent).

Definition response (wantTimeline : bool) (result : AgentGraphState)
  : ChatResponse :=
  {| rs_reply :=
       match finalOutput result with
       | Some out =>
           if truthy (out_reply out) then out_reply out
           else "No response generated"
       | None => "No response generated"
       end;
     rs_actions := default [] (finalOutput result ≫= out_actions);
     rs_followups := default [] (finalOutput result ≫= out_followups);
     rs_a2aMessages := messages result;
     rs_context := context result;
     rs_currentAgent := currentAgent result;
     rs_error := error result;
     rs_timeline :=
       if wantTimeline then Some (default [] (timeline result)) else None |}.

Section Route.
Variable agentGraph : Env.

(** The handler of [POST /chat]; [None] is a request without a body. *)
Definition chat (body : option ChatRequest) : Reply :=
  match body with
  | None =>
      Status500 "Internal server error" "Failed to process A2A chat request"
  | Some body =>
      match ifTruthy (rq_userId body), ifTruthy (rq_sessionId body),
            ifTruthy (rq_message body) with
      | Some userId, Some sessionId, Some message =>
          let input :=
            {| in_userId := userId; in_sessionId := sessionId;
               in_message := message; in_metadata := rq_metadata body;
               in_intent := None; in_entities := None |} in
          if rq_stream body then
            EventStream
              (EvStatus
               :: match process agentGraph input with
                  | Ok result =>
                      (if rq_tokenStream body then [EvStep] else [])
                      ++ [EvResult (response (rq_timeline body) result);
                          EvDone]
                  | Throw error => [EvError (errorToString error)]
                  end)
          else
            match process agentGraph input with
            | Ok result => Send (response (rq_timeline body) result)
            | Throw _ =>
                Status500 "Internal server error"
                  "Failed to process A2A chat request"
            end
      | _, _, _ =>
          Status400 "Missing required fields: userId, sessionId, message"
      end
  end.

End Route.

End ChatRoute.

(** * Specification vocabulary and examples

    The notions that the properties below are stated with, and the concrete
    environments on which they are exercised. *)

Import Regex JSDate Policy Tools Graph.

(** The handler call of [executeSpecializedAgent]: the lookup of the current
    agent and its [process]. *)
Definition invokeHandler (g : Env) (state : AgentGraphState)
  : Exn AgentOutput :=
  bind (getAgent g (default "chat"%string (ifTruthy (currentAgent state))))
    (fun agent =>
       agent (agentInput state (ctx_intent (context state))
                (ctx_entities (context state)))).

(** The error shape that the specification describes. *)
Definition specErrorShape (s : AgentGraphState) : Prop :=
  is_Some (error s)
  /\ currentAgent s = Some "error_handler"%string
  /\ exists out a payload,
       finalOutput s = Some out
       /\ out_actions out = Some [a]
       /\ act_type a = "error"%string
       /\ act_status a = Some Failed
       /\ act_payload a = Some payload
       /\ is_Some (payload !! "reason"%string)
       /\ is_Some (payload !! "details"%string).

Definition okAgent (reply : string) : Agent :=
  fun _ => Ok (plainOutput reply []).

Definition failingAgent (msg : string) : Agent := fun _ => Throw msg.

Definition routingAgent (route intent : string) : Agent :=
  fun _ =>
    Ok {| out_reply := "routed"; out_route := Some route;
          out_intent := Some intent; out_entities := None;
          out_actions := None; out_followups := None;
          out_sharedData := None; out_usageTotalTokens := None;
          out_multiAgentRequest := None; out_additionalAgents := None |}.

Definition exampleInput : AgentInput :=
  {| in_userId := "u1"; in_sessionId := "s1";
     in_message := "book a GP appointment tomorrow 3pm";
     in_metadata := None; in_intent := None; in_entities := None |}.

(** The second branch of two settles first. *)
Definition exampleEnv : Env :=
  {| routerAgent := routingAgent "appointment" "appointment.book";
     appointmentAgent := okAgent "appointment booked";
     gpAgent := okAgent "general advice";
     notificationAgent := okAgent "notification scheduled";
     reportAgent := okAgent "report ready";
     ingestVerdict := fun _ _ => Ok (Some false);
     elapsedMs := fun _ => 0;
     sched := fun _ => 1%nat |}.

Definition routerDownEnv : Env :=
  {| routerAgent := failingAgent "router unavailable";
     appointmentAgent := appointmentAgent exampleEnv;
     gpAgent := gpAgent exampleEnv;
     notificationAgent := notificationAgent exampleEnv;
     reportAgent := reportAgent exampleEnv;
     ingestVerdict := ingestVerdict exampleEnv;
     elapsedMs := elapsedMs exampleEnv;
     sched := sched exampleEnv |}.

Definition handlerDownEnv : Env :=
  {| routerAgent := routerAgent exampleEnv;
     appointmentAgent := failingAgent "calendar unavailable";
     gpAgent := gpAgent exampleEnv;
     notificationAgent := notificationAgent exampleEnv;
     reportAgent := reportAgent exampleEnv;
     ingestVerdict := ingestVerdict exampleEnv;
     elapsedMs := elapsedMs exampleEnv;
     sched := sched exampleEnv |}.

Definition replyOf (r : Exn AgentGraphState) : option string :=
  match r with
  | Ok s => out_reply <$> finalOutput s
  | Throw _ => None
  end.

(** The pattern has no capture group numbered [i]. *)
Fixpoint noGroup (i : nat) (r : regex) : bool :=
  match r with
  | Seq a b | Alt a b => noGroup i a && noGroup i b
  | Star a => noGroup i a
  | Grp j a => negb (i =? j)%nat && noGroup i a
  | Eps | Chr _ | WordB | Bol | Eol => true
  end.

Definition DAY : Z := 24 * 60 * 60 * 1000.

(** Local time being UTC plus [offset]: midnight at the start of the local
    day of [t], the instant at which the local clock shows [h]:[m] on that
    day, and the local weekday of [t] (0 is Sunday; the epoch fell on a
    Thursday). *)
Definition startOfLocalDay (offset t : Z) : Z := t - (t + offset) mod DAY.

Definition localDayAt (offset t h m : Z) : Z :=
  startOfLocalDay offset t + h * MS_PER_HOUR + m * MS_PER_MINUTE.

Definition localWeekday (offset t : Z) : Z := ((t + offset) / DAY + 4) mod 7.

(** The days from [now] to the next local day that falls on the weekday
    [wd], from one to seven. *)
Definition daysUntilNext (offset now wd : Z) : Z :=
  let delta := wd - localWeekday offset now in
  if delta <=? 0 then delta + 7 else delta.

(** The offset of the zone is [offset] from a day before [now] to twelve
    days after: no change of daylight saving falls in between. *)
Definition stableZone (zone : Zone) (offset now : Z) : Prop :=
  (forall t, now - DAY <= t <= now + 12 * DAY -> offsetAt zone t = offset)
  /\ (forall l, now + offset - DAY <= l <= now + offset + 12 * DAY ->
        offsetOfLocal zone l = offset).

(** The hour on the 24-hour clock that a matched [TIME] stands for. *)
Definition hour24 (m : mstate) : Z :=
  let hourRaw := groupInt 1 m in
  let meridiem := groupText 3 m in
  if String.eqb meridiem "am" then hourRaw mod 12
  else if String.eqb meridiem "pm" then hourRaw mod 12 + 12
  else hourRaw.

(** ["at TIME"]: the hour on the 24-hour clock and the minute. *)
Definition timeOfDay (text : string) : option (Z * Z) :=
  match search timeRe text with
  | Some m => Some (hour24 m, groupInt 2 m)
  | None => None
  end.

(** The length in milliseconds of the unit of ["in N <unit>"]. *)
Definition unitMs (unit : string) : Z :=
  if String.eqb unit "minute" || String.eqb unit "minutes" then 60 * 1000
  else if String.eqb unit "hour" || String.eqb unit "hours"
       then 60 * 60 * 1000
  else if String.eqb unit "day" || String.eqb unit "days"
       then 24 * 60 * 60 * 1000
  else 0.

(** ["in N minutes/hours/days"]: the offset in milliseconds. *)
Definition relativeOffset (text : string) : option Z :=
  match search relRe text with
  | Some rel => Some (groupInt 1 rel * unitMs (groupText 2 rel))
  | None => None
  end.

(** The number of a weekday, Sunday being 0. *)
Definition weekdayNumber (name : string) : Z :=
  if String.eqb name "sunday" then 0
  else if String.eqb name "monday" then 1
  else if String.eqb name "tuesday" then 2
  else if String.eqb name "wednesday" then 3
  else if String.eqb name "thursday" then 4
  else if String.eqb name "friday" then 5
  else if String.eqb name "saturday" then 6
  else 0.

(** ["next <weekday>"]: the number of the weekday. *)
Definition namedWeekday (text : string) : option Z :=
  match search weekdayRe text with
  | Some m => Some (weekdayNumber (groupText 1 m))
  | None => None
  end.

(** The schedule that the specification gives for an utterance, in its
    priority order; [now] when no pattern matches. *)
Definition specInfer (offset now : Z) (message : string) : Z :=
  let text := toLowerCase message in
  let onDay (base : Z) : Z :=
    match timeOfDay text with
    | Some (h, m) => localDayAt offset base h m
    | None => localDayAt offset base 9 0
    end in
  if test tomorrowRe text then onDay (now + DAY)
  else
    match relativeOffset text with
    | Some ms => now + ms
    | None =>
        match namedWeekday text with
        | Some wd => onDay (now + daysUntilNext offset now wd * DAY)
        | None =>
            match timeOfDay text with
            | Some (h, m) =>
                if now <? localDayAt offset now h m
                then localDayAt offset now h m
                else localDayAt offset (now + DAY) h m
            | None => now
            end
        end
    end.

Definition exampleTzOffset : Z := 39600000.

(** 2026-11-03T01:30:00.000Z, half past noon on the local clock. *)
Definition exampleNow : Z := 1793669400000.

Definition exampleIntent : NotificationIntent :=
  {| intent := Notify; channel := Sms; recipients := [];
     schedule := Some Now; templateKey := None; message := None;
     variables := None; timezone := None;
     Policy.metadata := None |}.

Definition exampleContext (utterance : string) : PolicyContext :=
  {| defaultTz := "Australia/Sydney";
     input := {| in_userId := "u-test"; in_sessionId := "s-test";
                 in_message := utterance; in_metadata := None;
                 in_intent := None; in_entities := None |} |}.

(** A zone with daylight saving: eleven hours ahead of UTC until
    2026-04-04T16:00:00.000Z (03:00 on the local clock of 5 April), ten
    hours from then on.  A local time of the hour that the clock shows
    twice is read with the earlier offset. *)
Definition fallBackZone : Zone :=
  {| offsetAt := fun t =>
       if t <? 1775318400000 then 39600000 else 36000000;
     offsetOfLocal := fun l =>
       if l <? 1775318400000 + 39600000 then 39600000 else 36000000 |}.

(** 2026-04-04T13:30:00.000Z, half past midnight on the local clock of
    5 April. *)
Definition fallBackNow : Z := 1775309400000.

(** The body that [evaluatePolicy] resolves. *)
Definition resolvedBody (i : NotificationIntent) (ctx : PolicyContext)
  : string :=
  fst (pickBody i (snd (forceChannel i [])) ctx).

(** The values of [to], [body], [scheduleAt] and [repeat] that
    [evaluatePolicy] resolves. *)
Definition resolvedIdentity (zone : Zone) (clock : nat -> Z)
  (i : NotificationIntent) (ctx : PolicyContext) : IdempotencyData :=
  let picked := pickSchedule zone clock i (pickTimezone i ctx) ctx in
  {| d_to := pickRecipients i;
     d_body := resolvedBody i ctx;
     d_scheduleAt := scheduleAt picked;
     d_repeat := repeat picked |}.

Definition isPolicyOk (r : PolicyResult) : bool :=
  match r with PolicyOk _ _ => true | PolicyFail _ => false end.

(** A stand-in for the digest in the examples; nothing shown depends on it. *)
Definition exampleDigest (s : string) : string := s.

(** Two evaluations that differ in the channel asked for, in the intent
    kind and in the recipients listed resolve the same four values. *)
Definition otherIntent : NotificationIntent :=
  {| intent := Remind; channel := Whatsapp;
     recipients := [{| phoneE164 := "+61400000000"; rc_name := None |}];
     schedule := Some (Datetime "2026-11-04T09:00:00.000Z" None);
     templateKey := None; message := Some "Take your pill";
     variables := None; timezone := Some "UTC"%string;
     Policy.metadata := None |}.

Definition sameIdentityIntent : NotificationIntent :=
  {| intent := Notify; channel := Sms; recipients := [];
     schedule := Some (Datetime "2026-11-04T09:00:00.000Z" None);
     templateKey := None; message := None;
     variables := None; timezone := None; Policy.metadata := None |}.

Definition isEnqueue (e : NotificationAgent.Effect) : bool :=
  match e with
  | NotificationAgent.EEnqueue _ => true
  | _ => false
  end.

(** The handler computation issued a call to the queue's [enqueue]. *)
Definition enqueueCalled {A} (m : NotificationAgent.M A) : bool :=
  existsb isEnqueue (fst m).

(** The context in which the handler evaluates the policy. *)
Definition agentContext (input : AgentInput) : PolicyContext :=
  {| defaultTz := NotificationAgent.defaultTz; Policy.input := input |}.

Definition agentPolicy (w : NotificationAgent.World) (input : AgentInput)
  (parsed : ParsedIntent) : PolicyResult :=
  evaluatePolicy (NotificationAgent.zone w) (NotificationAgent.clock w)
    (NotificationAgent.sha256hex w) (base parsed) (agentContext input).

Abbreviation descending := (StronglySorted (fun a b => c_score b <= c_score a)).

(** The reading of [new Date(iso)] for a string in the format that
    [toISOString] produces; other strings are left uninterpreted. *)
Definition isoRe : regex :=
  Seq Bol (Seq (Rep2 (Rep2 digit)) (Seq (chr "-")
    (Seq (Grp 1 (Rep2 digit)) (Seq (chr "-")
      (Seq (Grp 2 (Rep2 digit)) (Seq (chr "T")
        (Seq (Rep2 digit) (Seq (chr ":") (Seq (Rep2 digit) (Seq (chr ":")
          (Seq (Rep2 digit) (Seq (chr ".")
            (Seq (Rep2 digit) (Seq digit (Seq (chr "Z") Eol))))))))))))))).

Definition isoUTCMonthDay (iso : string) : option (Z * Z) :=
  match search isoRe iso with
  | Some m => Some (groupDigits 1 m, groupDigits 2 m)
  | None => None
  end.

Definition storedPlan (id iso : string) : StoredPlan :=
  {| sp_notificationId := None; sp_id := Some id;
     sp_plan := Some {| when_iso := Some iso; schedule_iso := None;
                        summary := None; sp_templateKey := None |} |}.

(** The store of the repository's matching test. *)
Definition examplePlans : list StoredPlan :=
  [ storedPlan "n1" "2025-07-03T09:00:00.000Z";
    storedPlan "n2" "2025-07-05T09:00:00.000Z" ].

Definition exampleWorld : NotificationAgent.World :=
  {| NotificationAgent.generate := fun _ => Ok EmptyString;
     NotificationAgent.parseIntent := fun _ => None;
     NotificationAgent.listUserPlans := fun _ => Ok examplePlans;
     NotificationAgent.utcMonthDay := isoUTCMonthDay;
     NotificationAgent.getJobId := fun _ => Ok None;
     NotificationAgent.removeJobById := fun _ => Ok tt;
     NotificationAgent.enqueueNotification := fun _ => Ok "job-1"%string;
     NotificationAgent.savePlanForUser := fun _ _ _ _ _ => Ok tt;
     NotificationAgent.putToNotificationDLQ := fun _ => Ok tt;
     NotificationAgent.zone := fixedZone exampleTzOffset;
     NotificationAgent.clock := fun _ => exampleNow;
     NotificationAgent.sha256hex := exampleDigest |}.

Definition blankInput : AgentInput :=
  {| in_userId := "u7"; in_sessionId := "s7"; in_message := "   ";
     in_metadata := None; in_intent := None; in_entities := None |}.

(** Consuming the characters [cs] at the cursor. *)
Fixpoint matchLit (cs : list ascii) (st : mstate) : option mstate :=
  match cs with
  | [] => Some st
  | c :: cs' =>
      match rest st with
      | x :: t =>
          if Ascii.eqb x c then matchLit cs' (MState (Some x) t (caps st))
          else None
      | [] => None
      end
  end.

(** The reply of the router to a blocked request. *)
Definition blockedOutput : AgentOutput :=
  Router.replyOnly "none" "blocked"
    "Google Calendar access is required to manage appointments.".

(** A classifier that answers [intent] for every message. *)
Definition classifyAs (intent : string) : string -> Router.Classification :=
  fun _ =>
    {| Router.cl_intent := intent; Router.cl_entities := Some ∅;
       Router.cl_usageTotalTokens := None;
       Router.cl_multiAgentRequest := None;
       Router.cl_additionalAgents := None |}.

(** The keys of [context.sharedData]. *)
Definition sharedKeys (s : AgentGraphState) : gset string :=
  dom (default ∅ (ctx_sharedData (context s))).

(** A handler that answers with one entry of shared data. *)
Definition sharingAgent (reply key value : string) : Agent :=
  fun _ =>
    Ok {| out_reply := reply; out_route := None; out_intent := None;
          out_entities := None; out_actions := Some [];
          out_followups := None;
          out_sharedData := Some {[ key := JStr value ]};
          out_usageTotalTokens := None; out_multiAgentRequest := None;
          out_additionalAgents := None |}.

(** Handlers that share their schedules, and a model that ingests every
    message. *)
Definition cascadeEnv : Env :=
  {| routerAgent := routingAgent "appointment" "appointment.book";
     appointmentAgent :=
       sharingAgent "appointment booked" "appointmentSchedule"
         "2025-07-05T09:00:00.000Z";
     gpAgent := okAgent "general advice";
     notificationAgent := okAgent "notification scheduled";
     reportAgent := sharingAgent "report ready" "reportSchedule" "weekly";
     ingestVerdict := fun _ _ => Ok (Some true);
     elapsedMs := fun _ => 0;
     sched := fun n => n |}.

(** The state after the appointment handler has answered, with an entry of
    shared data from before. *)
Definition bookedState : AgentGraphState :=
  {| userId := "u1"; sessionId := "s1";
     originalMessage := "book a GP appointment tomorrow 3pm";
     Graph.metadata := None; messages := [];
     currentAgent := Some "appointment"%string;
     finalOutput :=
       match appointmentAgent cascadeEnv exampleInput with
       | Ok out => Some out
       | Throw _ => None
       end;
     context :=
       {| ctx_intent := Some "appointment.book"%string;
          ctx_entities := None;
          ctx_sharedData := Some {[ "patientId"%string := JStr "p1" ]};
          ctx_multiAgentRequest := None;
          ctx_additionalAgents := None |};
     error := None; timeline := Some [] |}.

(** The timeline entry of the collaboration stage. *)
Definition collaborationEntry (g : Env) : TimelineEntry :=
  createTimelineEntry "collaboration" (elapsedMs g "collaboration")
    None None None.

(** The state with the ingestion mark set. *)
Definition markIngested (state : AgentGraphState) : AgentGraphState :=
  withSharedData state
    (<[ "__reportIngested"%string := JBool true ]>
       (default ∅ (ctx_sharedData (context state)))).

(** The state object as a branch of a fan-out strategy may find it: as it
    was given to the strategy, or marked by a hook. *)
Definition asFound (state view : AgentGraphState) : Prop :=
  view = state \/ view = markIngested state.

(** A router that names a second agent for the request. *)
Definition multiRoutingAgent : Agent :=
  fun _ =>
    Ok {| out_reply := "routed"; out_route := Some "appointment"%string;
          out_intent := Some "appointment.book"%string;
          out_entities := None; out_actions := None; out_followups := None;
          out_sharedData := None; out_usageTotalTokens := None;
          out_multiAgentRequest := Some true;
          out_additionalAgents := Some ["report"%string] |}.

Definition multiInput : AgentInput :=
  {| in_userId := "u1"; in_sessionId := "s1";
     in_message := "book a GP appointment and send me my health report";
     in_metadata := None; in_intent := None; in_entities := None |}.

(** The model declines the message when the router stage asks, and is
    unavailable afterwards, so that the keyword criteria decide. *)
Definition multiEnv : Env :=
  {| routerAgent := multiRoutingAgent;
     appointmentAgent := okAgent "appointment booked";
     gpAgent := okAgent "general advice";
     notificationAgent := okAgent "notification scheduled";
     reportAgent := okAgent "report ready";
     ingestVerdict := fun call _ =>
       if String.eqb call "router" then Ok (Some false)
       else Throw "model unavailable"%string;
     elapsedMs := fun _ => 0;
     sched := fun n => n |}.

(** The state of a request for two agents after the first has answered. *)
Definition multiState : AgentGraphState :=
  {| userId := "u1"; sessionId := "s1";
     originalMessage := "book a GP appointment and send me my health report";
     Graph.metadata := None; messages := [];
     currentAgent := Some "appointment"%string;
     finalOutput := Some (plainOutput "appointment booked" []);
     context :=
       {| ctx_intent := Some "appointment.book"%string;
          ctx_entities := None; ctx_sharedData := Some ∅;
          ctx_multiAgentRequest := Some true;
          ctx_additionalAgents := Some ["report"%string] |};
     error := None; timeline := Some [] |}.

(** The graph as the application builds it, with a classifier that answers
    with a booking. *)
Definition blockedEnv : Env :=
  SimpleAgentGraph (classifyAs "appointment.book")
    (okAgent "appointment booked") (okAgent "general advice")
    (okAgent "notification scheduled") (okAgent "report ready")
    (fun _ _ => Ok (Some false)) (fun _ => 0) (fun n => n).

(** The request that a state carries. *)
Definition requestOf (s : AgentGraphState)
  : string * string * string * option AgentMetadata :=
  (userId s, sessionId s, originalMessage s, Graph.metadata s).

(** The steps of the timeline, in order. *)
Definition steps (s : AgentGraphState) : list string :=
  map tl_step (default [] (timeline s)).

(** The input that the handler stage and a rule invocation pass to a
    handler. *)
Definition handlerInput (s : AgentGraphState) : AgentInput :=
  agentInput s (ctx_intent (context s)) (ctx_entities (context s)).

(** The state after the notification handler has scheduled a job. *)
Definition notifiedState : AgentGraphState :=
  {| userId := "u1"; sessionId := "s1";
     originalMessage := "remind me to take my pill tomorrow at 9am";
     Graph.metadata := None; messages := [];
     currentAgent := Some "notification"%string;
     finalOutput :=
       match sharingAgent "Notification scheduled. jobId=j1"
               "notificationSchedule" "j1" exampleInput with
       | Ok out => Some out
       | Throw _ => None
       end;
     context :=
       {| ctx_intent := Some "notification.schedule"%string;
          ctx_entities := None; ctx_sharedData := Some ∅;
          ctx_multiAgentRequest := None;
          ctx_additionalAgents := None |};
     error := None; timeline := Some [] |}.

(** The names that every object literal inherits from [Object.prototype]:
    a lookup [table[key]] with one of them does not give [undefined]. *)
Definition objectPrototypeKeys : list string :=
  [ "constructor"; "__proto__"; "hasOwnProperty"; "isPrototypeOf";
    "propertyIsEnumerable"; "toLocaleString"; "toString"; "valueOf";
    "__defineGetter__"; "__defineSetter__"; "__lookupGetter__";
    "__lookupSetter__" ]%string.

(** The routes of [INTENT_TO_ROUTE]. *)
Definition ROUTES : list string :=
  [ "appointment"; "report"; "notification"; "gp" ]%string.

(** The guards let the classified request through. *)
Definition unblocked (classify : string -> Router.Classification)
  (input : AgentInput) : Prop :=
  Router.firstBlock Router.BLOCK_RULES
    {| Router.gi_intent := Router.cl_intent (classify (in_message input));
       Router.gi_entities := Router.cl_entities (classify (in_message input));
       Router.gi_metadata := in_metadata input |} = None.

(** The input that the router passes to the handler it dispatches to. *)
Definition routedInput (classify : string -> Router.Classification)
  (input : AgentInput) : AgentInput :=
  {| in_userId := in_userId input;
     in_sessionId := in_sessionId input;
     in_message := in_message input;
     in_metadata := in_metadata input;
     in_intent := Some (Router.cl_intent (classify (in_message input)));
     in_entities := Router.cl_entities (classify (in_message input)) |}.

(** A request that carries an access token. *)
Definition tokenInput : AgentInput :=
  {| in_userId := "u1"; in_sessionId := "s1";
     in_message := "what is on my calendar this week";
     in_metadata :=
       Some {| md_timezone := Some "Australia/Sydney"%string;
               md_locale := None;
               md_googleAccessToken := Some "ya29.token"%string |};
     in_intent := None; in_entities := None |}.

(** The handlers that the graph registers with its router. *)
Definition registryOf (appointment gp notification report : Agent)
  : gmap string Agent :=
  <[ "report"%string := report ]>
    (<[ "notification"%string := notification ]>
    (<[ "gp"%string := gp ]>
    (<[ "appointment"%string := appointment ]> ∅))).

(** The input that the graph passes to its router. *)
Definition routerInput (input : AgentInput) : AgentInput :=
  agentInput (createInitialState input) None None.

(** A handler that answers with the intent it was called with. *)
Definition echoAgent : Agent :=
  fun input =>
    Ok (plainOutput ("handled " ++ default "nothing" (in_intent input)) []).

(** [String(vars[k] ?? '')] for a key that [Object.prototype] has not. *)
Definition varText (vars : gmap string VarValue) (k : string) : string :=
  match vars !! k with
  | Some v => varToString v
  | None => EmptyString
  end.

(** An intent that names a template that does not exist. *)
Definition unknownTemplateIntent : NotificationIntent :=
  {| intent := Remind; channel := Sms; recipients := [];
     schedule := Some Now; templateKey := Some "reminder.fancy"%string;
     message := None; variables := None; timezone := None;
     Policy.metadata := None |}.

(** A reminder in two hours through WhatsApp. *)
Definition relativeIntent : NotificationIntent :=
  {| intent := Remind; channel := Whatsapp; recipients := [];
     schedule := Some (Relative "PT2H");
     templateKey := None; message := Some "  Take your pill "%string;
     variables := None; timezone := None; Policy.metadata := None |}.

(** The plan has an identifier and a time, and its time falls on a date
    that the utterance mentions. *)
Definition onMentionedDate (utcMonthDay : string -> option (Z * Z))
  (utterance : string) (p : StoredPlan) : bool :=
  truthyOpt (orElse (sp_notificationId p) (sp_id p))
  && match orElse (sp_plan p ≫= when_iso) (sp_plan p ≫= schedule_iso) with
     | Some iso =>
         truthy iso
         && match utcMonthDay iso with
            | Some (month, day) =>
                existsb (fun d => (month =? fst d) && (day =? snd d))
                  (mentionedDates utterance)
            | None => false
            end
     | None => false
     end.

(** The identifier under which a stored plan is matched. *)
Definition planId (p : StoredPlan) : option string :=
  orElse (sp_notificationId p) (sp_id p).

(** [{ ...plan, idempotencyKey }]: the plan as it is handed to the queue. *)
Definition withKey (plan : NotificationPlan) (key : string)
  : NotificationPlan :=
  {| pl_channel := pl_channel plan; pl_to := pl_to plan;
     pl_body := pl_body plan; pl_scheduleAt := pl_scheduleAt plan;
     pl_repeat := pl_repeat plan; pl_retry := pl_retry plan;
     pl_idempotencyKey := key;
     pl_labels := pl_labels plan;
     pl_policyNotes := pl_policyNotes plan |}.

(** [parsed.notificationId || plan.idempotencyKey] *)
Definition notificationIdFor (parsed : ParsedIntent)
  (plan : NotificationPlan) : string :=
  default (pl_idempotencyKey plan) (ifTruthy (notificationId parsed)).

(** The parse with which the handler evaluates the policy: the parse of
    the message, with a generated message body when it carries none. *)
Definition withGeneratedMessage (w : NotificationAgent.World)
  (input : AgentInput) (parsed : ParsedIntent) : ParsedIntent :=
  if negb (truthyOpt (message (base parsed)))
     || String.eqb (trim (default EmptyString (message (base parsed))))
          EmptyString
  then NotificationAgent.withMessage parsed
         (NotificationAgent.generateNotificationMessage w (base parsed)
            (in_message input))
  else parsed.

(** The answer of the handler to an error while enqueuing. *)
Definition enqueueFailedOutput (reason : string) : AgentOutput :=
  plainOutput "An error occurred while enqueuing. Please try again later."
    [NotificationAgent.action "schedule_notification" Failed
       (Some {[ "reason"%string := JStr reason ]})].

(** A world whose language model parses every message as [parsed]. *)
Definition worldParsing (parsed : ParsedIntent) : NotificationAgent.World :=
  {| NotificationAgent.generate := fun _ => Ok "{}"%string;
     NotificationAgent.parseIntent := fun _ => Some parsed;
     NotificationAgent.listUserPlans := fun _ => Ok examplePlans;
     NotificationAgent.utcMonthDay := isoUTCMonthDay;
     NotificationAgent.getJobId := fun id =>
       Ok (if String.eqb id "n2" then Some "job-2"%string else None);
     NotificationAgent.removeJobById := fun _ => Ok tt;
     NotificationAgent.enqueueNotification := fun _ => Ok "job-9"%string;
     NotificationAgent.savePlanForUser := fun _ _ _ _ _ =>
       Throw "store unavailable"%string;
     NotificationAgent.putToNotificationDLQ := fun _ => Ok tt;
     NotificationAgent.zone := fixedZone exampleTzOffset;
     NotificationAgent.clock := fun _ => exampleNow;
     NotificationAgent.sha256hex := exampleDigest |}.

Definition queryIntent : ParsedIntent :=
  {| base := exampleIntent; operation := Some Query;
     notificationId := None |}.

Definition cancelIntent : ParsedIntent :=
  {| base := exampleIntent; operation := Some Cancel;
     notificationId := Some "n2"%string |}.

Definition updateIntent : ParsedIntent :=
  {| base := otherIntent; operation := Some Update;
     notificationId := Some "n2"%string |}.

Definition createIntent : ParsedIntent :=
  {| base := otherIntent; operation := Some Create;
     notificationId := None |}.

(** The parse is a creation; every collaborator answers. *)
Definition createWorld : NotificationAgent.World :=
  {| NotificationAgent.generate := fun _ => Ok "{}"%string;
     NotificationAgent.parseIntent := fun _ => Some createIntent;
     NotificationAgent.listUserPlans := fun _ => Ok examplePlans;
     NotificationAgent.utcMonthDay := isoUTCMonthDay;
     NotificationAgent.getJobId := fun _ => Ok None;
     NotificationAgent.removeJobById := fun _ => Ok tt;
     NotificationAgent.enqueueNotification := fun _ => Ok "job-9"%string;
     NotificationAgent.savePlanForUser := fun _ _ _ _ _ => Ok tt;
     NotificationAgent.putToNotificationDLQ := fun _ => Ok tt;
     NotificationAgent.zone := fixedZone exampleTzOffset;
     NotificationAgent.clock := fun _ => exampleNow;
     NotificationAgent.sha256hex := exampleDigest |}.

(** The parse is an update of "n2"; every collaborator answers. *)
Definition updateWorld : NotificationAgent.World :=
  {| NotificationAgent.generate := fun _ => Ok "{}"%string;
     NotificationAgent.parseIntent := fun _ => Some updateIntent;
     NotificationAgent.listUserPlans := fun _ => Ok examplePlans;
     NotificationAgent.utcMonthDay := isoUTCMonthDay;
     NotificationAgent.getJobId := fun id =>
       Ok (if String.eqb id "n2" then Some "job-2"%string else None);
     NotificationAgent.removeJobById := fun _ => Ok tt;
     NotificationAgent.enqueueNotification := fun _ => Ok "job-9"%string;
     NotificationAgent.savePlanForUser := fun _ _ _ _ _ => Ok tt;
     NotificationAgent.putToNotificationDLQ := fun _ => Ok tt;
     NotificationAgent.zone := fixedZone exampleTzOffset;
     NotificationAgent.clock := fun _ => exampleNow;
     NotificationAgent.sha256hex := exampleDigest |}.

(** [w] occurs in [s]. *)
Fixpoint occursIn (w s : string) : bool :=
  String.prefix w s
  || match s with
     | EmptyString => false
     | String _ t => occursIn w t
     end.

(** [/(w1|w2|...)/]: an alternation of literal words, in a group. *)
Definition keywords (ws : list string) : regex := Grp 1 (Alts (map Lit ws)).

(** A model that lists two agents for every message. *)
Definition exampleClassifier : Router.Classifier :=
  {| Router.llmGenerate := fun _ =>
       Ok (jsonStringArray ["appointment"%string; "notification"%string]);
     Router.llmGenerateWithUsage := None;
     Router.parseAgents := fun _ =>
       Some ["appointment"%string; "notification"%string];
     Router.parseIntentField := fun _ => None |}.

(** A model that cannot be reached. *)
Definition downClassifier : Router.Classifier :=
  {| Router.llmGenerate := fun _ => Throw "ECONNREFUSED"%string;
     Router.llmGenerateWithUsage :=
       Some (fun _ => Throw "ECONNREFUSED"%string);
     Router.parseAgents := fun _ => None;
     Router.parseIntentField := fun _ => None |}.

(** The words of [medicationWordsRe] and of [reportWordsRe]. *)
Definition medicationWords : list string :=
  ["remind"; "reminder"; "take"; "medication"; "pill"; "dose";
   "medicine"]%string.

Definition reportWords : list string :=
  ["report"; "summary"; "status"]%string.

(** What every reachable execution of the branches satisfies: each permit
    is free or held by a running branch, the queue lists the waiting
    branches once each, and a branch waits only when no permit is free. *)
Record semaphoreInvariant (n : Z) (e : Semaphore.Execution) : Prop := {
  inv_permits : 0 <= Semaphore.permits (Semaphore.semaphore e);
  inv_total :
    Semaphore.permits (Semaphore.semaphore e)
    + Z.of_nat (Semaphore.running e) = n;
  inv_queue :
    forall i, i ∈ Semaphore.waiting (Semaphore.semaphore e)
              <-> Semaphore.branches e !! i = Some Semaphore.Waiting;
  inv_nodup : NoDup (Semaphore.waiting (Semaphore.semaphore e));
  inv_empty :
    Semaphore.waiting (Semaphore.semaphore e) <> [] ->
    Semaphore.permits (Semaphore.semaphore e) = 0
}.

(** A chat request with the three required fields. *)
Definition chatRequest (stream timeline : bool) : ChatRoute.ChatRequest :=
  {| ChatRoute.rq_userId := Some "u1"%string;
     ChatRoute.rq_sessionId := Some "s1"%string;
     ChatRoute.rq_message := Some "book a GP appointment tomorrow 3pm"%string;
     ChatRoute.rq_metadata := None;
     ChatRoute.rq_stream := stream; ChatRoute.rq_timeline := timeline;
     ChatRoute.rq_tokenStream := false |}.

(** The three required fields of a chat request are present and not
    empty. *)
Definition wellFormed (body : ChatRoute.ChatRequest) : Prop :=
  truthyOpt (ChatRoute.rq_userId body) = true
  /\ truthyOpt (ChatRoute.rq_sessionId body) = true
  /\ truthyOpt (ChatRoute.rq_message body) = true.

(** Arithmetic on instants: the constants and the local-day vocabulary
    unfolded. *)
Ltac unfold_time :=
  unfold localDayAt, startOfLocalDay, localWeekday, daysUntilNext,
    minFromTime, hourFromTime, DAY, MAX_TIME, MS_PER_DAY, MS_PER_HOUR,
    MS_PER_MINUTE in *;
  change (24 * 60 * 60 * 1000) with 86400000 in *.

(** * Properties *)

(** ** Strategy selection *)

Lemma hasMixedPriorities_true (rules : list CollaborationRule)
  (r1 r2 : CollaborationRule) :
  r1 ∈ rules -> r2 ∈ rules -> priority r1 <> priority r2 ->
  hasMixedPriorities rules = true.
Proof.
  intros H1 H2 Hne. unfold hasMixedPriorities.
  apply Nat.ltb_lt.
  set (X := list_to_set (map priority rules) : gset Priority).
  assert (Hsub : ({[ priority r1 ]} ∪ {[ priority r2 ]} : gset Priority) ⊆ X).
  { subst X. intros p Hp.
    apply elem_of_list_to_set, list_elem_of_In, in_map_iff.
    apply elem_of_union in Hp as [Hp | Hp]; apply elem_of_singleton in Hp;
      subst p; eexists; split; try reflexivity; by apply list_elem_of_In. }
  apply subseteq_size in Hsub.
  rewrite size_union in Hsub by set_solver.
  rewrite !size_singleton in Hsub. lia.
Qed.

Lemma hasMixedPriorities_false (rules : list CollaborationRule) :
  (forall r1 r2, r1 ∈ rules -> r2 ∈ rules -> priority r1 = priority r2) ->
  hasMixedPriorities rules = false.
Proof.
  intros Hall. unfold hasMixedPriorities. apply Nat.ltb_ge.
  destruct rules as [| r0 rest].
  - change (size (∅ : gset Priority) <= 1)%nat. rewrite size_empty. lia.
  - set (X := list_to_set (map priority (r0 :: rest)) : gset Priority).
    assert (Hsub : X ⊆ ({[ priority r0 ]} : gset Priority)).
    { subst X. intros p Hp.
      apply elem_of_list_to_set, list_elem_of_In, in_map_iff in Hp
        as (r & <- & Hr).
      apply elem_of_singleton. apply Hall; [by apply list_elem_of_In |].
      apply list_elem_of_here. }
    apply subseteq_size in Hsub. rewrite size_singleton in Hsub. lia.
Qed.

Lemma hasSamePriority_true (rules : list CollaborationRule) :
  (1 < length rules)%nat ->
  (forall r1 r2, r1 ∈ rules -> r2 ∈ rules -> priority r1 = priority r2) ->
  hasSamePriority rules = true.
Proof.
  intros Hlen Hall. unfold hasSamePriority.
  destruct (Nat.leb_spec (length rules) 1) as [Hle | _]; [lia |].
  destruct rules as [| r0 rest]; [simpl in Hlen; lia |].
  apply forallb_forall. intros r Hr. apply bool_decide_eq_true. simpl.
  f_equal. apply Hall; [by apply list_elem_of_In | apply list_elem_of_here].
Qed.

(** C4. The strategy is a function of the filtered rule list alone: exactly
    one rule selects Sequential; rules of more than one distinct priority
    select Winner-take-all; more than one rule, all of one priority, selects
    All-finish-merge; Parallel is never selected. *)
Theorem determineExecutionStrategy_selection
  (rules : list CollaborationRule) (state : AgentGraphState) :
  (forall state', determineExecutionStrategy rules state'
                  = determineExecutionStrategy rules state)
  /\ (length rules = 1%nat ->
      st_type (determineExecutionStrategy rules state) = Sequential)
  /\ ((exists r1 r2, r1 ∈ rules /\ r2 ∈ rules /\ priority r1 <> priority r2) ->
      st_type (determineExecutionStrategy rules state) = WinnerTakeAll)
  /\ ((1 < length rules)%nat ->
      (forall r1 r2, r1 ∈ rules -> r2 ∈ rules -> priority r1 = priority r2) ->
      st_type (determineExecutionStrategy rules state) = AllFinishMerge)
  /\ st_type (determineExecutionStrategy rules state) <> Parallel.
Proof.
  unfold determineExecutionStrategy. repeat split.
  - intros Hlen. apply Nat.eqb_eq in Hlen. by rewrite Hlen.
  - intros (r1 & r2 & H1 & H2 & Hne).
    destruct (Nat.eqb_spec (length rules) 1) as [Hlen | _].
    + exfalso. destruct rules as [| r [| ? ?]]; try discriminate Hlen.
      apply list_elem_of_singleton in H1, H2. by subst.
    + by rewrite (hasMixedPriorities_true rules r1 r2).
  - intros Hlen Hall.
    destruct (Nat.eqb_spec (length rules) 1) as [Heq | _]; [lia |].
    rewrite hasMixedPriorities_false by assumption.
    by rewrite hasSamePriority_true.
  - destruct (length rules =? 1)%nat; [discriminate |].
    destruct (hasMixedPriorities rules); [discriminate |].
    destruct (hasSamePriority rules); discriminate.
Qed.

(** ** Concurrent branches settle into list order *)

Lemma completionFrom_Permutation (sched : nat -> nat) (fuel : nat) :
  forall (step : nat) (pending : list nat),
    length pending = fuel ->
    completionFrom sched step pending fuel ≡ₚ pending.
Proof.
  induction fuel as [| fuel IH]; intros step pending Hlen.
  - destruct pending; [reflexivity | discriminate].
  - simpl.
    assert (Hk : (sched step mod length pending < length pending)%nat).
    { apply Nat.mod_upper_bound. lia. }
    destruct (lookup_lt_is_Some_2 pending _ Hk) as [i Hi].
    rewrite Hi.
    etransitivity; [| symmetry; exact (delete_Permutation pending _ i Hi)].
    constructor. apply IH.
    rewrite length_delete by eauto. lia.
Qed.

Lemma completionOrder_Permutation (sched : nat -> nat) (n : nat) :
  completionOrder sched n ≡ₚ seq 0 n.
Proof.
  unfold completionOrder. apply completionFrom_Permutation, length_seq.
Qed.

(** Writing each settled branch into its own slot: a slot holds the outcome
    of its branch once that branch is in the completion order. *)
Lemma slots_lookup {B} (f : nat -> B) (order : list nat) :
  forall (slots : list B) (j : nat),
    (j < length slots)%nat ->
    foldl (fun slots i => <[ i := f i ]> slots) slots order !! j
    = if bool_decide (j ∈ order) then Some (f j) else slots !! j.
Proof.
  induction order as [| i order IH]; intros slots j Hj.
  - done.
  - cbn [foldl]. rewrite IH by (by rewrite length_insert).
    destruct (decide (j ∈ order)) as [Hin | Hnin].
    + rewrite !bool_decide_eq_true_2; [done | by right | done].
    + rewrite (bool_decide_eq_false_2 (j ∈ order)) by done.
      destruct (decide (i = j)) as [-> | Hne].
      * rewrite bool_decide_eq_true_2 by left.
        by rewrite list_lookup_insert_eq.
      * rewrite bool_decide_eq_false_2.
        -- by rewrite list_lookup_insert_ne.
        -- intros [-> | ?]%elem_of_cons; done.
Qed.

Lemma slots_length {B} (f : nat -> B) (order : list nat) :
  forall slots : list B,
    length (foldl (fun slots i => <[ i := f i ]> slots) slots order)
    = length slots.
Proof.
  induction order as [| i order IH]; intros slots; simpl; [done |].
  by rewrite IH, length_insert.
Qed.

Lemma omap_id_Some {A} (l : list A) : omap id (map Some l) = l.
Proof. induction l as [| x l IH]; [done |]. cbn. by f_equal. Qed.

(** [Promise.allSettled] delivers the outcomes in the order of the input
    array, whatever order the branches settled in. *)
Lemma allSettled_positional {A} (sched : nat -> nat) (promises : list (Exn A)) :
  allSettled sched promises = map settle promises.
Proof.
  unfold allSettled.
  set (n := length promises).
  set (slots := foldl _ _ _).
  assert (Hslots : slots = map Some (map settle promises)).
  { apply list_eq. intros j. subst slots.
    destruct (decide (j < n)%nat) as [Hj | Hj].
    - destruct (lookup_lt_is_Some_2 promises j Hj) as [p Hp].
      rewrite (slots_lookup (fun i => settle <$> promises !! i))
        by (by rewrite length_replicate).
      rewrite bool_decide_eq_true_2.
      + rewrite !list_lookup_fmap, Hp. done.
      + rewrite completionOrder_Permutation. apply elem_of_seq. lia.
    - rewrite !lookup_ge_None_2; [done | |].
      + rewrite !length_map. fold n. lia.
      + rewrite slots_length, length_replicate. lia. }
  rewrite Hslots. apply omap_id_Some.
Qed.

(** ** Branches on one state object *)

Lemma saveIfReportCandidateOnce_cases (g : Env) (call : string)
  (state : AgentGraphState) :
  saveIfReportCandidateOnce g call state = Ok state
  \/ saveIfReportCandidateOnce g call state = Ok (markIngested state).
Proof.
  unfold saveIfReportCandidateOnce, markIngested.
  destruct (negb (truthy _)); [by left |].
  destruct (negb (isReportCandidate _ _ _)); [by left |].
  destruct (match _ !! _ with Some v => jsTruthy v | None => false end);
    [by left | by right].
Qed.

(** A state that carries the mark is left as it is. *)
Lemma saveIfReportCandidateOnce_marked (g : Env) (call : string)
  (state : AgentGraphState) :
  saveIfReportCandidateOnce g call (markIngested state)
  = Ok (markIngested state).
Proof.
  unfold saveIfReportCandidateOnce.
  destruct (negb (truthy _)); [reflexivity |].
  destruct (negb (isReportCandidate _ _ _)); [reflexivity |].
  unfold markIngested at 1 2.
  cbn [context withSharedData ctx_sharedData default]. unfold id.
  by rewrite lookup_insert_eq.
Qed.

Lemma saveIfReportCandidateOnce_asFound (g : Env) (call : string)
  (state view : AgentGraphState) :
  asFound state view ->
  exists view', saveIfReportCandidateOnce g call view = Ok view'
    /\ asFound state view'.
Proof.
  intros [-> | ->].
  - destruct (saveIfReportCandidateOnce_cases g call state) as [-> | ->];
      eexists; split; try reflexivity; [by left | by right].
  - rewrite saveIfReportCandidateOnce_marked. eexists. split; [done |].
    by right.
Qed.

Lemma runHooks_asFound (g : Env) (state : AgentGraphState)
  (rules : list CollaborationRule) :
  asFound state (fst (runHooks g state rules))
  /\ length (snd (runHooks g state rules)) = length rules
  /\ Forall (fun found => exists view, found = Ok view /\ asFound state view)
       (snd (runHooks g state rules)).
Proof.
  unfold runHooks.
  generalize (completionOrder (sched g) (length rules)). intros order.
  assert (Hinit :
    asFound state (fst (state, replicate (length rules) (Ok state)))
    /\ length (snd (state, replicate (length rules) (Ok state)))
       = length rules
    /\ Forall (fun found => exists view, found = Ok view /\ asFound state view)
         (snd (state, replicate (length rules) (Ok state)))).
  { cbn [fst snd]. split; [by left |]. split; [apply length_replicate |].
    apply Forall_replicate. eexists. split; [reflexivity | by left]. }
  revert Hinit.
  generalize (state, replicate (length rules) (Ok state)).
  induction order as [| i order IH]; intros acc Hacc; [exact Hacc |].
  cbn [foldl]. apply IH.
  destruct (rules !! i) as [rule |]; [| exact Hacc].
  destruct Hacc as (Hshared & Hlen & Hall).
  destruct (saveIfReportCandidateOnce_asFound g ("rule:" ++ name rule)
              state (fst acc) Hshared) as (view & -> & Hview).
  cbn [fst snd]. split; [exact Hview |].
  split; [by rewrite length_insert |].
  apply Forall_insert; [exact Hall |]. eauto.
Qed.

Lemma invokeRule_total (g : Env) (view : AgentGraphState)
  (rule : CollaborationRule) :
  exists s, invokeRule g view rule = Ok s.
Proof.
  unfold invokeRule, executeSpecializedAgent.
  destruct (getAgent g _) as [agent | e]; simpl; eauto.
  destruct (agent _); simpl; eauto.
Qed.

(** Every branch is the invocation of its rule on the state object as it
    found it, and returns. *)
Lemma runBranches_outcomes (g : Env) (state : AgentGraphState)
  (rules : list CollaborationRule) :
  asFound state (fst (runBranches g state rules))
  /\ length (snd (runBranches g state rules)) = length rules
  /\ forall i rule,
       rules !! i = Some rule ->
       exists view s,
         asFound state view
         /\ invokeRule g view rule = Ok s
         /\ snd (runBranches g state rules) !! i = Some (Ok s).
Proof.
  unfold runBranches.
  destruct (runHooks_asFound g state rules) as (Hshared & Hlen & Hall).
  destruct (runHooks g state rules) as [shared found]. cbn [fst snd] in *.
  split; [exact Hshared |].
  split; [rewrite length_zip_with; lia |].
  intros i rule Hi.
  destruct (lookup_lt_is_Some_2 found i) as [f Hf].
  { rewrite Hlen. by eapply lookup_lt_Some. }
  rewrite Forall_lookup in Hall.
  destruct (Hall i f Hf) as (view & -> & Hview).
  destruct (invokeRule_total g view rule) as [s Hs].
  exists view, s. split; [exact Hview |]. split; [exact Hs |].
  rewrite lookup_zip_with, Hi. cbn. rewrite Hf. cbn. by rewrite Hs.
Qed.

(** The settled attempts, in list order whatever order the handlers
    completed in: every one is fulfilled and successful, with the state
    that its invocation returned. *)
Lemma settledAttempts_results (g : Env) (state : AgentGraphState)
  (rules : list CollaborationRule) :
  asFound state (fst (settledAttempts g state rules))
  /\ length (snd (settledAttempts g state rules)) = length rules
  /\ forall i rule,
       rules !! i = Some rule ->
       exists view s,
         asFound state view
         /\ invokeRule g view rule = Ok s
         /\ snd (settledAttempts g state rules) !! i
            = Some (Fulfilled {| cr_rule := rule; cr_result := s;
                                 cr_success := true; cr_error := None |}).
Proof.
  unfold settledAttempts.
  destruct (runBranches_outcomes g state rules) as (Hshared & Hlen & Hall).
  destruct (runBranches g state rules) as [shared outcomes].
  cbn [fst snd] in *. rewrite allSettled_positional.
  split; [exact Hshared |].
  split; [rewrite length_map, length_zip_with; lia |].
  intros i rule Hi.
  destruct (Hall i rule Hi) as (view & s & Hview & Hs & Hout).
  exists view, s. split; [exact Hview |]. split; [exact Hs |].
  rewrite list_lookup_fmap, lookup_zip_with, Hi. cbn. rewrite Hout. done.
Qed.

(** A relation between states that the mark of the hook, the invocation of
    a rule and a merge all respect is respected by every strategy. *)
Lemma executeCollaborationStrategy_extends (g : Env)
  (P : AgentGraphState -> AgentGraphState -> Prop) :
  (forall s, P s s) ->
  (forall a b c, P a b -> P b c -> P a c) ->
  (forall s, P s (markIngested s)) ->
  (forall view rule r, invokeRule g view rule = Ok r -> P view r) ->
  (forall merged r, P merged (mergeSingleResult merged r)) ->
  forall s rules strategy s',
    executeCollaborationStrategy g s rules strategy = Ok s' -> P s s'.
Proof.
  intros Hrefl Htrans Hmark Hinvoke Hsingle.
  assert (Hview : forall s view, asFound s view -> P s view).
  { intros s view [-> | ->]; auto. }
  assert (Hmerge : forall s results, P s (mergeCollaborationResults s results)).
  { intros s results. unfold mergeCollaborationResults.
    destruct (length results =? 0)%nat; [apply Hrefl |].
    revert s. induction results as [| r results IH]; intros s;
      [apply Hrefl |].
    simpl. eapply Htrans; [apply Hsingle | apply IH]. }
  intros s rules strategy s'.
  unfold executeCollaborationStrategy. destruct (st_type strategy).
  - unfold executeSequentialCollaboration. intros [= <-].
    revert s. induction rules as [| rule rules IH]; intros s; [apply Hrefl |].
    simpl. eapply Htrans; [| apply IH].
    unfold executeCollaborationRule.
    destruct (saveIfReportCandidateOnce_cases g ("rule:" ++ name rule) s)
      as [-> | ->]; simpl;
      match goal with
      | |- context [invokeRule g ?v rule] =>
          destruct (invokeRule g v rule) as [r | e] eqn:Hr; [| apply Hrefl];
          apply Hinvoke in Hr
      end; eauto.
  - unfold executeParallelCollaboration.
    destruct (runBranches_outcomes g s rules) as (Hshared & _).
    destruct (runBranches g s rules) as [shared outcomes].
    intros [= <-]. eauto.
  - unfold executeWinnerTakeAllCollaboration.
    destruct (settledAttempts_results g s rules) as (Hshared & Hlen & Hall).
    destruct (settledAttempts g s rules) as [shared results].
    cbn [fst snd] in *. unfold findFirstSuccessfulResult.
    destruct (List.find isSuccessful results) as [[v | e] |] eqn:Hfind;
      intros [= <-]; eauto.
    apply find_some in Hfind as [Hin _].
    apply list_elem_of_In, list_elem_of_lookup in Hin as [i Hi].
    destruct (lookup_lt_is_Some_2 rules i) as [rule Hrule].
    { rewrite <- Hlen. by eapply lookup_lt_Some. }
    destruct (Hall i rule Hrule) as (view & r & Hfound & Hr & Hres).
    rewrite Hi in Hres. injection Hres as ->. simpl. eauto.
  - unfold executeAllFinishMergeCollaboration.
    destruct (settledAttempts_results g s rules) as (Hshared & _).
    destruct (settledAttempts g s rules) as [shared results].
    intros [= <-]. eauto.
Qed.

(** ** Winner-take-all *)

(** Whatever the handlers do and in whatever order they complete, the
    state adopted for a list of rules that is not empty is the one that
    the invocation of the first-listed rule returned. *)
Lemma executeWinnerTakeAllCollaboration_adopts_first (g : Env)
  (state : AgentGraphState) (rule : CollaborationRule)
  (rules : list CollaborationRule) :
  exists view,
    asFound state view
    /\ executeWinnerTakeAllCollaboration g state (rule :: rules)
       = invokeRule g view rule.
Proof.
  unfold executeWinnerTakeAllCollaboration.
  destruct (settledAttempts_results g state (rule :: rules))
    as (_ & Hlen & Hall).
  destruct (Hall 0%nat rule eq_refl) as (view & s & Hview & Hs & Hfirst).
  destruct (settledAttempts g state (rule :: rules)) as [shared results].
  cbn [fst snd] in *.
  destruct results as [| r results]; [discriminate |].
  injection Hfirst as ->.
  exists view. split; [exact Hview |]. by rewrite Hs.
Qed.

(** With [exampleEnv] the second-listed handler completes before the first,
    both answer, and the first-listed rule's result is the one adopted. *)
Lemma executeWinnerTakeAllCollaboration_both_succeed :
  completionOrder
    (handlerSched exampleEnv getCollaborationRules) 2 = [1; 0]%nat
  /\ replyOf (executeWinnerTakeAllCollaboration exampleEnv
                (createInitialState exampleInput) getCollaborationRules)
     = Some "appointment booked"%string.
Proof. split; vm_compute; reflexivity. Qed.

(** ** Error handling of the graph *)

Lemma agents_router (g : Env) : agents g !! "router"%string = Some (routerAgent g).
Proof. unfold agents, initializeAgents. by simplify_map_eq. Qed.

Lemma executeRouter_throw (g : Env) (state : AgentGraphState) (e : Exception) :
  routerAgent g (agentInput state None None) = Throw e ->
  executeRouter g state = Ok (handleRouterError e state).
Proof.
  intros H. unfold executeRouter. rewrite agents_router. simpl. by rewrite H.
Qed.

Lemma executeRouter_total (g : Env) (state : AgentGraphState) :
  exists s, executeRouter g state = Ok s.
Proof.
  unfold executeRouter. rewrite agents_router. simpl.
  destruct (routerAgent g _); simpl; eauto.
Qed.

Lemma executeSpecializedAgent_throw (g : Env) (state : AgentGraphState)
  (e : Exception) :
  invokeHandler g state = Throw e ->
  executeSpecializedAgent g state = Ok (handleSpecializedAgentError e state).
Proof.
  unfold invokeHandler, executeSpecializedAgent. intros H.
  destruct (getAgent g _) as [agent | e']; simpl in *.
  - by rewrite H.
  - by injection H as ->.
Qed.

Lemma executeSpecializedAgent_total (g : Env) (state : AgentGraphState) :
  exists s, executeSpecializedAgent g state = Ok s.
Proof.
  unfold executeSpecializedAgent.
  destruct (getAgent g _) as [agent | e']; simpl; eauto.
  destruct (agent _); simpl; eauto.
Qed.

(** The ingestion mark touches [context.sharedData] only. *)
Lemma saveIfReportCandidateOnce_fields (g : Env) (call : string)
  (state : AgentGraphState) :
  exists s, saveIfReportCandidateOnce g call state = Ok s
    /\ error s = error state
    /\ currentAgent s = currentAgent state
    /\ finalOutput s = finalOutput state
    /\ timeline s = timeline state.
Proof.
  unfold saveIfReportCandidateOnce.
  repeat match goal with
         | |- context [if ?b then _ else _] => destruct b
         end; eexists; split; try reflexivity; auto.
Qed.

Lemma executeCollaborationRule_total (g : Env) (state : AgentGraphState)
  (rule : CollaborationRule) :
  exists s, executeCollaborationRule g state rule = Ok s.
Proof.
  unfold executeCollaborationRule.
  destruct (saveIfReportCandidateOnce_fields g ("rule:" ++ name rule) state)
    as (s & -> & _).
  simpl. apply executeSpecializedAgent_total.
Qed.

Lemma executeGenericCollaboration_total (g : Env) (state : AgentGraphState) :
  exists s, executeGenericCollaboration g state = Ok s.
Proof.
  unfold executeGenericCollaboration.
  destruct (default false _); [eauto |].
  destruct (extractSharedData state) as [sd |]; [| eauto].
  destruct (length _ =? 0)%nat; [eauto |].
  unfold executeCollaborationStrategy.
  destruct (st_type _).
  - unfold executeSequentialCollaboration. eauto.
  - unfold executeParallelCollaboration.
    destruct (runBranches g state _); eauto.
  - unfold executeWinnerTakeAllCollaboration.
    destruct (settledAttempts g state _).
    destruct (findFirstSuccessfulResult _); eauto.
  - unfold executeAllFinishMergeCollaboration.
    destruct (settledAttempts g state _); eauto.
Qed.

Lemma executeCollaborationStage_total (g : Env) (state : AgentGraphState) :
  exists s, executeCollaborationStage g state = Ok s.
Proof.
  unfold executeCollaborationStage.
  destruct (saveIfReportCandidateOnce_fields g "collaboration" state)
    as (s & -> & _). simpl.
  destruct (executeGenericCollaboration_total g s) as (s' & ->). simpl. eauto.
Qed.

Lemma executeRouterStage_spec (g : Env) (state : AgentGraphState) :
  exists routed r, executeRouter g state = Ok r
    /\ executeRouterStage g state = Ok routed
    /\ error routed = error r
    /\ currentAgent routed = currentAgent r
    /\ finalOutput routed = finalOutput r.
Proof.
  unfold executeRouterStage.
  destruct (executeRouter_total g state) as (r & Hr). rewrite Hr. simpl.
  destruct (saveIfReportCandidateOnce_fields g "router" r)
    as (s & -> & He & Hc & Hf & _).
  simpl. eexists _, r. repeat split; auto.
Qed.

Lemma executeSpecializedAgentStage_spec (g : Env) (state : AgentGraphState) :
  exists staged r, executeSpecializedAgent g state = Ok r
    /\ executeSpecializedAgentStage g state = Ok staged
    /\ error staged = error r
    /\ currentAgent staged = currentAgent r
    /\ finalOutput staged = finalOutput r.
Proof.
  unfold executeSpecializedAgentStage.
  destruct (executeSpecializedAgent_total g state) as (r & Hr). rewrite Hr.
  simpl. eexists _, r. repeat split; auto.
Qed.

Lemma process_total (g : Env) (input : AgentInput) :
  exists s, process g input = Ok s.
Proof.
  unfold process.
  destruct (executeRouterStage_spec g (createInitialState input))
    as (routed & r & _ & -> & _). simpl.
  destruct (truthyOpt (error routed)); [simpl; eauto |].
  destruct (executeSpecializedAgentStage_spec g routed)
    as (staged & r' & _ & -> & _). simpl.
  destruct (truthyOpt (error staged)); [simpl; eauto |].
  destruct (executeCollaborationStage_total g staged) as (s & ->).
  simpl. eauto.
Qed.

Lemma process_router_error (g : Env) (input : AgentInput) (e : Exception) :
  routerAgent g (agentInput (createInitialState input) None None) = Throw e ->
  exists s, process g input = Ok s
    /\ error s = Some ("Router error: " ++ errorToString e)%string
    /\ currentAgent s = Some "error_handler"%string
    /\ finalOutput s = None.
Proof.
  intros H. unfold process.
  destruct (executeRouterStage_spec g (createInitialState input))
    as (routed & r & Hr & -> & He & Hc & Hf).
  rewrite (executeRouter_throw g _ e H) in Hr. injection Hr as <-.
  simpl in *. rewrite He. simpl. eexists. split; [reflexivity |]. auto.
Qed.

Lemma process_handler_error (g : Env) (input : AgentInput)
  (routed : AgentGraphState) (e : Exception) :
  executeRouterStage g (createInitialState input) = Ok routed ->
  error routed = None ->
  invokeHandler g routed = Throw e ->
  exists s, process g input = Ok s
    /\ error s
       = Some ("Agent execution error in "
                 ++ default "chat" (ifTruthy (currentAgent routed)) ++ ": "
                 ++ errorToString e)%string
    /\ currentAgent s = Some "error_handler"%string
    /\ finalOutput s = finalOutput routed.
Proof.
  intros Hrouted Herr Hthrow. unfold process. rewrite Hrouted. simpl.
  rewrite Herr. simpl.
  destruct (executeSpecializedAgentStage_spec g routed)
    as (staged & r & Hr & -> & He & Hc & Hf).
  rewrite (executeSpecializedAgent_throw g _ e Hthrow) in Hr.
  injection Hr as <-. simpl in *. rewrite He. simpl.
  eexists. split; [reflexivity |]. auto.
Qed.

(** *** Example environments *)

(** A router failure: [error] and the sentinel are set, and [finalOutput] is
    left absent, so the state has not the shape the specification describes. *)
Lemma process_router_error_example :
  routerAgent routerDownEnv
    (agentInput (createInitialState exampleInput) None None)
  = Throw "router unavailable"%string
  /\ exists s, process routerDownEnv exampleInput = Ok s
       /\ error s = Some "Router error: Error: router unavailable"%string
       /\ currentAgent s = Some "error_handler"%string
       /\ finalOutput s = None
       /\ ~ specErrorShape s.
Proof.
  split; [reflexivity |].
  destruct (process_router_error routerDownEnv exampleInput
              "router unavailable"%string eq_refl)
    as (s & Hs & He & Hc & Hf).
  exists s. repeat split; auto.
  intros (_ & _ & out & a & payload & Hout & _). congruence.
Qed.

(** C6 (amended). [process] never throws.  An error thrown by the router or
    by a handler (the routed one, or one invoked by a cascade) is caught at
    that stage's boundary: [error] is set and [currentAgent] becomes the
    sentinel ["error_handler"], while [finalOutput] is left as it was before
    the failing stage.  The generic apologetic reply is substituted only by
    the outer boundary of [process]; its action is
    [{type: "error", status: "failed"}] without a payload, and that boundary
    leaves [currentAgent] as it was. *)
Theorem process_error_handling (g : Env) :
  (forall input, exists s, process g input = Ok s)
  /\ (forall input e,
        routerAgent g (agentInput (createInitialState input) None None)
        = Throw e ->
        exists s, process g input = Ok s
          /\ error s = Some ("Router error: " ++ errorToString e)%string
          /\ currentAgent s = Some "error_handler"%string
          /\ finalOutput s = None)
  /\ (forall input routed e,
        executeRouterStage g (createInitialState input) = Ok routed ->
        error routed = None ->
        invokeHandler g routed = Throw e ->
        exists s, process g input = Ok s
          /\ error s
             = Some ("Agent execution error in "
                       ++ default "chat" (ifTruthy (currentAgent routed))
                       ++ ": " ++ errorToString e)%string
          /\ currentAgent s = Some "error_handler"%string
          /\ finalOutput s = finalOutput routed)
  /\ (forall state e,
        invokeHandler g state = Throw e ->
        exists s, executeSpecializedAgent g state = Ok s
          /\ is_Some (error s)
          /\ currentAgent s = Some "error_handler"%string
          /\ finalOutput s = finalOutput state)
  /\ (forall e initialState,
        error (handleProcessingError e initialState)
        = Some ("Processing error: " ++ errorToString e)%string
        /\ currentAgent (handleProcessingError e initialState)
           = currentAgent initialState
        /\ finalOutput (handleProcessingError e initialState)
           = Some (plainOutput
                     "I'm sorry, I encountered an error. Please try again."
                     [{| act_type := "error"; act_status := Some Failed;
                         act_payload := None |}])).
Proof.
  split; [apply process_total |].
  split; [apply process_router_error |].
  split; [apply process_handler_error |].
  split.
  - intros state e H. eexists.
    split; [apply (executeSpecializedAgent_throw g state e H) |].
    simpl. eauto.
  - intros e initialState. repeat split.
Qed.

Lemma process_error_handling_witness :
  exists s, process handlerDownEnv exampleInput = Ok s
    /\ error s
       = Some "Agent execution error in appointment: Error: calendar unavailable"%string
    /\ currentAgent s = Some "error_handler"%string
    /\ (out_reply <$> finalOutput s) = Some "routed"%string.
Proof.
  destruct (executeRouterStage_spec handlerDownEnv
              (createInitialState exampleInput))
    as (routed & r & Hr & Hrouted & He & Hc & Hf).
  vm_compute in Hr. injection Hr as <-.
  destruct (proj1 (proj2 (proj2 (process_error_handling handlerDownEnv)))
              exampleInput routed "calendar unavailable"%string Hrouted)
    as (s & Hs & Herr & Hcur & Hfin).
  - rewrite He. reflexivity.
  - unfold invokeHandler. rewrite Hc. reflexivity.
  - exists s. rewrite Herr, Hcur, Hfin, Hc, Hf. repeat split; auto.
Defined.

(** ** Natural-language schedule inference *)

Lemma parseDigits_nonneg (cs : list ascii) : 0 <= parseDigits cs.
Proof.
  unfold parseDigits.
  assert (H : forall acc, 0 <= acc ->
            0 <= fold_left (fun acc c => 10 * acc + digitVal c) cs acc).
  { induction cs as [| c cs IH]; intros acc Hacc; simpl; [assumption |].
    apply IH. unfold digitVal. lia. }
  apply H. lia.
Qed.

Lemma groupInt_nonneg (i : nat) (m : mstate) : 0 <= groupInt i m.
Proof.
  unfold groupInt. destruct (group i m) as [[| c cs] |]; try lia.
  apply parseDigits_nonneg.
Qed.

Lemma hour24_nonneg (m : mstate) : 0 <= hour24 m.
Proof.
  unfold hour24. pose proof (groupInt_nonneg 1 m).
  repeat match goal with |- context [if ?b then _ else _] => destruct b end;
    try assumption.
  - apply Z.mod_pos_bound. lia.
  - pose proof (Z.mod_pos_bound (groupInt 1 m) 12). lia.
Qed.

(** *** What a match of the patterns captures *)

(** A run that succeeds has called its continuation. *)
Lemma run_reaches (r : regex) (k : Cont) (st res : mstate) :
  run r k st = Some res -> exists st', k st' = Some res.
Proof.
  revert k st res.
  induction r as [| p | a IHa b IHb | a IHa b IHb | a IHa | i a IHa | | |];
    intros k st res H; simpl in H.
  - eauto.
  - destruct (rest st) as [| c t]; [discriminate |].
    destruct (p c); [eauto | discriminate].
  - apply IHa in H as (mid & H). by apply IHb in H.
  - destruct (run a k st) eqn:Ha; [injection H as -> |]; eauto.
  - revert H. generalize (length (rest st)). intros n. revert st.
    induction n as [| n IHn]; intros st H; [eauto |].
    destruct (run a _ st) eqn:Ha; [injection H as -> | eauto].
    apply IHa in Ha as (st' & Hst').
    destruct (_ <? _)%nat; [eapply IHn; eauto | discriminate].
  - apply IHa in H as (st' & H). eauto.
  - destruct (atBoundary st); [eauto | discriminate].
  - destruct (prev st); [discriminate | eauto].
  - destruct (rest st); [eauto | discriminate].
Qed.

(** A pattern without group [i] leaves the capture of group [i] alone. *)
Lemma run_keeps_group (i : nat) (r : regex) (k : Cont) :
  noGroup i r = true ->
  (forall st res, k st = Some res -> group i res = group i st) ->
  forall st res, run r k st = Some res -> group i res = group i st.
Proof.
  revert k.
  induction r as [| p | a IHa b IHb | a IHa b IHb | a IHa | j a IHa | | |];
    intros k Hno Hk st res H; simpl in H, Hno.
  - eauto.
  - destruct (rest st) as [| c t]; [discriminate |].
    destruct (p c); [| discriminate]. by apply Hk in H.
  - apply andb_true_iff in Hno as [Ha Hb].
    eapply (IHa (run b k)); eauto.
  - apply andb_true_iff in Hno as [Ha Hb].
    destruct (run a k st) eqn:Hr; [injection H as -> |]; eauto.
  - revert H. generalize (length (rest st)). intros n. revert st res.
    induction n as [| n IHn]; intros st res H; [eauto |].
    destruct (run a _ st) eqn:Hr; [injection H as -> | eauto].
    eapply IHa; [exact Hno | | exact Hr].
    intros st' res' H'. simpl in H'.
    destruct (length (rest st') <? length (rest st))%nat;
      [eauto | discriminate].
  - apply andb_true_iff in Hno as [Hij Ha].
    eapply IHa in H; [exact H | exact Ha |].
    intros st' res' H'. apply Hk in H'. rewrite H'.
    unfold group. simpl. by destruct (i =? j)%nat.
  - destruct (atBoundary st); [eauto | discriminate].
  - destruct (prev st); [discriminate | eauto].
  - destruct (rest st); [eauto | discriminate].
Qed.

Lemma searchFrom_matchAt (r : regex) (s : list ascii) (p : option ascii)
  (m : mstate) :
  searchFrom r p s = Some m -> exists p' s', matchAt r p' s' = Some m.
Proof.
  revert p. induction s as [| c t IH]; intros p H; simpl in H;
    destruct (matchAt r p _) eqn:Hm; try discriminate;
    try (injection H as ->; eauto).
  eapply IH; eauto.
Qed.

Lemma run_Lit (l : string) (k : Cont) (st : mstate) :
  run (Lit l) k st
  = match matchLit (chars l) st with
    | Some st' => k st'
    | None => None
    end.
Proof.
  revert st. induction l as [| c l IH]; intros st; [reflexivity |].
  destruct l as [| c' l'].
  - simpl. destruct (rest st) as [| x t]; [reflexivity |].
    destruct (Ascii.eqb x c); reflexivity.
  - change (Lit (String c (String c' l')))
      with (Seq (chr c) (Lit (String c' l'))).
    cbn [run chr]. change (chars (String c (String c' l')))
      with (c :: chars (String c' l')).
    cbn [matchLit].
    destruct (rest st) as [| x t]; [reflexivity |].
    destruct (Ascii.eqb x c); [apply IH | reflexivity].
Qed.

Lemma matchLit_rest (cs : list ascii) (st st' : mstate) :
  matchLit cs st = Some st' ->
  rest st = cs ++ rest st' /\ caps st' = caps st.
Proof.
  revert st. induction cs as [| c cs IH]; intros st H; simpl in H.
  - by injection H as <-.
  - destruct (rest st) as [| x t] eqn:Hrest; [discriminate |].
    destruct (Ascii.eqb_spec x c) as [-> | _]; [| discriminate].
    apply IH in H as [Ht Hc]. simpl in Ht, Hc. by rewrite Ht.
Qed.

(** A group around an alternation of words captures the word it matched. *)
Lemma run_Grp_words (i : nat) (ws : list string) (k : Cont)
  (st res : mstate) :
  ws <> [] ->
  run (Grp i (Alts (map Lit ws))) k st = Some res ->
  exists w st', w ∈ ws /\ group i st' = Some (chars w) /\ k st' = Some res.
Proof.
  intros Hne. cbn [run].
  set (k' := fun st' : mstate =>
               k (MState (prev st') (rest st')
                    ((i, take (length (rest st) - length (rest st'))
                           (rest st)) :: caps st'))).
  assert (Hword : forall w, (exists st', matchLit (chars w) st = Some st'
                                         /\ k' st' = Some res) ->
                  exists st', group i st' = Some (chars w)
                              /\ k st' = Some res).
  { intros w (st' & Hm & Hk). eexists. split; [| exact Hk].
    apply matchLit_rest in Hm as [Hrest _].
    unfold group. cbn [caps lookupCap]. rewrite Nat.eqb_refl, Hrest.
    rewrite length_app.
    replace (length (chars w) + length (rest st') - length (rest st'))%nat
      with (length (chars w)) by lia.
    by rewrite take_app_length. }
  clearbody k'.
  induction ws as [| w ws IH]; [done |].
  destruct ws as [| w' ws].
  - cbn [map Alts]. rewrite run_Lit. intros H.
    destruct (matchLit (chars w) st) as [st' |] eqn:Hm; [| discriminate].
    destruct (Hword w) as (st'' & Hg & Hk); [eauto |].
    exists w, st''. split; [left | done].
  - change (Alts (map Lit (w :: w' :: ws)))
      with (Alt (Lit w) (Alts (map Lit (w' :: ws)))).
    cbn [run]. rewrite run_Lit. intros H.
    destruct (matchLit (chars w) st) as [st' |] eqn:Hm.
    + destruct (k' st') as [res' |] eqn:Hk.
      * injection H as ->.
        destruct (Hword w) as (st'' & Hg & Hk'); [eauto |].
        exists w, st''. split; [left | done].
      * destruct (IH ltac:(done) H) as (w0 & st'' & Hw0 & Hrest).
        exists w0, st''. split; [by right | exact Hrest].
    + destruct (IH ltac:(done) H) as (w0 & st'' & Hw0 & Hrest).
      exists w0, st''. split; [by right | exact Hrest].
Qed.

Lemma string_of_chars (w : string) : string_of_list_ascii (chars w) = w.
Proof. apply string_of_list_ascii_of_string. Qed.

(** The unit of a matched offset is one of the six words. *)
Lemma relRe_unit (text : string) (m : mstate) :
  search relRe text = Some m ->
  groupText 2 m
  ∈ ["minute"; "minutes"; "hour"; "hours"; "day"; "days"]%string.
Proof.
  unfold search. intros H.
  apply searchFrom_matchAt in H as (p & s & H).
  unfold matchAt, relRe in H.
  change (run WordB
            (run (Lit "in")
               (run (Plus space)
                  (run (Grp 1 (Plus digit))
                     (run (Star space)
                        (run (Grp 2
                                (Alts (map Lit
                                         ["minute"; "minutes"; "hour";
                                          "hours"; "day"; "days"]%string)))
                           (run WordB Some))))))
            (MState p s []) = Some m) in H.
  do 5 (apply run_reaches in H as (? & H)).
  apply run_Grp_words in H as (w & st' & Hw & Hg & H); [| done].
  cbn [run] in H. destruct (atBoundary st'); [| discriminate].
  injection H as <-. unfold groupText. by rewrite Hg, string_of_chars.
Qed.

(** The offset that the code computes from the unit by three tests. *)
Lemma unitMs_tests (unit : string) (amount : Z) :
  unit ∈ ["minute"; "minutes"; "hour"; "hours"; "day"; "days"]%string ->
  (if test (Lit "minute") unit then amount * 60 * 1000
   else if test (Lit "hour") unit then amount * 60 * 60 * 1000
   else if test (Lit "day") unit then amount * 24 * 60 * 60 * 1000
   else 0)
  = amount * unitMs unit.
Proof.
  intros Hu. unfold unitMs.
  repeat (apply elem_of_cons in Hu as [-> | Hu];
          [repeat match goal with
                  | |- context [if ?b then _ else _] =>
                      let E := fresh "E" in
                      destruct b eqn:E;
                      try (vm_compute in E; discriminate E)
                  end; lia |]).
  by apply elem_of_nil in Hu.
Qed.

Lemma weekdayMap_weekdayNumber (name : string) :
  default 0 (weekdayMap !! name) = weekdayNumber name.
Proof.
  unfold weekdayNumber, weekdayMap.
  repeat match goal with
         | |- context [String.eqb name ?w] =>
             destruct (String.eqb_spec name w) as [-> | ?];
             [reflexivity |]
         end.
  by simplify_map_eq.
Qed.

Lemma weekdayNumber_range (name : string) : 0 <= weekdayNumber name < 7.
Proof.
  unfold weekdayNumber.
  repeat match goal with |- context [if ?b then _ else _] => destruct b end;
    lia.
Qed.

Lemma digitVal_digit (c : ascii) : isDigit c = true -> 0 <= digitVal c <= 9.
Proof.
  unfold isDigit, digitVal. intros H.
  apply andb_true_iff in H as [H1 H2].
  apply Nat.leb_le in H1, H2. lia.
Qed.

(** The hour of a matched time has one or two digits. *)
Lemma timeRe_hour (text : string) (m : mstate) :
  search timeRe text = Some m -> groupInt 1 m <= 99.
Proof.
  unfold search. intros H.
  apply searchFrom_matchAt in H as (p & s & H).
  unfold matchAt, timeRe in H.
  set (tail := Seq (Opt (Seq (chr ":") (Grp 2 (Rep2 digit))))
                 (Seq (Star space)
                    (Seq (Opt (Grp 3 (Alt (Lit "am") (Lit "pm")))) WordB)))
    in H.
  change (run WordB
            (run (Lit "at")
               (run (Plus space)
                  (run (Grp 1 (Rep12 digit)) (run tail Some))))
            (MState p s []) = Some m) in H.
  apply run_reaches in H as (st1 & H).
  apply run_reaches in H as (st2 & H).
  apply run_reaches in H as (st3 & H).
  assert (Hkeep : forall st, run tail Some st = Some m ->
                             group 1 m = group 1 st).
  { intros st. apply (run_keeps_group 1 tail Some); [reflexivity |].
    by intros ? ? [= ->]. }
  clearbody tail.
  destruct st3 as [p3 [| c t] caps3]; simpl in H; [discriminate |].
  destruct (isDigit c) eqn:Hc; [| discriminate].
  pose proof (digitVal_digit c Hc) as Hvc.
  assert (Hone : run tail Some
                   (MState (Some c) t
                      ((1%nat, take (length (c :: t) - length t) (c :: t))
                         :: caps3)) = Some m ->
                 groupInt 1 m <= 99).
  { intros H1. apply Hkeep in H1. unfold groupInt. rewrite H1.
    unfold group. simpl.
    replace (S (length t) - length t)%nat with 1%nat by lia.
    simpl. unfold parseDigits. simpl. lia. }
  destruct t as [| c2 t2]; [by apply Hone |].
  destruct (isDigit c2) eqn:Hc2; [| by apply Hone].
  match type of H with
  | match ?two with Some _ => _ | None => _ end = _ =>
      destruct two eqn:Htwo; [injection H as -> | by apply Hone]
  end.
  pose proof (digitVal_digit c2 Hc2) as Hvc2.
  apply Hkeep in Htwo. unfold groupInt. rewrite Htwo.
  unfold group. simpl.
  replace (S (S (length t2)) - length t2)%nat with 2%nat by lia.
  simpl. unfold parseDigits. simpl. lia.
Qed.

Lemma hour24_bound (text : string) (m : mstate) :
  search timeRe text = Some m -> 0 <= hour24 m <= 99.
Proof.
  intros H. apply timeRe_hour in H.
  split; [apply hour24_nonneg |].
  unfold hour24.
  pose proof (Z.mod_pos_bound (groupInt 1 m) 12).
  repeat match goal with |- context [if ?b then _ else _] => destruct b end;
    lia.
Qed.

(** *** Local time where the offset of the zone does not change *)

Lemma newDate_valid (t : Z) :
  - MAX_TIME <= t <= MAX_TIME -> newDate t = Some t.
Proof.
  intros H. unfold newDate, validTime.
  destruct (Z.leb_spec (- MAX_TIME) t), (Z.leb_spec t MAX_TIME); simpl;
    try lia; reflexivity.
Qed.

Lemma setLocal_stable (zone : Zone) (offset now t : Z) (f : Z -> Z) :
  stableZone zone offset now ->
  0 <= now <= MAX_TIME - 13 * DAY ->
  now - DAY <= t <= now + 12 * DAY ->
  now - DAY <= f (t + offset) - offset <= now + 12 * DAY ->
  setLocal zone (Some t) f = Some (f (t + offset) - offset).
Proof.
  intros [Hat Hof] Hnow Ht Hf. unfold setLocal, toLocal, toUTC. simpl.
  rewrite (Hat t) by exact Ht.
  rewrite (Hof (f (t + offset))) by lia.
  apply newDate_valid. unfold MAX_TIME, DAY in *. lia.
Qed.

(** [setSeconds(0, 0)], [setMinutes(m)], [setHours(h)] in turn put the local
    clock at [h]:[m] on the same local day. *)
Lemma setHours_setMinutes_setSeconds0 (zone : Zone) (offset now base h m : Z) :
  stableZone zone offset now ->
  0 <= now <= MAX_TIME - 13 * DAY ->
  now <= base <= now + 7 * DAY ->
  0 <= m < 60 -> 0 <= h <= 99 ->
  setHours zone (setMinutes zone (setSeconds0 zone (Some base)) m) h
  = Some (localDayAt offset base h m).
Proof.
  intros Hz Hnow Hbase Hm Hh.
  unfold setSeconds0.
  rewrite (setLocal_stable zone offset now base) by
    (try assumption; unfold_time; Z.div_mod_to_equations; lia).
  unfold setMinutes.
  rewrite (setLocal_stable zone offset now) by
    (try assumption; unfold_time; Z.div_mod_to_equations; lia).
  unfold setHours.
  rewrite (setLocal_stable zone offset now) by
    (try assumption; unfold_time; Z.div_mod_to_equations; lia).
  f_equal. unfold_time. Z.div_mod_to_equations. lia.
Qed.

Lemma extractTime_localDayAt (zone : Zone) (offset now base : Z)
  (text : string) (m : mstate) :
  stableZone zone offset now ->
  0 <= now <= MAX_TIME - 13 * DAY ->
  now <= base <= now + 7 * DAY ->
  search timeRe text = Some m ->
  groupInt 2 m < 60 ->
  extractTime zone (Some m) (Some base)
  = Some (localDayAt offset base (hour24 m) (groupInt 2 m)).
Proof.
  intros Hz Hnow Hbase Hsearch Hm.
  apply (setHours_setMinutes_setSeconds0 zone offset now); try assumption.
  - split; [apply groupInt_nonneg | assumption].
  - by apply (hour24_bound text).
Qed.

Lemma setHours4_localDayAt (zone : Zone) (offset now t h m : Z) :
  stableZone zone offset now ->
  0 <= now <= MAX_TIME - 13 * DAY ->
  now <= t <= now + 7 * DAY ->
  0 <= m < 60 -> 0 <= h <= 99 ->
  setHours4 zone (Some t) h m 0 0 = Some (localDayAt offset t h m).
Proof.
  intros Hz Hnow Ht Hm Hh. unfold setHours4.
  rewrite (setLocal_stable zone offset now) by
    (try assumption; unfold_time; Z.div_mod_to_equations; lia).
  f_equal. unfold_time. Z.div_mod_to_equations. lia.
Qed.

Lemma startOfLocalDay_bounds (offset t : Z) :
  t - DAY < startOfLocalDay offset t <= t.
Proof.
  unfold startOfLocalDay, DAY.
  pose proof (Z.mod_pos_bound (t + offset) (24 * 60 * 60 * 1000)). lia.
Qed.

Lemma startOfLocalDay_addDays (offset t d : Z) :
  startOfLocalDay offset (t + d * DAY) = startOfLocalDay offset t + d * DAY.
Proof.
  unfold startOfLocalDay.
  replace (t + d * DAY + offset) with (t + offset + d * DAY) by lia.
  rewrite Z.mod_add by (unfold DAY; lia). lia.
Qed.

(** On a later local day, at a clock time from midnight on, is after [now]. *)
Lemma localDayAt_later (offset now d h m : Z) :
  1 <= d -> 0 <= h -> 0 <= m ->
  now < localDayAt offset (now + d * DAY) h m.
Proof.
  intros Hd Hh Hm. unfold localDayAt.
  rewrite startOfLocalDay_addDays.
  pose proof (startOfLocalDay_bounds offset now).
  unfold DAY, MS_PER_HOUR, MS_PER_MINUTE in *. nia.
Qed.

(** The next local day that falls on the wanted weekday is one to seven
    days ahead. *)
Lemma daysUntilNext_spec (offset now wd : Z) :
  0 <= wd < 7 ->
  1 <= daysUntilNext offset now wd <= 7
  /\ localWeekday offset (now + daysUntilNext offset now wd * DAY) = wd.
Proof.
  intros Hwd. unfold daysUntilNext.
  set (curr := localWeekday offset now).
  assert (Hcurr : 0 <= curr < 7).
  { subst curr. unfold localWeekday. apply Z.mod_pos_bound. lia. }
  set (d := if wd - curr <=? 0 then wd - curr + 7 else wd - curr).
  assert (Hd : 1 <= d <= 7 /\ (d = wd - curr \/ d = wd - curr + 7)).
  { subst d. destruct (Z.leb_spec (wd - curr) 0); lia. }
  split; [lia |].
  subst curr. unfold localWeekday in *.
  replace (now + d * DAY + offset) with (now + offset + d * DAY) by lia.
  rewrite Z.div_add by (unfold DAY; lia).
  revert Hcurr Hd. generalize ((now + offset) / DAY). intros q Hcurr Hd.
  Z.div_mod_to_equations. lia.
Qed.

(** [nextWeekday] lands on that day, at the same clock time. *)
Lemma nextWeekday_spec (zone : Zone) (offset now wd : Z) :
  stableZone zone offset now ->
  0 <= now <= MAX_TIME - 13 * DAY ->
  0 <= wd < 7 ->
  nextWeekday zone now wd = Some (now + daysUntilNext offset now wd * DAY).
Proof.
  intros Hz Hnow Hwd.
  pose proof (daysUntilNext_spec offset now wd Hwd) as [Hd _].
  unfold nextWeekday, addDays.
  assert (Hday : getDay zone now = localWeekday offset now).
  { unfold getDay, toLocal, localWeekday.
    rewrite (proj1 Hz now) by (unfold DAY; lia). reflexivity. }
  rewrite Hday. fold (daysUntilNext offset now wd).
  rewrite (setLocal_stable zone offset now) by
    (try assumption; unfold DAY, MS_PER_DAY in *; lia).
  f_equal. unfold DAY, MS_PER_DAY. lia.
Qed.

(** *** The inference *)

Lemma unitMs_nonneg (unit : string) : 0 <= unitMs unit.
Proof.
  unfold unitMs.
  repeat match goal with |- context [if ?b then _ else _] => destruct b end;
    lia.
Qed.

(** What [inferDateTimeFromMessage] returns is a valid date at the specified
    instant, which is never before [now]. *)
Lemma inferDateTimeFromMessage_spec (zone : Zone) (offset now : Z)
  (message : string) :
  stableZone zone offset now ->
  0 <= now <= MAX_TIME - 13 * DAY ->
  (forall ms, test tomorrowRe (toLowerCase message) = false ->
              relativeOffset (toLowerCase message) = Some ms ->
              now + ms <= MAX_TIME) ->
  (forall m, search timeRe (toLowerCase message) = Some m ->
             groupInt 2 m < 60) ->
  match inferDateTimeFromMessage zone now message with
  | Some d => d = Some (specInfer offset now message)
              /\ now <= specInfer offset now message
  | None => specInfer offset now message = now
  end.
Proof.
  intros Hz Hnow Hrel Hmin.
  unfold inferDateTimeFromMessage, specInfer, timeOfDay, relativeOffset,
    namedWeekday in *.
  set (text := toLowerCase message) in *.
  change (24 * 60 * 60 * 1000) with DAY.
  assert (Hnext : newDate (now + DAY) = Some (now + DAY)).
  { apply newDate_valid. unfold DAY, MAX_TIME in *. lia. }
  assert (Hone : now <= now + DAY <= now + 7 * DAY) by (unfold DAY; lia).
  destruct (test tomorrowRe text).
  { rewrite Hnext.
    destruct (search timeRe text) as [m |] eqn:Htm.
    - rewrite (extractTime_localDayAt zone offset now _ text) by auto.
      split; [reflexivity |].
      replace (now + DAY) with (now + 1 * DAY) by lia.
      apply Z.lt_le_incl, localDayAt_later;
        [lia | apply hour24_nonneg | apply groupInt_nonneg].
    - cbn [extractTime].
      rewrite (setHours4_localDayAt zone offset now) by (auto; lia).
      split; [reflexivity |].
      replace (now + DAY) with (now + 1 * DAY) by lia.
      apply Z.lt_le_incl, localDayAt_later; lia. }
  destruct (search relRe text) as [rel |] eqn:Hrelm.
  { specialize (Hrel _ eq_refl eq_refl).
    pose proof (groupInt_nonneg 1 rel) as Hn.
    pose proof (unitMs_nonneg (groupText 2 rel)) as Hu.
    rewrite (unitMs_tests _ _ (relRe_unit text rel Hrelm)).
    rewrite newDate_valid by (unfold MAX_TIME in *; nia).
    split; [reflexivity | nia]. }
  destruct (search weekdayRe text) as [wm |].
  { rewrite weekdayMap_weekdayNumber.
    pose proof (weekdayNumber_range (groupText 1 wm)) as Hwd.
    pose proof (daysUntilNext_spec offset now _ Hwd) as [Hd _].
    rewrite (nextWeekday_spec zone offset now) by assumption.
    set (d := daysUntilNext offset now _) in *.
    assert (Hbase : now <= now + d * DAY <= now + 7 * DAY)
      by (unfold DAY; lia).
    destruct (search timeRe text) as [m |] eqn:Htm.
    - rewrite (extractTime_localDayAt zone offset now _ text) by auto.
      split; [reflexivity |].
      apply Z.lt_le_incl, localDayAt_later;
        [lia | apply hour24_nonneg | apply groupInt_nonneg].
    - cbn [extractTime].
      rewrite (setHours4_localDayAt zone offset now) by (auto; lia).
      split; [reflexivity |].
      apply Z.lt_le_incl, localDayAt_later; lia. }
  destruct (search timeRe text) as [m |] eqn:Htm; [| reflexivity].
  rewrite (extractTime_localDayAt zone offset now now text)
    by (auto; unfold DAY; lia).
  cbn [isAfter].
  destruct (Z.ltb_spec now (localDayAt offset now (hour24 m) (groupInt 2 m))).
  - split; [reflexivity | lia].
  - rewrite Hnext.
    rewrite (extractTime_localDayAt zone offset now _ text) by auto.
    split; [reflexivity |].
    replace (now + DAY) with (now + 1 * DAY) by lia.
    apply Z.lt_le_incl, localDayAt_later;
      [lia | apply hour24_nonneg | apply groupInt_nonneg].
Qed.



(** Across a change of the zone's offset the inference follows the local
    clock of the host.  On the day that lasts twenty-five hours, twenty-four
    hours after half past midnight is still the same local day, and
    "tomorrow" resolves to 09:00 of that day, which is today. *)
Lemma pickSchedule_fall_back_example :
  let picked :=
    pickSchedule fallBackZone (fun _ => fallBackNow) exampleIntent
      "Australia/Sydney" (exampleContext "remind me tomorrow") in
  toISOString fallBackNow = "2026-04-04T13:30:00.000Z"%string
  /\ civilFromDays (toLocal fallBackZone fallBackNow / MS_PER_DAY)
     = (2026, 4, 5)
  /\ inferDateTimeFromMessage fallBackZone fallBackNow "remind me tomorrow"
     = Some (Some 1775343600000)
  /\ civilFromDays (toLocal fallBackZone 1775343600000 / MS_PER_DAY)
     = (2026, 4, 5)
  /\ hourFromTime (toLocal fallBackZone 1775343600000) = 9
  /\ scheduleAt picked = Some "2026-04-04T23:00:00.000Z"%string.
Proof. vm_compute. repeat split. Qed.


(** ** The policy: recipients, body and the idempotency key *)

Lemma string_length_zero (s : string) :
  (String.length s =? 0)%nat = true <-> s = EmptyString.
Proof. destruct s; simpl; split; congruence. Qed.

(** [evaluatePolicy] fails exactly on an empty resolved body, and otherwise
    builds the plan from the resolved values. *)
Lemma evaluatePolicy_cases (zone : Zone) (clock : nat -> Z)
  (sha256hex : string -> string) (i : NotificationIntent)
  (ctx : PolicyContext) :
  (resolvedBody i ctx = EmptyString
   /\ evaluatePolicy zone clock sha256hex i ctx
      = PolicyFail "Message body is empty.")
  \/ (resolvedBody i ctx <> EmptyString
      /\ exists plan notes,
           evaluatePolicy zone clock sha256hex i ctx = PolicyOk plan notes
           /\ pl_idempotencyKey plan
              = generateIdempotencyKey sha256hex
                  (resolvedIdentity zone clock i ctx)
           /\ pl_to plan = d_to (resolvedIdentity zone clock i ctx)
           /\ pl_body plan = d_body (resolvedIdentity zone clock i ctx)
           /\ pl_scheduleAt plan
              = ifTruthy (d_scheduleAt (resolvedIdentity zone clock i ctx))
           /\ pl_repeat plan
              = d_repeat (resolvedIdentity zone clock i ctx)).
Proof.
  unfold evaluatePolicy, resolvedIdentity, resolvedBody.
  destruct (forceChannel i []) as [ch notes0]. cbn [snd].
  cbn [pickRecipients length Nat.eqb].
  destruct (pickBody i notes0 ctx) as [body notes1]. cbn [fst].
  destruct (String.length body =? 0)%nat eqn:Hlen.
  - left. apply string_length_zero in Hlen. auto.
  - right. split.
    + intros ->. discriminate Hlen.
    + eexists _, _. split; [reflexivity |]. cbn.
      repeat split. unfold ifTruthy.
      destruct (truthyOpt (scheduleAt _)) eqn:Ht; rewrite ?Ht; reflexivity.
Qed.

(** C2. The key of a plan is the hash of the resolved [to], [body],
    [scheduleAt] and [repeat] and of nothing else: two evaluations, of any
    intents in any contexts at any times, that resolve these four values
    alike produce the same key. *)
Theorem idempotencyKey_deterministic
  (sha256hex : string -> string)
  (zone1 zone2 : Zone) (clock1 clock2 : nat -> Z)
  (i1 i2 : NotificationIntent) (ctx1 ctx2 : PolicyContext)
  (plan1 plan2 : NotificationPlan) (notes1 notes2 : list string) :
  evaluatePolicy zone1 clock1 sha256hex i1 ctx1 = PolicyOk plan1 notes1 ->
  evaluatePolicy zone2 clock2 sha256hex i2 ctx2 = PolicyOk plan2 notes2 ->
  resolvedIdentity zone1 clock1 i1 ctx1
  = resolvedIdentity zone2 clock2 i2 ctx2 ->
  pl_idempotencyKey plan1
  = generateIdempotencyKey sha256hex (resolvedIdentity zone1 clock1 i1 ctx1)
  /\ pl_idempotencyKey plan1 = pl_idempotencyKey plan2.
Proof.
  intros H1 H2 Heq.
  destruct (evaluatePolicy_cases zone1 clock1 sha256hex i1 ctx1)
    as [[_ Hf] | (_ & p1 & n1 & Hp1 & Hk1 & _)]; [congruence |].
  destruct (evaluatePolicy_cases zone2 clock2 sha256hex i2 ctx2)
    as [[_ Hf] | (_ & p2 & n2 & Hp2 & Hk2 & _)]; [congruence |].
  rewrite H1 in Hp1. rewrite H2 in Hp2.
  injection Hp1 as <- <-. injection Hp2 as <- <-.
  split; [exact Hk1 |]. by rewrite Hk1, Hk2, Heq.
Qed.

Lemma idempotencyKey_deterministic_witness :
  exists plan1 notes1 plan2 notes2,
    evaluatePolicy (fixedZone exampleTzOffset) (fun _ => exampleNow)
      exampleDigest
      otherIntent (exampleContext "remind me")
    = PolicyOk plan1 notes1
    /\ evaluatePolicy (fixedZone 0) (fun _ => 0) exampleDigest
         sameIdentityIntent (exampleContext "  Take your pill ")
       = PolicyOk plan2 notes2
    /\ notes1 <> notes2
    /\ pl_idempotencyKey plan1 = pl_idempotencyKey plan2.
Proof.
  eexists _, _, _, _.
  split; [reflexivity |]. split; [reflexivity |]. split; [discriminate |].
  apply (idempotencyKey_deterministic exampleDigest
           (fixedZone exampleTzOffset) (fixedZone 0)
           (fun _ => exampleNow) (fun _ => 0)
           otherIntent sameIdentityIntent
           (exampleContext "remind me") (exampleContext "  Take your pill ")
           _ _ _ _ eq_refl eq_refl eq_refl).
Defined.

(** *** The job queue is reached only through a successful evaluation *)

Lemma enqueueCalled_bindM {A B} (m : NotificationAgent.M A)
  (k : A -> NotificationAgent.M B) :
  enqueueCalled (NotificationAgent.bindM m k)
  = enqueueCalled m
    || match snd m with
       | Ok a => enqueueCalled (k a)
       | Throw _ => false
       end.
Proof.
  unfold enqueueCalled, NotificationAgent.bindM.
  destruct m as [es [a | e]]; simpl.
  - destruct (k a) as [es' r]. simpl. apply existsb_app.
  - by rewrite orb_false_r.
Qed.

Lemma submit_policy_fail (w : NotificationAgent.World) (input : AgentInput)
  (parsed : ParsedIntent) (err : string) :
  agentPolicy w input parsed = PolicyFail err ->
  fst (NotificationAgent.submit w input parsed)
  = [NotificationAgent.EDlqPut err]
  /\ enqueueCalled (NotificationAgent.submit w input parsed) = false.
Proof.
  unfold agentPolicy, agentContext, NotificationAgent.submit, enqueueCalled.
  intros ->. unfold NotificationAgent.bindM, NotificationAgent.call.
  destruct (NotificationAgent.putToNotificationDLQ w err); simpl; auto.
Qed.

Lemma submit_enqueue_policy_ok (w : NotificationAgent.World)
  (input : AgentInput) (parsed : ParsedIntent) :
  enqueueCalled (NotificationAgent.submit w input parsed) = true ->
  isPolicyOk (agentPolicy w input parsed) = true.
Proof.
  intros H. destruct (agentPolicy w input parsed) as [plan notes | err] eqn:Hp;
    [reflexivity |].
  apply submit_policy_fail in Hp as [_ Hp]. congruence.
Qed.

Lemma cancelNotificationByIdTool_no_enqueue (w : NotificationAgent.World)
  (id : string) :
  enqueueCalled (NotificationAgent.cancelNotificationByIdTool w id) = false.
Proof.
  unfold NotificationAgent.cancelNotificationByIdTool, enqueueCalled,
    NotificationAgent.bindM, NotificationAgent.query, NotificationAgent.call,
    NotificationAgent.ret.
  destruct (NotificationAgent.getJobId w id) as [existing | e]; [| reflexivity].
  destruct (truthyOpt existing); [| reflexivity].
  destruct (NotificationAgent.removeJobById w _); reflexivity.
Qed.

Lemma fst_bindM {A B} (m : NotificationAgent.M A)
  (k : A -> NotificationAgent.M B) :
  fst (NotificationAgent.bindM m k)
  = fst m ++ match snd m with
             | Ok a => fst (k a)
             | Throw _ => []
             end.
Proof.
  unfold NotificationAgent.bindM. destruct m as [es [a | e]]; simpl.
  - by destruct (k a).
  - by rewrite app_nil_r.
Qed.

(** A trace of [process] that reaches [enqueue] is a prefix without it,
    followed by the submission of an intent whose evaluation succeeded. *)
Lemma process_enqueue_policy_ok (w : NotificationAgent.World)
  (input : AgentInput) :
  enqueueCalled (NotificationAgent.process w input) = true ->
  exists parsed pre,
    fst (NotificationAgent.process w input)
    = pre ++ fst (NotificationAgent.submit w input parsed)
    /\ existsb isEnqueue pre = false
    /\ isPolicyOk (agentPolicy w input parsed) = true.
Proof.
  unfold enqueueCalled. unfold NotificationAgent.process.
  rewrite fst_bindM.
  destruct (NotificationAgent.extractIntent w (in_message input))
    as [parsed | e]; cbn [NotificationAgent.query fst snd app];
    [| discriminate].
  destruct (NotificationAgent.isOp parsed Cancel).
  { match goal with
    | |- context [match ?r with inl _ => _ | inr _ => _ end] => destruct r
    end; [| discriminate].
    rewrite fst_bindM, existsb_app.
    fold (enqueueCalled (NotificationAgent.cancelNotificationByIdTool w
                           (default EmptyString (notificationId p)))).
    rewrite cancelNotificationByIdTool_no_enqueue.
    destruct (snd _); discriminate. }
  destruct (NotificationAgent.isOp parsed Query); [discriminate |].
  match goal with
  | |- context [match ?r with inl _ => _ | inr _ => _ end] => destruct r as [p |]
  end; [| discriminate].
  rewrite fst_bindM.
  match goal with
  | |- context [fst ?m ++ _] => set (pre := m)
  end.
  assert (Hpre : existsb isEnqueue (fst pre) = false).
  { subst pre.
    unfold NotificationAgent.bindM, NotificationAgent.query,
      NotificationAgent.call, NotificationAgent.ret.
    destruct (_ && _); [| reflexivity].
    destruct (NotificationAgent.getJobId w _) as [existing | e];
      [| reflexivity].
    destruct (truthyOpt existing); reflexivity. }
  rewrite existsb_app, Hpre. cbn [orb].
  destruct (snd pre); [| discriminate].
  intros H. eexists _, (fst pre). split; [reflexivity |].
  split; [exact Hpre |]. apply submit_enqueue_policy_ok. exact H.
Qed.

(** ** Plan matching *)

Lemma insertDesc_Permutation (x : Candidate) (l : list Candidate) :
  insertDesc x l ≡ₚ x :: l.
Proof.
  induction l as [| y l IH]; simpl; [reflexivity |].
  destruct (c_score x <? c_score y); [| reflexivity].
  rewrite IH. apply Permutation_swap.
Qed.

Lemma sortDesc_Permutation (l : list Candidate) : sortDesc l ≡ₚ l.
Proof.
  induction l as [| x l IH]; simpl; [reflexivity |].
  rewrite insertDesc_Permutation. by constructor.
Qed.

Lemma insertDesc_descending (x : Candidate) (l : list Candidate) :
  descending l -> descending (insertDesc x l).
Proof.
  induction l as [| y l IH]; intros Hl; simpl.
  - repeat constructor.
  - apply StronglySorted_cons in Hl as [Hy Hl].
    destruct (Z.ltb_spec (c_score x) (c_score y)) as [Hlt | Hge].
    + apply StronglySorted_cons. split; [| by apply IH].
      rewrite insertDesc_Permutation. constructor; [lia | assumption].
    + apply StronglySorted_cons. split.
      * constructor; [assumption |].
        eapply Forall_impl; [exact Hy |]. simpl. intros. lia.
      * apply StronglySorted_cons. by split.
Qed.

Lemma sortDesc_descending (l : list Candidate) : descending (sortDesc l).
Proof.
  induction l as [| x l IH]; simpl; [constructor |].
  by apply insertDesc_descending.
Qed.

(** The head of the sorted array carries the highest score. *)
Lemma sortDesc_head_max (l : list Candidate) (c0 : Candidate)
  (others : list Candidate) :
  sortDesc l = c0 :: others ->
  forall c, c ∈ l -> c_score c <= c_score c0.
Proof.
  intros Hsort c Hc.
  pose proof (sortDesc_descending l) as Hdesc. rewrite Hsort in Hdesc.
  apply StronglySorted_cons in Hdesc as [Hhead _].
  rewrite <- (sortDesc_Permutation l), Hsort in Hc.
  apply elem_of_cons in Hc as [-> | Hc]; [lia |].
  rewrite Forall_forall in Hhead. by apply Hhead.
Qed.

(** The sort is stable: candidates of one score keep their order. *)
Lemma filter_insertDesc (s : Z) (x : Candidate) (l : list Candidate) :
  List.filter (fun c => c_score c =? s) (insertDesc x l)
  = List.filter (fun c => c_score c =? s) (x :: l).
Proof.
  induction l as [| y l IH]; [reflexivity |].
  cbn [insertDesc].
  destruct (Z.ltb_spec (c_score x) (c_score y)) as [Hlt | Hge];
    [| reflexivity].
  cbn [List.filter] in *. rewrite IH.
  destruct (Z.eqb_spec (c_score x) s), (Z.eqb_spec (c_score y) s);
    try reflexivity.
  lia.
Qed.

Lemma filter_sortDesc (s : Z) (l : list Candidate) :
  List.filter (fun c => c_score c =? s) (sortDesc l)
  = List.filter (fun c => c_score c =? s) l.
Proof.
  induction l as [| x l IH]; [reflexivity |].
  cbn [sortDesc foldr]. rewrite filter_insertDesc.
  cbn [List.filter]. fold (sortDesc l). by rewrite IH.
Qed.

Lemma filter_all {A} (p : A -> bool) (l : list A) :
  (forall x, x ∈ l -> p x = true) -> List.filter p l = l.
Proof.
  induction l as [| x l IH]; intros H; [reflexivity |].
  cbn [List.filter]. rewrite H by left. f_equal. apply IH.
  intros y Hy. apply H. by right.
Qed.

Lemma filter_none {A} (p : A -> bool) (l : list A) :
  (forall x, x ∈ l -> p x = false) -> List.filter p l = [].
Proof.
  induction l as [| x l IH]; intros H; [reflexivity |].
  cbn [List.filter]. rewrite H by left. apply IH.
  intros y Hy. apply H. by right.
Qed.

Lemma sortDesc_all_equal (s : Z) (l : list Candidate) :
  (forall c, c ∈ l -> c_score c = s) -> sortDesc l = l.
Proof.
  intros H.
  rewrite <- (filter_all (fun c => c_score c =? s) (sortDesc l)).
  - rewrite filter_sortDesc. apply filter_all.
    intros c Hc. apply Z.eqb_eq. by apply H.
  - intros c Hc. rewrite sortDesc_Permutation in Hc.
    apply Z.eqb_eq. by apply H.
Qed.

Section Matching.
Variable listUserPlans : string -> Exn (list StoredPlan).
Variable utcMonthDay : string -> option (Z * Z).
Variables userId utterance : string.
Variable plans : list StoredPlan.
Hypothesis Hplans : listUserPlans userId = Ok plans.

Let cs := scoredCandidates utcMonthDay utterance plans.
Let result := findMatchingPlanTool listUserPlans utcMonthDay userId utterance.

Lemma findMatchingPlanTool_no_date :
  mentionedDates utterance = [] -> result = NotFound.
Proof.
  intros Hdates. subst result. unfold findMatchingPlanTool, listUserPlansTool.
  rewrite Hplans, Hdates.
  destruct (length plans =? 0)%nat; [reflexivity |].
  destruct (sortDesc _); reflexivity.
Qed.

Lemma candidates_plans_nonempty (c : Candidate) :
  c ∈ cs -> (length plans =? 0)%nat = false.
Proof.
  subst cs. unfold scoredCandidates.
  destruct plans; [| reflexivity]. simpl. by intros ?%elem_of_nil.
Qed.

Lemma dates_nonempty : 
  mentionedDates utterance <> [] ->
  (length (mentionedDates utterance) =? 0)%nat = false.
Proof. destruct (mentionedDates utterance); [congruence | reflexivity]. Qed.

Lemma findMatchingPlanTool_top (top : Candidate) :
  mentionedDates utterance <> [] ->
  top ∈ cs ->
  (forall c, c ∈ cs -> c_score c <= c_score top) ->
  c_score top <> 0 ->
  let ties := List.filter (fun c => c_score c =? c_score top) cs in
  (1 < length ties)%nat /\ result = Ambiguous (take 3 ties)
  \/ ties = [top]
     /\ result = Matched (default EmptyString (c_id top)) (c_plan top).
Proof.
  intros Hdates Htop Hmax Hnz ties.
  subst result. unfold findMatchingPlanTool, listUserPlansTool.
  rewrite Hplans, (candidates_plans_nonempty top Htop).
  fold cs. rewrite (dates_nonempty Hdates).
  destruct (sortDesc cs) as [| c0 others] eqn:Hsort.
  { exfalso. rewrite <- (sortDesc_Permutation cs), Hsort in Htop.
    by apply elem_of_nil in Htop. }
  assert (Hc0 : c0 ∈ cs).
  { rewrite <- (sortDesc_Permutation cs), Hsort. left. }
  assert (Hscore : c_score c0 = c_score top).
  { pose proof (sortDesc_head_max cs c0 others Hsort top Htop).
    pose proof (Hmax c0 Hc0). lia. }
  destruct (Z.eqb_spec (c_score c0) 0) as [Hz | _]; [lia |].
  rewrite Hscore, <- Hsort, filter_sortDesc. fold ties.
  destruct (Nat.ltb_spec 1 (length ties)) as [Hlen | Hlen]; [by left |].
  right.
  assert (Hin : forall c, c ∈ cs -> c_score c = c_score top -> c ∈ ties).
  { intros c Hc Hs. subst ties. apply list_elem_of_In, filter_In.
    split; [by apply list_elem_of_In | by apply Z.eqb_eq]. }
  pose proof (Hin top Htop eq_refl) as Ht.
  pose proof (Hin c0 Hc0 Hscore) as Ht0.
  destruct ties as [| x [| y ties']]; simpl in Hlen;
    [by apply elem_of_nil in Ht | | lia].
  apply list_elem_of_singleton in Ht, Ht0. by subst.
Qed.

Lemma findMatchingPlanTool_lifted (c0 : Candidate) (others : list Candidate) :
  mentionedDates utterance <> [] ->
  cs = c0 :: others ->
  (forall c, c ∈ cs -> c_score c = 0) ->
  result = Matched (default EmptyString (c_id c0)) (c_plan c0).
Proof.
  intros Hdates Hcs Hzero.
  subst result. unfold findMatchingPlanTool, listUserPlansTool.
  rewrite Hplans, (candidates_plans_nonempty c0) by (rewrite Hcs; left).
  fold cs. rewrite (dates_nonempty Hdates).
  rewrite (sortDesc_all_equal 0 cs Hzero), Hcs.
  rewrite (proj2 (Z.eqb_eq _ _) (Hzero c0 ltac:(rewrite Hcs; left))).
  cbn [List.filter setScore c_score c_id c_plan]. rewrite Z.eqb_refl.
  rewrite filter_none; [reflexivity |].
  intros c Hc. rewrite (Hzero c) by (rewrite Hcs; by right). reflexivity.
Qed.

End Matching.

(** Two candidates tie for the top score, at zero, and the first is returned
    as the match. *)
Lemma findMatchingPlanTool_tie_counterexample :
  mentionedDates "move it to 8/9" = [(8, 9)]
  /\ map c_score
       (scoredCandidates isoUTCMonthDay "move it to 8/9" examplePlans)
     = [0; 0]
  /\ findMatchingPlanTool (fun _ => Ok examplePlans) isoUTCMonthDay
       "u1" "move it to 8/9"
     = Matched "n1" (planRef (storedPlan "n1" "2025-07-03T09:00:00.000Z")).
Proof. repeat split; vm_compute; reflexivity. Qed.

(** C7 (amended). With the user's plans listed, the candidates are the
    plans that carry an identifier and a time, each scored 1 for a month/day
    equal to a date token of the utterance plus 0.1 when the utterance holds
    scheduling vocabulary (10 and 1 in tenths).  Without a date token the
    answer is not-found whatever the candidates.  With one, and a top score
    other than zero, the answer is ambiguous (the first three of the tied
    candidates, in list order) when several candidates hold the top score,
    and the match when one does.  When every candidate scores zero, the
    first in list order is lifted to 0.5 and returned as the match. *)
Theorem findMatchingPlanTool_matching
  (listUserPlans : string -> Exn (list StoredPlan))
  (utcMonthDay : string -> option (Z * Z))
  (userId utterance : string) (plans : list StoredPlan) :
  listUserPlans userId = Ok plans ->
  let cs := scoredCandidates utcMonthDay utterance plans in
  let result := findMatchingPlanTool listUserPlans utcMonthDay userId utterance in
  let bonus := if test vocabularyRe utterance then 1 else 0 in
  (forall c, c ∈ cs ->
     exists p id iso,
       p ∈ plans
       /\ orElse (sp_notificationId p) (sp_id p) = Some id
       /\ orElse (sp_plan p ≫= when_iso) (sp_plan p ≫= schedule_iso) = Some iso
       /\ c_id c = Some id /\ c_plan c = planRef p
       /\ ((exists d, utcMonthDay iso = Some d /\ d ∈ mentionedDates utterance)
           /\ c_score c = 10 + bonus
           \/ ~ (exists d, utcMonthDay iso = Some d
                           /\ d ∈ mentionedDates utterance)
              /\ c_score c = 0 + bonus))
  /\ (mentionedDates utterance = [] -> result = NotFound)
  /\ (mentionedDates utterance <> [] ->
      forall top,
        top ∈ cs ->
        (forall c, c ∈ cs -> c_score c <= c_score top) ->
        c_score top <> 0 ->
        let ties := List.filter (fun c => c_score c =? c_score top) cs in
        (1 < length ties)%nat /\ result = Ambiguous (take 3 ties)
        \/ ties = [top]
           /\ result = Matched (default EmptyString (c_id top)) (c_plan top))
  /\ (mentionedDates utterance <> [] ->
      forall c0 others,
        cs = c0 :: others ->
        (forall c, c ∈ cs -> c_score c = 0) ->
        result = Matched (default EmptyString (c_id c0)) (c_plan c0)).
Proof.
  intros Hplans cs result bonus.
  split; [| split; [| split]].
  - intros c Hc. subst cs. unfold scoredCandidates in Hc.
    apply list_elem_of_In, filter_In in Hc as [Hc Hid].
    apply in_map_iff in Hc as (p & <- & Hp).
    unfold scoreCandidate in *.
    destruct (orElse (sp_notificationId p) (sp_id p)) as [idv |] eqn:Hidv;
      [| discriminate Hid].
    destruct (truthyOpt (Some idv)) eqn:Hti; [| discriminate Hid].
    destruct (orElse (sp_plan p ≫= when_iso) (sp_plan p ≫= schedule_iso))
      as [iso |] eqn:Hiso; [| discriminate Hid].
    destruct (truthyOpt (Some iso)) eqn:Htw; [| discriminate Hid].
    cbn [negb orb] in *. cbn [c_id c_plan c_score].
    exists p, idv, iso. split; [by apply list_elem_of_In |].
    split; [exact Hidv |]. split; [exact Hiso |].
    do 2 (split; [reflexivity |]). cbn [mbind option_bind].
    destruct (utcMonthDay iso) as [[month day] |] eqn:Hd.
    + destruct (existsb _ _) eqn:Hex.
      * left. split; [| reflexivity].
        apply existsb_exists in Hex as ([mo d] & Hin & Heq).
        apply andb_true_iff in Heq as [->%Z.eqb_eq ->%Z.eqb_eq].
        eexists. split; [reflexivity | by apply list_elem_of_In].
      * right. split; [| reflexivity].
        intros (d & Hd' & Hin). injection Hd' as <-.
        apply not_true_iff_false in Hex. apply Hex.
        apply existsb_exists. exists (month, day).
        split; [by apply list_elem_of_In |]. simpl.
        by rewrite !Z.eqb_refl.
    + right. split; [| reflexivity]. intros (d & Hd' & _). discriminate.
  - exact (findMatchingPlanTool_no_date _ _ _ _ plans Hplans).
  - intros Hdates top. exact (findMatchingPlanTool_top _ _ _ _ plans Hplans top Hdates).
  - intros Hdates c0 others.
    exact (findMatchingPlanTool_lifted _ _ _ _ plans Hplans c0 others Hdates).
Qed.

(** The two cases of the repository's test: "7/5" singles out the plan of
    5 July; an utterance without a date token finds nothing. *)
Lemma findMatchingPlanTool_matching_witness :
  findMatchingPlanTool (fun _ => Ok examplePlans) isoUTCMonthDay
    "u1" "hello world" = NotFound
  /\ findMatchingPlanTool (fun _ => Ok examplePlans) isoUTCMonthDay
       "u1" "change my last appointment to 7/5"
     = Matched "n2" (planRef (storedPlan "n2" "2025-07-05T09:00:00.000Z")).
Proof.
  split.
  - apply (findMatchingPlanTool_matching (fun _ => Ok examplePlans)
             isoUTCMonthDay "u1" "hello world" examplePlans eq_refl).
    reflexivity.
  - pose proof (findMatchingPlanTool_matching (fun _ => Ok examplePlans)
                  isoUTCMonthDay "u1" "change my last appointment to 7/5"
                  examplePlans eq_refl) as (_ & _ & Htop & _).
    destruct (Htop ltac:(discriminate)
                {| c_id := Some "n2"%string;
                   c_plan := planRef (storedPlan "n2" "2025-07-05T09:00:00.000Z");
                   c_score := 11 |})
      as [[Hlen _] | [_ Hres]].
    + vm_compute. right. left.
    + intros c Hc. vm_compute in Hc.
      apply elem_of_cons in Hc as [-> | Hc]; [vm_compute; discriminate |].
      apply list_elem_of_singleton in Hc as ->. vm_compute. discriminate.
    + discriminate.
    + vm_compute in Hlen. lia.
    + exact Hres.
Defined.

(** ** Policy failure *)

(** An intent with no recipients listed and no message of its own is
    scheduled to the internal number when the utterance is not blank. *)
Lemma evaluatePolicy_empty_recipients_counterexample :
  recipients exampleIntent = []
  /\ message exampleIntent = None
  /\ pickRecipients exampleIntent = ["+61412345678"%string]
  /\ exists plan notes,
       evaluatePolicy (fixedZone exampleTzOffset) (fun _ => exampleNow)
      exampleDigest
         exampleIntent (exampleContext "invalid notification case")
       = PolicyOk plan notes
       /\ pl_to plan = ["+61412345678"%string]
       /\ pl_body plan = "invalid notification case"%string.
Proof.
  repeat split. eexists _, _. split; [reflexivity |]. split; reflexivity.
Qed.

(** C1 (amended). Recipient resolution yields the internal number for every
    intent, whatever recipients it lists, so no evaluation fails for lack of
    recipients.  [evaluatePolicy] returns [{ok: false}] exactly when the
    resolved body is empty, with the error "Message body is empty."; in
    particular an intent with an empty recipients list whose body resolves
    to nothing fails.  When the evaluation fails the handler writes to the
    dead-letter queue and never calls the queue's [enqueue]; a run of the
    handler reaches [enqueue] only in submitting an intent whose evaluation
    succeeded. *)
Theorem evaluatePolicy_failure
  (zone : Zone) (clock : nat -> Z) (sha256hex : string -> string)
  (i : NotificationIntent) (ctx : PolicyContext) :
  pickRecipients i = ["+61412345678"%string]
  /\ (forall err,
        evaluatePolicy zone clock sha256hex i ctx = PolicyFail err
        <-> resolvedBody i ctx = EmptyString
            /\ err = "Message body is empty."%string)
  /\ (recipients i = [] -> resolvedBody i ctx = EmptyString ->
      evaluatePolicy zone clock sha256hex i ctx
      = PolicyFail "Message body is empty.")
  /\ (forall w input parsed err,
        agentPolicy w input parsed = PolicyFail err ->
        fst (NotificationAgent.submit w input parsed)
        = [NotificationAgent.EDlqPut err]
        /\ enqueueCalled (NotificationAgent.submit w input parsed) = false)
  /\ (forall w input,
        enqueueCalled (NotificationAgent.process w input) = true ->
        exists parsed pre,
          fst (NotificationAgent.process w input)
          = pre ++ fst (NotificationAgent.submit w input parsed)
          /\ existsb isEnqueue pre = false
          /\ isPolicyOk (agentPolicy w input parsed) = true).
Proof.
  split; [reflexivity |].
  pose proof (evaluatePolicy_cases zone clock sha256hex i ctx) as Hcases.
  split; [| split; [| split]].
  - intros err. split.
    + intros Hfail.
      destruct Hcases as [[Hbody Hf] | (_ & plan & notes & Hok & _)];
        [| congruence].
      rewrite Hf in Hfail. injection Hfail as <-. auto.
    + intros [Hbody ->].
      destruct Hcases as [[_ Hf] | (Hne & _)]; [exact Hf | contradiction].
  - intros _ Hbody.
    destruct Hcases as [[_ Hf] | (Hne & _)]; [exact Hf | contradiction].
  - apply submit_policy_fail.
  - apply process_enqueue_policy_ok.
Qed.

(** A blank utterance with nothing parsed from it: the evaluation fails on
    the body, the handler writes to the dead-letter queue and does not
    enqueue. *)
Lemma evaluatePolicy_failure_witness :
  evaluatePolicy (fixedZone exampleTzOffset) (fun _ => exampleNow)
      exampleDigest
    exampleIntent (exampleContext "   ")
  = PolicyFail "Message body is empty."
  /\ NotificationAgent.process exampleWorld blankInput
     = ([NotificationAgent.EDlqPut "Message body is empty."],
        Ok (plainOutput
              "Unable to schedule notification: Message body is empty."
              [NotificationAgent.action "plan_notification" Failed
                 (Some {[ "reason"%string := JStr "Message body is empty." ]})]))
  /\ enqueueCalled (NotificationAgent.process exampleWorld blankInput) = false.
Proof.
  split; [| split].
  - apply (evaluatePolicy_failure (fixedZone exampleTzOffset)
             (fun _ => exampleNow)
             exampleDigest exampleIntent (exampleContext "   "));
      reflexivity.
  - vm_compute. reflexivity.
  - vm_compute. reflexivity.
Defined.

(** ** Strategy selection on the rules of the repository *)

(** One rule is run sequentially; the two rules of the graph, of priorities
    high and low, select winner-take-all; a rule listed twice selects
    all-finish-merge. *)
Lemma determineExecutionStrategy_selection_witness :
  st_type (determineExecutionStrategy [createNotificationToAppointmentRule]
             (createInitialState exampleInput)) = Sequential
  /\ st_type (determineExecutionStrategy getCollaborationRules
                (createInitialState exampleInput)) = WinnerTakeAll
  /\ st_type (determineExecutionStrategy
                [createAppointmentToReportRule; createAppointmentToReportRule]
                (createInitialState exampleInput)) = AllFinishMerge.
Proof.
  split; [| split].
  - apply (determineExecutionStrategy_selection
             [createNotificationToAppointmentRule]
             (createInitialState exampleInput)).
    reflexivity.
  - apply (determineExecutionStrategy_selection getCollaborationRules
             (createInitialState exampleInput)).
    exists createNotificationToAppointmentRule, createAppointmentToReportRule.
    split; [left |]. split; [right; left | discriminate].
  - apply (determineExecutionStrategy_selection
             [createAppointmentToReportRule; createAppointmentToReportRule]
             (createInitialState exampleInput)).
    + simpl. lia.
    + intros r1 r2 H1 H2.
      apply elem_of_cons in H1 as [-> | H1], H2 as [-> | H2];
        try apply list_elem_of_singleton in H1 as ->;
        try apply list_elem_of_singleton in H2 as ->; reflexivity.
Defined.

(** ** The block guard of the router *)

Lemma matchLit_prefix (cs : list ascii) (p : option ascii) (s : string)
  (caps0 : list (nat * list ascii)) :
  (exists st', matchLit cs (MState p (chars s) caps0) = Some st')
  <-> String.prefix (string_of_list_ascii cs) s = true.
Proof.
  revert p s. induction cs as [| c cs IH]; intros p s.
  - simpl. destruct s; split; eauto.
  - destruct s as [| x s]; simpl.
    + split; [intros [? H] | intros H]; discriminate.
    + destruct (Ascii.eqb_spec x c) as [-> | Hne].
      * destruct (Ascii.ascii_dec c c) as [_ | Hc]; [| contradiction].
        apply IH.
      * destruct (Ascii.ascii_dec c x) as [Heq | _]; [by subst |].
        split; [intros [? H] | intros H]; discriminate.
Qed.

Lemma searchFrom_Bol_later (r : regex) (c : ascii) (s : list ascii) :
  searchFrom (Seq Bol r) (Some c) s = None.
Proof.
  revert c. induction s as [| x s IH]; intros c; simpl; [reflexivity |].
  apply IH.
Qed.

(** [/^appointment\./] tests for the prefix ["appointment."]. *)
Lemma appointmentRe_prefix (intent : string) :
  test Router.appointmentRe intent = String.prefix "appointment." intent.
Proof.
  unfold test, search, Router.appointmentRe.
  assert (Hat : matchAt (Seq Bol (Lit "appointment.")) None (chars intent)
                = matchLit (chars "appointment.")
                    (MState None (chars intent) [])).
  { unfold matchAt. cbn [run prev]. rewrite run_Lit.
    destruct (matchLit _ _); reflexivity. }
  pose proof (matchLit_prefix (chars "appointment.") None intent []) as Hp.
  change (string_of_list_ascii (chars "appointment."))
    with "appointment."%string in Hp.
  destruct (chars intent) as [| x s] eqn:Hs.
  - cbn [searchFrom]. rewrite Hat.
    destruct (matchLit _ _) as [st' |].
    + symmetry. apply Hp. eauto.
    + destruct (String.prefix _ _); [| reflexivity].
      destruct (proj2 Hp eq_refl); discriminate.
  - cbn [searchFrom]. rewrite Hat, searchFrom_Bol_later.
    destruct (matchLit _ _) as [st' |].
    + symmetry. apply Hp. eauto.
    + destruct (String.prefix _ _); [| reflexivity].
      destruct (proj2 Hp eq_refl); discriminate.
Qed.

(** C10. For a request classified with an intent that begins with
    ["appointment."] and whose metadata holds no valid access token (no
    metadata, no token, an empty token, or the placeholder ["test-token"]),
    the router answers with the guard's explanation and dispatches to no
    handler, whatever else the classification holds and whatever handlers
    are registered. *)
Theorem appointment_blocked_before_dispatch
  (classify : string -> Router.Classification)
  (registry : gmap string Agent) (input : AgentInput) :
  String.prefix "appointment."
    (Router.cl_intent (classify (in_message input))) = true ->
  in_metadata input = None
  \/ (exists md, in_metadata input = Some md
        /\ (md_googleAccessToken md = None
            \/ md_googleAccessToken md = Some EmptyString
            \/ md_googleAccessToken md = Some "test-token"%string)) ->
  Router.process classify registry input = ([], Ok blockedOutput)
  /\ Router.agent classify registry input = Ok blockedOutput.
Proof.
  intros Hintent Hmeta.
  assert (Hlacks : Router.lacksToken (in_metadata input) = true).
  { destruct Hmeta as [-> | (md & -> & [Ht | [Ht | Ht]])]; [reflexivity | | |];
      unfold Router.lacksToken; rewrite Ht; reflexivity. }
  assert (Hp : Router.process classify registry input = ([], Ok blockedOutput)).
  { unfold Router.process, Router.BLOCK_RULES. cbn [Router.firstBlock].
    cbn [Router.gi_intent Router.gi_metadata].
    rewrite appointmentRe_prefix, Hintent, Hlacks. reflexivity. }
  split; [exact Hp |]. unfold Router.agent. by rewrite Hp.
Qed.

(** "book a GP appointment tomorrow 3pm" without an access token. *)
Lemma appointment_blocked_before_dispatch_witness :
  Router.process (classifyAs "appointment.book")
    {[ "appointment"%string := okAgent "appointment booked" ]} exampleInput
  = ([], Ok blockedOutput).
Proof.
  apply (appointment_blocked_before_dispatch (classifyAs "appointment.book")
           {[ "appointment"%string := okAgent "appointment booked" ]}
           exampleInput eq_refl (or_introl eq_refl)).
Defined.


(** ** Shared data grows by key union *)

Lemma saveIfReportCandidateOnce_keys (g : Env) (call : string)
  (s s' : AgentGraphState) :
  saveIfReportCandidateOnce g call s = Ok s' -> sharedKeys s ⊆ sharedKeys s'.
Proof.
  unfold saveIfReportCandidateOnce.
  repeat match goal with
         | |- context [if ?b then _ else _] => destruct b
         end; intros [= <-]; try reflexivity.
  unfold sharedKeys. simpl. rewrite dom_insert_L. set_solver.
Qed.

Lemma executeRouter_keys (g : Env) (s s' : AgentGraphState) :
  executeRouter g s = Ok s' -> sharedKeys s ⊆ sharedKeys s'.
Proof.
  unfold executeRouter.
  destruct (agents g !! "router"%string) as [a |]; simpl.
  - destruct (a _); simpl; intros [= <-]; reflexivity.
  - intros [= <-]; reflexivity.
Qed.

Lemma executeSpecializedAgent_keys (g : Env) (s s' : AgentGraphState) :
  executeSpecializedAgent g s = Ok s' -> sharedKeys s' = sharedKeys s.
Proof.
  unfold executeSpecializedAgent.
  destruct (getAgent g _) as [a | e]; simpl.
  - destruct (a _); simpl; intros [= <-]; reflexivity.
  - intros [= <-]; reflexivity.
Qed.

Lemma executeRouterStage_keys (g : Env) (s s' : AgentGraphState) :
  executeRouterStage g s = Ok s' -> sharedKeys s ⊆ sharedKeys s'.
Proof.
  unfold executeRouterStage.
  destruct (executeRouter g s) as [r | e] eqn:Hr; [| discriminate]. simpl.
  destruct (saveIfReportCandidateOnce g "router" r) as [r' | e] eqn:Hs;
    [| discriminate]. simpl.
  intros [= <-].
  apply executeRouter_keys in Hr. apply saveIfReportCandidateOnce_keys in Hs.
  change (sharedKeys (withTimeline r' _)) with (sharedKeys r'). set_solver.
Qed.

Lemma executeSpecializedAgentStage_keys (g : Env) (s s' : AgentGraphState) :
  executeSpecializedAgentStage g s = Ok s' -> sharedKeys s ⊆ sharedKeys s'.
Proof.
  unfold executeSpecializedAgentStage.
  destruct (executeSpecializedAgent g s) as [r | e] eqn:Hr; [| discriminate].
  simpl. intros [= <-].
  apply executeSpecializedAgent_keys in Hr.
  change (sharedKeys (withTimeline r _)) with (sharedKeys r). by rewrite Hr.
Qed.

Lemma createCollaborationState_keys (s : AgentGraphState)
  (rule : CollaborationRule) :
  sharedKeys s ⊆ sharedKeys (createCollaborationState s rule).
Proof.
  unfold sharedKeys, createCollaborationState. simpl.
  rewrite dom_union_L. set_solver.
Qed.

Lemma mergeSingleResult_keys (mergedState result : AgentGraphState) :
  sharedKeys mergedState ∪ sharedKeys result
  ⊆ sharedKeys (mergeSingleResult mergedState result).
Proof.
  unfold sharedKeys, mergeSingleResult. simpl.
  rewrite !dom_union_L. set_unfold. tauto.
Qed.

Lemma mergeCollaborationResults_keys (originalState : AgentGraphState)
  (results : list AgentGraphState) :
  sharedKeys originalState
  ⊆ sharedKeys (mergeCollaborationResults originalState results).
Proof.
  unfold mergeCollaborationResults.
  destruct (length results =? 0)%nat; [reflexivity |].
  revert originalState.
  induction results as [| r results IH]; intros originalState; [reflexivity |].
  simpl. etransitivity; [| apply IH].
  pose proof (mergeSingleResult_keys originalState r). set_solver.
Qed.

Lemma executeCollaborationRule_keys (g : Env) (s s' : AgentGraphState)
  (rule : CollaborationRule) :
  executeCollaborationRule g s rule = Ok s' -> sharedKeys s ⊆ sharedKeys s'.
Proof.
  unfold executeCollaborationRule.
  destruct (saveIfReportCandidateOnce g ("rule:" ++ name rule) s)
    as [r | e] eqn:Hs; [| discriminate].
  simpl. intros Hx.
  apply saveIfReportCandidateOnce_keys in Hs.
  unfold invokeRule in Hx.
  apply executeSpecializedAgent_keys in Hx.
  pose proof (createCollaborationState_keys r rule) as Hc.
  rewrite Hx. by etransitivity.
Qed.

Lemma invokeRule_keys (g : Env) (view s' : AgentGraphState)
  (rule : CollaborationRule) :
  invokeRule g view rule = Ok s' -> sharedKeys view ⊆ sharedKeys s'.
Proof.
  unfold invokeRule. intros Hx.
  apply executeSpecializedAgent_keys in Hx. rewrite Hx.
  apply createCollaborationState_keys.
Qed.

Lemma markIngested_keys (s : AgentGraphState) :
  sharedKeys s ⊆ sharedKeys (markIngested s).
Proof.
  unfold sharedKeys, markIngested. simpl. rewrite dom_insert_L. set_solver.
Qed.

Lemma executeCollaborationStrategy_keys (g : Env) (s s' : AgentGraphState)
  (rules : list CollaborationRule) (strategy : ExecutionStrategy) :
  executeCollaborationStrategy g s rules strategy = Ok s' ->
  sharedKeys s ⊆ sharedKeys s'.
Proof.
  apply (executeCollaborationStrategy_extends g
           (fun a b => sharedKeys a ⊆ sharedKeys b)).
  - reflexivity.
  - intros a b c Hab Hbc. by etransitivity.
  - apply markIngested_keys.
  - intros view rule r. apply invokeRule_keys.
  - intros merged r. pose proof (mergeSingleResult_keys merged r). set_solver.
Qed.

Lemma executeGenericCollaboration_keys (g : Env) (s s' : AgentGraphState) :
  executeGenericCollaboration g s = Ok s' -> sharedKeys s ⊆ sharedKeys s'.
Proof.
  unfold executeGenericCollaboration.
  destruct (default false _); [intros [= <-]; reflexivity |].
  destruct (extractSharedData s); [| intros [= <-]; reflexivity].
  destruct (length _ =? 0)%nat; [intros [= <-]; reflexivity |].
  apply executeCollaborationStrategy_keys.
Qed.

Lemma executeCollaborationStage_keys (g : Env) (s s' : AgentGraphState) :
  executeCollaborationStage g s = Ok s' -> sharedKeys s ⊆ sharedKeys s'.
Proof.
  unfold executeCollaborationStage.
  destruct (saveIfReportCandidateOnce g "collaboration" s) as [r | e] eqn:Hs;
    [| discriminate].
  simpl.
  destruct (executeGenericCollaboration g r) as [r' | e] eqn:Hg;
    [| discriminate]. simpl.
  intros [= <-].
  apply saveIfReportCandidateOnce_keys in Hs.
  apply executeGenericCollaboration_keys in Hg.
  change (sharedKeys (withTimeline r' _)) with (sharedKeys r'). set_solver.
Qed.

(** C8. No stage transition of a graph run removes a key of
    [context.sharedData]: not the router stage, the handler stage, the
    construction of a collaboration state, a merge of collaboration results
    (which keeps the keys of both sides), a rule invocation, any of the four
    strategies, nor the collaboration stage as a whole. *)
Theorem sharedData_keys_only_grow (g : Env) (s : AgentGraphState) :
  (forall s', executeRouterStage g s = Ok s' -> sharedKeys s ⊆ sharedKeys s')
  /\ (forall s', executeSpecializedAgentStage g s = Ok s' ->
        sharedKeys s ⊆ sharedKeys s')
  /\ (forall rule, sharedKeys s ⊆ sharedKeys (createCollaborationState s rule))
  /\ (forall result,
        sharedKeys s ∪ sharedKeys result
        ⊆ sharedKeys (mergeSingleResult s result))
  /\ (forall results,
        sharedKeys s ⊆ sharedKeys (mergeCollaborationResults s results))
  /\ (forall rule s', executeCollaborationRule g s rule = Ok s' ->
        sharedKeys s ⊆ sharedKeys s')
  /\ (forall rules strategy s',
        executeCollaborationStrategy g s rules strategy = Ok s' ->
        sharedKeys s ⊆ sharedKeys s')
  /\ (forall s', executeCollaborationStage g s = Ok s' ->
        sharedKeys s ⊆ sharedKeys s').
Proof.
  repeat split.
  - apply executeRouterStage_keys.
  - apply executeSpecializedAgentStage_keys.
  - apply createCollaborationState_keys.
  - apply mergeSingleResult_keys.
  - apply mergeCollaborationResults_keys.
  - intros rule s'. apply executeCollaborationRule_keys.
  - intros rules strategy s'. apply executeCollaborationStrategy_keys.
  - apply executeCollaborationStage_keys.
Qed.

(** The cascade from the appointment handler to the report handler keeps
    the key that was there and adds the mark of the hook and the key of the
    appointment handler. *)
Lemma sharedData_keys_only_grow_witness :
  exists s', executeCollaborationStage cascadeEnv bookedState = Ok s'
    /\ sharedKeys bookedState = {[ "patientId"%string ]}
    /\ sharedKeys bookedState ⊆ sharedKeys s'
    /\ sharedKeys s'
       = {[ "__reportIngested"%string; "appointmentSchedule"%string;
            "patientId"%string ]}.
Proof.
  destruct (executeCollaborationStage cascadeEnv bookedState)
    as [s' | e] eqn:H; [| vm_compute in H; discriminate].
  exists s'. split; [reflexivity |].
  split; [vm_compute; reflexivity |].
  split.
  - exact (proj2 (proj2 (proj2 (proj2 (proj2 (proj2 (proj2
             (sharedData_keys_only_grow cascadeEnv bookedState)))))))
             s' H).
  - vm_compute in H. injection H as <-. vm_compute. reflexivity.
Defined.

Lemma executeGenericCollaboration_skip (g : Env) (state : AgentGraphState) :
  ctx_multiAgentRequest (context state) = Some true ->
  executeGenericCollaboration g state = Ok state.
Proof.
  intros H. unfold executeGenericCollaboration. by rewrite H.
Qed.

Lemma executeCollaborationStage_skip (g : Env)
  (state marked : AgentGraphState) :
  ctx_multiAgentRequest (context state) = Some true ->
  saveIfReportCandidateOnce g "collaboration" state = Ok marked ->
  executeCollaborationStage g state
  = Ok (withTimeline marked
          (default [] (timeline state) ++ [collaborationEntry g])).
Proof.
  intros Hm Hs. unfold executeCollaborationStage. rewrite Hs. simpl.
  assert (Hmarked : ctx_multiAgentRequest (context marked) = Some true
                    /\ timeline marked = timeline state).
  { destruct (saveIfReportCandidateOnce_cases g "collaboration" state)
      as [H | H]; rewrite H in Hs; injection Hs as <-; by split. }
  destruct Hmarked as [Hm' Ht].
  rewrite (executeGenericCollaboration_skip g marked Hm'). simpl.
  rewrite Ht. by destruct (timeline state).
Qed.

(** C9 (amended).  When [context.multiAgentRequest] is true in the state
    that enters the collaboration stage, collaboration is skipped: the
    generic collaboration returns its state as it is, and the stage does not
    depend on any handler.  The stage returns the state that the ingestion
    hook leaves, with the timeline entry appended: that is the input state,
    or the input state with [__reportIngested] set in [context.sharedData]
    when the hook ingests the message; it is the input state whenever the
    hook leaves it alone. *)
Theorem executeCollaborationStage_multiAgentRequest (g : Env)
  (state : AgentGraphState)
  (Hmulti : ctx_multiAgentRequest (context state) = Some true) :
  executeGenericCollaboration g state = Ok state
  /\ (exists marked,
        saveIfReportCandidateOnce g "collaboration" state = Ok marked
        /\ (marked = state \/ marked = markIngested state)
        /\ executeCollaborationStage g state
           = Ok (withTimeline marked
                   (default [] (timeline state) ++ [collaborationEntry g])))
  /\ (forall g',
        ingestVerdict g' = ingestVerdict g ->
        elapsedMs g' = elapsedMs g ->
        executeCollaborationStage g' state
        = executeCollaborationStage g state)
  /\ (saveIfReportCandidateOnce g "collaboration" state = Ok state ->
      executeCollaborationStage g state
      = Ok (withTimeline state
              (default [] (timeline state) ++ [collaborationEntry g]))).
Proof.
  split; [by apply executeGenericCollaboration_skip |].
  split; [| split].
  - destruct (saveIfReportCandidateOnce_cases g "collaboration" state)
      as [H | H]; eexists; (split; [exact H |]);
      (split; [auto | by apply executeCollaborationStage_skip]).
  - intros g' Hv He.
    assert (Hsave : saveIfReportCandidateOnce g' "collaboration" state
                    = saveIfReportCandidateOnce g "collaboration" state).
    { unfold saveIfReportCandidateOnce, isReportCandidate. by rewrite Hv. }
    destruct (saveIfReportCandidateOnce_cases g "collaboration" state)
      as [H | H];
      rewrite (executeCollaborationStage_skip g _ _ Hmulti H);
      rewrite <- Hsave in H;
      rewrite (executeCollaborationStage_skip g' _ _ Hmulti H);
      unfold collaborationEntry; by rewrite He.
  - intros H. by apply executeCollaborationStage_skip.
Qed.

(** A request for two agents that the hook leaves alone: the stage only
    appends its timeline entry. *)
Lemma executeCollaborationStage_multiAgentRequest_witness :
  executeCollaborationStage exampleEnv multiState
  = Ok (withTimeline multiState
          (default [] (timeline multiState)
             ++ [collaborationEntry exampleEnv])).
Proof.
  apply (proj2 (proj2 (proj2 (executeCollaborationStage_multiAgentRequest
                                exampleEnv multiState eq_refl)))).
  reflexivity.
Defined.

(** A request for two agents whose message the hook ingests before the
    collaboration is skipped: the stage returns a state whose
    [context.sharedData] has a key that the entering state has not. *)
Lemma executeCollaborationStage_ingestion_counterexample :
  exists routed entering final,
    executeRouterStage multiEnv (createInitialState multiInput) = Ok routed
    /\ executeSpecializedAgentStage multiEnv routed = Ok entering
    /\ error routed = None /\ error entering = None
    /\ ctx_multiAgentRequest (context entering) = Some true
    /\ ctx_sharedData (context entering) = Some ∅
    /\ process multiEnv multiInput = Ok final
    /\ executeCollaborationStage multiEnv entering = Ok final
    /\ ctx_sharedData (context final)
       = Some {[ "__reportIngested"%string := JBool true ]}
    /\ forall tl, final <> withTimeline entering tl.
Proof.
  destruct (executeRouterStage multiEnv (createInitialState multiInput))
    as [routed | e] eqn:Hrouted; [| vm_compute in Hrouted; discriminate].
  destruct (executeSpecializedAgentStage multiEnv routed)
    as [entering | e] eqn:Hentering.
  2: { vm_compute in Hrouted. injection Hrouted as <-.
       vm_compute in Hentering. discriminate. }
  destruct (executeCollaborationStage multiEnv entering)
    as [final | e] eqn:Hfinal.
  2: { vm_compute in Hrouted. injection Hrouted as <-.
       vm_compute in Hentering. injection Hentering as <-.
       vm_compute in Hfinal. discriminate. }
  exists routed, entering, final.
  assert (Hp : process multiEnv multiInput = Ok final).
  { unfold process. rewrite Hrouted. simpl.
    vm_compute in Hrouted. injection Hrouted as <-.
    cbn [error truthyOpt]. rewrite Hentering. simpl.
    vm_compute in Hentering. injection Hentering as <-.
    cbn [error truthyOpt]. rewrite Hfinal. reflexivity. }
  vm_compute in Hrouted. injection Hrouted as <-.
  vm_compute in Hentering. injection Hentering as <-.
  vm_compute in Hfinal. injection Hfinal as <-.
  repeat split; try reflexivity; try exact Hp.
  intros tl H. apply (f_equal (fun s => ctx_sharedData (context s))) in H.
  vm_compute in H. discriminate.
Qed.

(** The guard blocks a booking without an access token; the router answers
    with the route ["none"], for which no handler is registered.  The
    state has [error] and the sentinel set, and [finalOutput] is the
    router's explanation, not the apologetic reply. *)
Lemma process_blocked_appointment_counterexample :
  exists s, process blockedEnv exampleInput = Ok s
    /\ error s
       = Some "Agent execution error in none: Error: Agent not found: none"%string
    /\ currentAgent s = Some "error_handler"%string
    /\ finalOutput s = Some blockedOutput
    /\ ~ specErrorShape s.
Proof.
  destruct (process blockedEnv exampleInput) as [s | e] eqn:H;
    [| vm_compute in H; discriminate].
  vm_compute in H. injection H as <-.
  eexists. split; [reflexivity |]. repeat split.
  intros (_ & _ & out & a & payload & Hout & Ha & _).
  injection Hout as <-. discriminate.
Qed.
(** * Further properties of the code *)

(** ** The request and the message log across a run *)

(** [s'] carries the request of [s] and a message log that extends the log
    of [s]. *)
Lemma saveIfReportCandidateOnce_frame (g : Env) (call : string)
  (s s' : AgentGraphState) :
  saveIfReportCandidateOnce g call s = Ok s' ->
  requestOf s' = requestOf s /\ messages s' = messages s
  /\ timeline s' = timeline s /\ error s' = error s
  /\ currentAgent s' = currentAgent s /\ finalOutput s' = finalOutput s.
Proof.
  intros H.
  destruct (saveIfReportCandidateOnce_cases g call s) as [H' | H'];
    rewrite H' in H; injection H as <-; repeat split.
Qed.

Lemma executeRouter_frame (g : Env) (s s' : AgentGraphState) :
  executeRouter g s = Ok s' ->
  requestOf s' = requestOf s /\ messages s `prefix_of` messages s'
  /\ timeline s' = timeline s.
Proof.
  unfold executeRouter.
  destruct (agents g !! "router"%string) as [a |]; simpl.
  - destruct (a _); simpl; intros [= <-]; simpl; repeat split;
      try reflexivity; by apply prefix_app_r.
  - intros [= <-]; repeat split; reflexivity.
Qed.

Lemma executeSpecializedAgent_frame (g : Env) (s s' : AgentGraphState) :
  executeSpecializedAgent g s = Ok s' ->
  requestOf s' = requestOf s /\ messages s `prefix_of` messages s'
  /\ timeline s' = timeline s.
Proof.
  unfold executeSpecializedAgent.
  destruct (getAgent g _) as [a | e]; simpl.
  - destruct (a _); simpl; intros [= <-]; simpl; repeat split;
      try reflexivity; by apply prefix_app_r.
  - intros [= <-]; repeat split; reflexivity.
Qed.

Lemma executeCollaborationRule_frame (g : Env) (s s' : AgentGraphState)
  (rule : CollaborationRule) :
  executeCollaborationRule g s rule = Ok s' ->
  requestOf s' = requestOf s /\ messages s `prefix_of` messages s'
  /\ timeline s' = timeline s.
Proof.
  unfold executeCollaborationRule.
  destruct (saveIfReportCandidateOnce g ("rule:" ++ name rule) s)
    as [r | e] eqn:Hs; [| discriminate].
  simpl. intros Hx. unfold invokeRule in Hx.
  apply saveIfReportCandidateOnce_frame in Hs as (Hq & Hm & Ht & _).
  apply executeSpecializedAgent_frame in Hx as (Hq' & Hm' & Ht').
  unfold requestOf in *. simpl in *.
  rewrite Hq', Ht', <- Hm. auto.
Qed.

Lemma mergeCollaborationResults_frame (originalState : AgentGraphState)
  (results : list AgentGraphState) :
  let merged := mergeCollaborationResults originalState results in
  requestOf merged = requestOf originalState
  /\ messages originalState `prefix_of` messages merged
  /\ timeline merged = timeline originalState
  /\ error merged = error originalState
  /\ currentAgent merged = currentAgent originalState
  /\ finalOutput merged = finalOutput originalState.
Proof.
  unfold mergeCollaborationResults.
  destruct (length results =? 0)%nat; [by repeat split |].
  revert originalState.
  induction results as [| r results IH]; intros originalState;
    [by repeat split |].
  simpl. destruct (IH (mergeSingleResult originalState r))
    as (Hq & Hm & Ht & He & Hc & Hf).
  rewrite Hq, Ht, He, Hc, Hf. repeat split.
  etransitivity; [| exact Hm]. simpl. by apply prefix_app_r.
Qed.

Lemma executeCollaborationStrategy_frame (g : Env) (s s' : AgentGraphState)
  (rules : list CollaborationRule) (strategy : ExecutionStrategy) :
  executeCollaborationStrategy g s rules strategy = Ok s' ->
  requestOf s' = requestOf s /\ messages s `prefix_of` messages s'
  /\ timeline s' = timeline s.
Proof.
  apply (executeCollaborationStrategy_extends g
           (fun a b => requestOf b = requestOf a
                       /\ messages a `prefix_of` messages b
                       /\ timeline b = timeline a)).
  - by repeat split.
  - intros a b c (Hq & Hm & Ht) (Hq' & Hm' & Ht').
    rewrite Hq', Ht', Hq, Ht. repeat split. by etransitivity.
  - by repeat split.
  - intros view rule r Hr. unfold invokeRule in Hr.
    by apply executeSpecializedAgent_frame in Hr.
  - intros merged r. repeat split. simpl. by apply prefix_app_r.
Qed.

Lemma executeGenericCollaboration_frame (g : Env) (s s' : AgentGraphState) :
  executeGenericCollaboration g s = Ok s' ->
  requestOf s' = requestOf s /\ messages s `prefix_of` messages s'
  /\ timeline s' = timeline s.
Proof.
  unfold executeGenericCollaboration.
  destruct (default false _); [intros [= <-]; by repeat split |].
  destruct (extractSharedData s); [| intros [= <-]; by repeat split].
  destruct (length _ =? 0)%nat; [intros [= <-]; by repeat split |].
  apply executeCollaborationStrategy_frame.
Qed.

Lemma executeRouterStage_frame (g : Env) (s s' : AgentGraphState) :
  executeRouterStage g s = Ok s' ->
  requestOf s' = requestOf s /\ messages s `prefix_of` messages s'
  /\ steps s' = steps s ++ ["router"%string].
Proof.
  unfold executeRouterStage.
  destruct (executeRouter g s) as [r | e] eqn:Hr; [| discriminate]. simpl.
  destruct (saveIfReportCandidateOnce g "router" r) as [r' | e] eqn:Hs;
    [| discriminate]. simpl.
  intros [= <-].
  apply executeRouter_frame in Hr as (Hq & Hm & Ht).
  apply saveIfReportCandidateOnce_frame in Hs as (Hq' & Hm' & Ht' & _).
  unfold requestOf, steps in *. simpl in *.
  rewrite Hq', Hm', Ht', Ht, Hq. repeat split; [done |].
  by rewrite map_app.
Qed.

Lemma executeSpecializedAgentStage_frame (g : Env) (s s' : AgentGraphState) :
  executeSpecializedAgentStage g s = Ok s' ->
  requestOf s' = requestOf s /\ messages s `prefix_of` messages s'
  /\ steps s'
     = steps s
       ++ [("agent:" ++ default "chat" (ifTruthy (currentAgent s')))%string].
Proof.
  unfold executeSpecializedAgentStage.
  destruct (executeSpecializedAgent g s) as [r | e] eqn:Hr; [| discriminate].
  simpl. intros [= <-].
  apply executeSpecializedAgent_frame in Hr as (Hq & Hm & Ht).
  unfold requestOf, steps in *. simpl in *.
  rewrite Ht, Hq. repeat split; [done |].
  destruct (timeline s); by rewrite map_app.
Qed.

Lemma executeCollaborationStage_frame (g : Env) (s s' : AgentGraphState) :
  executeCollaborationStage g s = Ok s' ->
  requestOf s' = requestOf s /\ messages s `prefix_of` messages s'
  /\ steps s' = steps s ++ ["collaboration"%string].
Proof.
  unfold executeCollaborationStage.
  destruct (saveIfReportCandidateOnce g "collaboration" s) as [r | e] eqn:Hs;
    [| discriminate]. simpl.
  destruct (executeGenericCollaboration g r) as [r' | e] eqn:Hg;
    [| discriminate]. simpl.
  intros [= <-].
  apply saveIfReportCandidateOnce_frame in Hs as (Hq & Hm & Ht & _).
  apply executeGenericCollaboration_frame in Hg as (Hq' & Hm' & Ht').
  unfold requestOf, steps in *. simpl in *.
  rewrite Hq', Ht', Ht, Hq, <- Hm. repeat split; [done |].
  destruct (timeline s); by rewrite map_app.
Qed.

(** X1. A run never alters the request it was given: the state
    that [process] returns carries the user, the session, the message and
    the metadata of the input, on every path (router failure, handler
    failure, any collaboration strategy), and so does the state that each
    stage returns. *)
Theorem process_keeps_request (g : Env) (input : AgentInput) :
  (exists s, process g input = Ok s
     /\ requestOf s
        = (in_userId input, in_sessionId input, in_message input,
           in_metadata input))
  /\ (forall s s', executeRouterStage g s = Ok s' -> requestOf s' = requestOf s)
  /\ (forall s s', executeSpecializedAgentStage g s = Ok s' ->
        requestOf s' = requestOf s)
  /\ (forall s s', executeCollaborationStage g s = Ok s' ->
        requestOf s' = requestOf s).
Proof.
  split.
  - unfold process.
    destruct (executeRouterStage g (createInitialState input))
      as [routed | e] eqn:Hr; simpl; [| eexists; split; reflexivity].
    apply executeRouterStage_frame in Hr as (Hq & _).
    destruct (truthyOpt (error routed)); simpl; [by eexists |].
    destruct (executeSpecializedAgentStage g routed) as [staged | e] eqn:Ha;
      simpl; [| eexists; split; reflexivity].
    apply executeSpecializedAgentStage_frame in Ha as (Hq' & _).
    destruct (truthyOpt (error staged)); simpl;
      [eexists; split; [reflexivity | by rewrite Hq', Hq] |].
    destruct (executeCollaborationStage g staged) as [final | e] eqn:Hc;
      simpl; [| eexists; split; reflexivity].
    apply executeCollaborationStage_frame in Hc as (Hq'' & _).
    eexists; split; [reflexivity | by rewrite Hq'', Hq', Hq].
  - split; [| split]; intros s s' H.
    + by apply executeRouterStage_frame in H as (? & _).
    + by apply executeSpecializedAgentStage_frame in H as (? & _).
    + by apply executeCollaborationStage_frame in H as (? & _).
Qed.

(** X2. The message log is append-only: the log of the state
    that a stage, a rule invocation or a strategy returns begins with the
    log of the state it was given. *)
Theorem messages_append_only (g : Env) (s : AgentGraphState) :
  (forall s', executeRouterStage g s = Ok s' ->
     messages s `prefix_of` messages s')
  /\ (forall s', executeSpecializedAgentStage g s = Ok s' ->
        messages s `prefix_of` messages s')
  /\ (forall rule s', executeCollaborationRule g s rule = Ok s' ->
        messages s `prefix_of` messages s')
  /\ (forall rules strategy s',
        executeCollaborationStrategy g s rules strategy = Ok s' ->
        messages s `prefix_of` messages s')
  /\ (forall s', executeCollaborationStage g s = Ok s' ->
        messages s `prefix_of` messages s').
Proof.
  repeat split.
  - intros s' H. by apply executeRouterStage_frame in H as (_ & ? & _).
  - intros s' H. by apply executeSpecializedAgentStage_frame in H as (_ & ? & _).
  - intros rule s' H. by apply executeCollaborationRule_frame in H as (_ & ? & _).
  - intros rules strategy s' H.
    by apply executeCollaborationStrategy_frame in H as (_ & ? & _).
  - intros s' H. by apply executeCollaborationStage_frame in H as (_ & ? & _).
Qed.
(** ** The timeline of a run *)

Lemma executeSpecializedAgent_cases (g : Env) (s s' : AgentGraphState) :
  executeSpecializedAgent g s = Ok s' ->
  (error s' = error s /\ currentAgent s' = currentAgent s)
  \/ (currentAgent s' = Some "error_handler"%string
      /\ truthyOpt (error s') = true).
Proof.
  unfold executeSpecializedAgent.
  destruct (getAgent g _) as [a | e]; simpl.
  - destruct (a _); simpl; intros [= <-]; simpl; auto.
  - intros [= <-]; simpl; auto.
Qed.

(** X3. The timeline of a run has one entry per stage that ran, in order,
    and an error of a stage ends the run there.  The router stage always
    runs and leaves the timeline at the router's entry; when it leaves
    [error] set, [process] returns its state and no other stage runs.
    Otherwise the handler stage runs; when it leaves [error] set, [process]
    returns its state, whose timeline is the router and
    ["agent:error_handler"].  Otherwise the collaboration stage runs and
    [process] returns its state, whose timeline is the router, the agent and
    ["collaboration"]. *)
Theorem process_timeline (g : Env) (input : AgentInput) :
  exists routed,
    executeRouterStage g (createInitialState input) = Ok routed
    /\ steps routed = ["router"%string]
    /\ (truthyOpt (error routed) = true -> process g input = Ok routed)
    /\ (truthyOpt (error routed) = false ->
        exists staged,
          executeSpecializedAgentStage g routed = Ok staged
          /\ (truthyOpt (error staged) = true ->
              process g input = Ok staged
              /\ steps staged
                 = ["router"%string; "agent:error_handler"%string]
              /\ currentAgent staged = Some "error_handler"%string)
          /\ (truthyOpt (error staged) = false ->
              exists final,
                executeCollaborationStage g staged = Ok final
                /\ process g input = Ok final
                /\ steps final
                   = ["router"%string;
                      ("agent:"
                         ++ default "chat" (ifTruthy (currentAgent staged)))%string;
                      "collaboration"%string])).
Proof.
  unfold process.
  destruct (executeRouterStage_spec g (createInitialState input))
    as (routed & r & _ & Hr & _). rewrite Hr. simpl.
  exists routed. split; [reflexivity |].
  apply executeRouterStage_frame in Hr as (_ & _ & Hsteps).
  change (steps (createInitialState input)) with (@nil string) in Hsteps.
  simpl in Hsteps.
  split; [exact Hsteps |].
  split; [by intros -> |].
  intros Herr. rewrite Herr. simpl.
  destruct (executeSpecializedAgentStage_spec g routed)
    as (staged & r' & Hr' & Ha & He & Hc & _). rewrite Ha. simpl.
  exists staged. split; [reflexivity |].
  apply executeSpecializedAgentStage_frame in Ha as (_ & _ & Hsteps').
  rewrite Hsteps in Hsteps'. simpl in Hsteps'.
  split.
  - intros Herr'. rewrite Herr'. simpl. split; [reflexivity |].
    apply executeSpecializedAgent_cases in Hr' as [[He' _] | [Hc' _]].
    + rewrite He, He', Herr in Herr'. discriminate.
    + rewrite Hc, Hc' in *. auto.
  - intros Herr'. rewrite Herr'. simpl.
    destruct (executeCollaborationStage_total g staged) as (final & Hf).
    rewrite Hf. simpl. exists final. do 2 (split; [reflexivity |]).
    apply executeCollaborationStage_frame in Hf as (_ & _ & Hsteps'').
    by rewrite Hsteps' in Hsteps''.
Qed.

(** A router that throws: the run ends with the router's entry alone. *)
Lemma process_timeline_witness :
  exists routed,
    process routerDownEnv exampleInput = Ok routed
    /\ steps routed = ["router"%string]
    /\ error routed = Some "Router error: Error: router unavailable"%string.
Proof.
  destruct (process_timeline routerDownEnv exampleInput)
    as (routed & Hrouted & Hsteps & Hends & _).
  exists routed. vm_compute in Hrouted. injection Hrouted as <-.
  split; [exact (Hends eq_refl) |]. split; [exact Hsteps | reflexivity].
Defined.
(** ** The built-in collaboration rules *)

Lemma getApplicableRules_cases (sd : gmap string Json)
  (state : AgentGraphState) :
  getApplicableRules sd state = []
  \/ getApplicableRules sd state = [createNotificationToAppointmentRule]
  \/ getApplicableRules sd state = [createAppointmentToReportRule].
Proof.
  unfold getApplicableRules, getCollaborationRules. cbn [List.filter].
  cbn [shouldExecute createNotificationToAppointmentRule
         createAppointmentToReportRule].
  unfold isAgent. destruct (currentAgent state) as [c |]; [| auto].
  destruct (String.eqb_spec c "notification") as [-> | Hn].
  - cbn [String.eqb Ascii.eqb Bool.eqb andb].
    destruct (_ && _); auto.
  - cbn [andb]. destruct (_ && _ && _); auto.
Qed.

Lemma executeSequentialCollaboration_single (g : Env)
  (state : AgentGraphState) (rule : CollaborationRule) :
  executeSequentialCollaboration g state [rule]
  = executeCollaborationRule g state rule.
Proof.
  unfold executeSequentialCollaboration. cbn [foldl].
  by destruct (executeCollaborationRule_total g state rule) as (s & ->).
Qed.

(** X4. The two built-in rules exclude each other: for every state
    at most one of them applies, so the strategy chosen for the applicable
    rules is always the sequential one, and the generic collaboration
    either returns its state or is the invocation of the one rule that
    applies. *)
Theorem builtin_rules_exclusive (g : Env) (state : AgentGraphState)
  (sharedData : gmap string Json) :
  (length (getApplicableRules sharedData state) <= 1)%nat
  /\ (getApplicableRules sharedData state <> [] ->
      st_type (determineExecutionStrategy
                 (getApplicableRules sharedData state) state)
      = Sequential)
  /\ (executeGenericCollaboration g state = Ok state
      \/ exists sd rule,
           extractSharedData state = Some sd
           /\ getApplicableRules sd state = [rule]
           /\ rule ∈ getCollaborationRules
           /\ executeGenericCollaboration g state
              = executeCollaborationRule g state rule).
Proof.
  split; [| split].
  - destruct (getApplicableRules_cases sharedData state) as [-> | [-> | ->]];
      simpl; lia.
  - destruct (getApplicableRules_cases sharedData state) as [-> | [-> | ->]];
      [done | reflexivity | reflexivity].
  - unfold executeGenericCollaboration.
    destruct (default false _); [by left |].
    destruct (extractSharedData state) as [sd |]; [| by left].
    destruct (getApplicableRules_cases sd state) as [H | [H | H]];
      rewrite H; [by left | right | right];
      (eexists sd, _; split; [reflexivity |]; split; [exact H |];
       split; [unfold getCollaborationRules; set_solver |];
       cbn [length Nat.eqb]; unfold executeCollaborationStrategy; cbn;
       apply executeSequentialCollaboration_single).
Qed.

(** ** The cascade from the notification handler *)

Lemma executeCollaborationRule_handler (g : Env) (state : AgentGraphState)
  (rule : CollaborationRule) :
  exists marked,
    saveIfReportCandidateOnce g ("rule:" ++ name rule) state = Ok marked
    /\ handlerInput (createCollaborationState marked rule)
       = handlerInput state
    /\ executeCollaborationRule g state rule
       = executeSpecializedAgent g (createCollaborationState marked rule)
    /\ finalOutput marked = finalOutput state.
Proof.
  unfold executeCollaborationRule.
  destruct (saveIfReportCandidateOnce_cases g ("rule:" ++ name rule) state)
    as [H | H]; rewrite H; eexists; repeat split.
Qed.

(** X5. After the notification handler has answered with a
    notification schedule in its shared data, and unless the request was
    classified for several agents, the collaboration invokes the appointment
    handler on the same request: its answer replaces the notification
    handler's answer as [finalOutput], and if it throws the run ends in the
    error state with the notification handler's answer kept. *)
Theorem notification_cascades_to_appointment (g : Env)
  (state : AgentGraphState) (out : AgentOutput) (sd : gmap string Json) :
  currentAgent state = Some "notification"%string ->
  finalOutput state = Some out ->
  out_sharedData out = Some sd ->
  truthyKey sd "notificationSchedule" = true ->
  truthyKey sd "appointmentSchedule" = false ->
  default false (ctx_multiAgentRequest (context state)) = false ->
  (forall reply,
     appointmentAgent g (handlerInput state) = Ok reply ->
     exists s', executeGenericCollaboration g state = Ok s'
       /\ finalOutput s' = Some reply
       /\ currentAgent s' = Some "appointment"%string
       /\ error s' = error state)
  /\ (forall e,
        appointmentAgent g (handlerInput state) = Throw e ->
        exists s', executeGenericCollaboration g state = Ok s'
          /\ finalOutput s' = Some out
          /\ currentAgent s' = Some "error_handler"%string
          /\ error s'
             = Some ("Agent execution error in appointment: "
                       ++ errorToString e)%string).
Proof.
  intros Hc Hf Hsd Hn Ha Hm.
  assert (Hgen : executeGenericCollaboration g state
                 = executeCollaborationRule g state
                     createNotificationToAppointmentRule).
  { unfold executeGenericCollaboration, extractSharedData.
    rewrite Hm, Hf. cbn [mbind option_bind]. rewrite Hsd.
    assert (Hrules : getApplicableRules sd state
                     = [createNotificationToAppointmentRule]).
    { unfold getApplicableRules, getCollaborationRules. cbn [List.filter].
      cbn [shouldExecute createNotificationToAppointmentRule
             createAppointmentToReportRule].
      rewrite Hc, Hn, Ha. reflexivity. }
    rewrite Hrules. cbn [length Nat.eqb].
    unfold executeCollaborationStrategy. cbn.
    apply executeSequentialCollaboration_single. }
  destruct (executeCollaborationRule_handler g state
              createNotificationToAppointmentRule)
    as (marked & Hs & Hin & Hrule & Hfm).
  rewrite Hgen, Hrule.
  assert (Hagent : getAgent g "appointment" = Ok (appointmentAgent g)).
  { unfold getAgent, agents, initializeAgents. by simplify_map_eq. }
  apply saveIfReportCandidateOnce_frame in Hs as (_ & _ & _ & He & _).
  split.
  - intros reply Hreply. unfold executeSpecializedAgent.
    change (default "chat"%string
              (ifTruthy (currentAgent
                 (createCollaborationState marked
                    createNotificationToAppointmentRule))))
      with "appointment"%string.
    rewrite Hagent. cbn [bind].
    fold (handlerInput
            (createCollaborationState marked
               createNotificationToAppointmentRule)).
    rewrite Hin, Hreply. cbn. eexists. split; [reflexivity |].
    cbn. auto.
  - intros e Hthrow. unfold executeSpecializedAgent.
    change (default "chat"%string
              (ifTruthy (currentAgent
                 (createCollaborationState marked
                    createNotificationToAppointmentRule))))
      with "appointment"%string.
    rewrite Hagent. cbn [bind].
    fold (handlerInput
            (createCollaborationState marked
               createNotificationToAppointmentRule)).
    rewrite Hin, Hthrow. cbn. eexists. split; [reflexivity |].
    cbn. rewrite Hfm, Hf. auto.
Qed.

(** A scheduled reminder hands over to the appointment handler. *)
Lemma notification_cascades_to_appointment_witness :
  exists s', executeGenericCollaboration exampleEnv notifiedState = Ok s'
    /\ (out_reply <$> finalOutput s') = Some "appointment booked"%string
    /\ currentAgent s' = Some "appointment"%string.
Proof.
  destruct (proj1 (notification_cascades_to_appointment exampleEnv
                     notifiedState _ _ eq_refl eq_refl eq_refl eq_refl
                     eq_refl eq_refl)
              (plainOutput "appointment booked" []) eq_refl)
    as (s' & Hs & Hf & Hc & _).
  exists s'. rewrite Hf. auto.
Defined.
(** ** A blocked request in the graph *)

Lemma Router_agent_blocked (classify : string -> Router.Classification)
  (registry : gmap string Agent) (input : AgentInput) :
  String.prefix "appointment."
    (Router.cl_intent (classify (in_message input))) = true ->
  Router.lacksToken (in_metadata input) = true ->
  Router.agent classify registry input = Ok blockedOutput.
Proof.
  intros Hintent Hlacks.
  unfold Router.agent, Router.process, Router.BLOCK_RULES.
  cbn [Router.firstBlock]. cbn [Router.gi_intent Router.gi_metadata].
  by rewrite appointmentRe_prefix, Hintent, Hlacks.
Qed.

(** X6. In the graph as the application builds it, a request that
    the router's guard blocks ends the run in the handler stage: the router
    answers with the route ["none"], no handler is registered under that
    name, and the state returned has [error] set, the sentinel as
    [currentAgent], the guard's explanation as [finalOutput] and a timeline
    of two entries. *)
Theorem blocked_request_ends_in_error
  (classify : string -> Router.Classification)
  (appointment gp notification report : Agent)
  (ingestVerdict : string -> string -> Exn (option bool))
  (elapsedMs : string -> Z) (sched : nat -> nat) (input : AgentInput) :
  String.prefix "appointment."
    (Router.cl_intent (classify (in_message input))) = true ->
  Router.lacksToken (in_metadata input) = true ->
  exists s,
    process (SimpleAgentGraph classify appointment gp notification report
               ingestVerdict elapsedMs sched) input = Ok s
    /\ error s
       = Some "Agent execution error in none: Error: Agent not found: none"%string
    /\ currentAgent s = Some "error_handler"%string
    /\ finalOutput s = Some blockedOutput
    /\ steps s = ["router"%string; "agent:error_handler"%string].
Proof.
  intros Hintent Hlacks.
  set (g := SimpleAgentGraph classify appointment gp notification report
              ingestVerdict elapsedMs sched).
  destruct (executeRouterStage_spec g (createInitialState input))
    as (routed & r & Hr & Hrouted & He & Hc & Hf).
  assert (Hrouter : error r = None
                    /\ currentAgent r = Some "none"%string
                    /\ finalOutput r = Some blockedOutput).
  { unfold executeRouter in Hr. rewrite agents_router in Hr. cbn [bind] in Hr.
    unfold g in Hr at 1. cbn [routerAgent SimpleAgentGraph] in Hr.
    rewrite Router_agent_blocked in Hr by assumption.
    cbn [bind tryCatch] in Hr. injection Hr as <-. by repeat split. }
  destruct Hrouter as (He' & Hc' & Hf').
  rewrite He' in He. rewrite Hc' in Hc. rewrite Hf' in Hf.
  pose proof Hrouted as Hsteps.
  apply executeRouterStage_frame in Hsteps as (_ & _ & Hsteps).
  change (steps (createInitialState input)) with (@nil string) in Hsteps.
  destruct (executeSpecializedAgentStage_spec g routed)
    as (staged & r' & Hr' & Ha & He2 & Hc2 & Hf2).
  rewrite (executeSpecializedAgent_throw g routed
             "Agent not found: none"%string) in Hr'.
  2: { unfold invokeHandler. rewrite Hc. reflexivity. }
  injection Hr' as <-. cbn in He2, Hc2, Hf2. rewrite Hc in He2.
  pose proof Ha as Hsteps'.
  apply executeSpecializedAgentStage_frame in Hsteps' as (_ & _ & Hsteps').
  rewrite Hsteps, Hc2 in Hsteps'.
  exists staged. split.
  - unfold process. rewrite Hrouted. cbn [bind tryCatch]. rewrite He.
    cbn [truthyOpt]. rewrite Ha. cbn [bind]. rewrite He2. reflexivity.
  - rewrite He2, Hc2, Hf2, Hf. repeat split. exact Hsteps'.
Qed.

(** "book a GP appointment tomorrow 3pm" without an access token. *)
Lemma blocked_request_ends_in_error_witness :
  exists s, process blockedEnv exampleInput = Ok s
    /\ (out_reply <$> finalOutput s)
       = Some "Google Calendar access is required to manage appointments."%string
    /\ steps s = ["router"%string; "agent:error_handler"%string].
Proof.
  destruct (blocked_request_ends_in_error (classifyAs "appointment.book")
              (okAgent "appointment booked") (okAgent "general advice")
              (okAgent "notification scheduled") (okAgent "report ready")
              (fun _ _ => Ok (Some false)) (fun _ => 0) (fun n => n)
              exampleInput eq_refl eq_refl)
    as (s & Hs & _ & _ & Hf & Hst).
  exists s. rewrite Hf. auto.
Defined.
(** ** The router *)

Lemma INTENT_TO_ROUTE_routes :
  map_Forall (fun _ route => route ∈ ROUTES) Router.INTENT_TO_ROUTE.
Proof.
  apply map_Forall_to_list, Forall_forall. intros [k v] Hin.
  let l := eval vm_compute in (map_to_list Router.INTENT_TO_ROUTE) in
  change (map_to_list Router.INTENT_TO_ROUTE) with l in Hin.
  repeat (apply elem_of_cons in Hin as [[= -> ->] | Hin];
          [unfold ROUTES; set_solver |]).
  by apply elem_of_nil in Hin.
Qed.

(** X7. Every route that [resolveRoute] gives is one of
    appointment, report, notification and gp, an intent outside the table
    gives gp, and the graph has a handler registered under each of them, so
    the lookup of the routed handler cannot fail.  (The table is an object
    literal: the statement is for intents that are not names of members of
    [Object.prototype].) *)
Theorem resolveRoute_registered (g : Env) (intent : string) :
  intent ∉ objectPrototypeKeys ->
  Router.resolveRoute intent ∈ ROUTES
  /\ (Router.INTENT_TO_ROUTE !! intent = None ->
      Router.resolveRoute intent = "gp"%string)
  /\ exists handler,
       getAgent g (Router.resolveRoute intent) = Ok handler
       /\ handler ∈ [appointmentAgent g; reportAgent g;
                     notificationAgent g; gpAgent g].
Proof.
  intros _. unfold Router.resolveRoute.
  assert (Hroute : default "gp"%string (Router.INTENT_TO_ROUTE !! intent)
                   ∈ ROUTES).
  { destruct (Router.INTENT_TO_ROUTE !! intent) as [r |] eqn:Hr.
    - exact (INTENT_TO_ROUTE_routes _ _ Hr).
    - unfold ROUTES. set_solver. }
  split; [exact Hroute |]. split; [by intros -> |].
  unfold ROUTES in Hroute. unfold getAgent, agents, initializeAgents.
  repeat (apply elem_of_cons in Hroute as [-> | Hroute];
          [eexists; split; [by simplify_map_eq | set_solver] |]).
  by apply elem_of_nil in Hroute.
Qed.

Lemma resolveRoute_registered_witness :
  Router.resolveRoute "report.summary" = "report"%string
  /\ Router.resolveRoute "smalltalk" ∈ ROUTES.
Proof.
  split; [reflexivity |].
  apply (resolveRoute_registered exampleEnv "smalltalk").
  unfold objectPrototypeKeys. intros H.
  repeat (apply elem_of_cons in H as [H | H]; [discriminate H |]).
  by apply elem_of_nil in H.
Defined.

(** X8. The router never throws.  It dispatches to at most
    one handler; when that handler throws, the router answers with the
    route gp, the intent ["error"], its apologetic reply and one action of
    type ["error"] and status failed whose payload holds the reason
    [ROUTER_PROCESSING_ERROR] and as details the message of the error, or
    the text ["Error"] (the rendering of the error itself) when the message
    is empty; with no handler registered for the route nor for gp it answers
    without dispatching. *)
Theorem RouterAgent_process_never_throws
  (classify : string -> Router.Classification)
  (registry : gmap string Agent) (input : AgentInput) :
  (exists out, snd (Router.process classify registry input) = Ok out)
  /\ (length (fst (Router.process classify registry input)) <= 1)%nat
  /\ (forall handler e,
        unblocked classify input ->
        registry !! Router.resolveRoute
                      (Router.cl_intent (classify (in_message input)))
        = Some handler ->
        handler (routedInput classify input) = Throw e ->
        Router.process classify registry input
        = ([(Router.resolveRoute
               (Router.cl_intent (classify (in_message input))),
             routedInput classify input)],
           Ok (Router.errorOutput e))
        /\ out_route (Router.errorOutput e) = Some "gp"%string
        /\ out_intent (Router.errorOutput e) = Some "error"%string
        /\ exists payload,
             out_actions (Router.errorOutput e)
             = Some [{| act_type := "error"; act_status := Some Failed;
                        act_payload := Some payload |}]
             /\ payload !! "reason"%string
                = Some (JStr "ROUTER_PROCESSING_ERROR")
             /\ payload !! "details"%string
                = Some (JStr (if truthy e then e else "Error"%string)))
  /\ (unblocked classify input ->
      registry !! Router.resolveRoute
                    (Router.cl_intent (classify (in_message input))) = None ->
      registry !! "gp"%string = None ->
      Router.process classify registry input
      = ([], Ok (Router.replyOnly "gp"
                   (Router.cl_intent (classify (in_message input)))
                   "I'm not sure how to help with that yet."))).
Proof.
  unfold unblocked, routedInput.
  split; [| split; [| split]].
  - unfold Router.process. destruct (Router.firstBlock _ _); [simpl; eauto |].
    destruct (registry !! _) as [t |]; simpl.
    + destruct (t _); simpl; eauto.
    + destruct (registry !! "gp"%string) as [t |]; simpl; [| eauto].
      destruct (t _); simpl; eauto.
  - unfold Router.process. destruct (Router.firstBlock _ _); [simpl; lia |].
    destruct (registry !! _) as [t |]; simpl; [lia |].
    destruct (registry !! "gp"%string) as [t |]; simpl; lia.
  - intros handler e Hub Hreg Hthrow. unfold Router.process.
    rewrite Hub, Hreg. cbn [fmap option_fmap option_map]. rewrite Hthrow.
    split; [reflexivity |]. do 2 (split; [reflexivity |]).
    eexists. split; [reflexivity |].
    unfold messageOrString, errorToString. simplify_map_eq.
    split; [reflexivity |]. by destruct (truthy e).
  - intros Hub Hreg Hgp. unfold Router.process, Agent in *.
    by rewrite Hub, Hreg, Hgp.
Qed.

(** A check of appointments with a token, and a calendar handler that
    fails; an error whose message is empty is rendered as ["Error"]. *)
Lemma RouterAgent_process_never_throws_witness :
  Router.process (classifyAs "appointment.check")
    {[ "appointment"%string := failingAgent "calendar unavailable" ]}
    tokenInput
  = ([("appointment"%string,
       routedInput (classifyAs "appointment.check") tokenInput)],
     Ok (Router.errorOutput "calendar unavailable"))
  /\ out_actions (Router.errorOutput "")
     = Some [{| act_type := "error"; act_status := Some Failed;
                act_payload :=
                  Some {[ "reason"%string := JStr "ROUTER_PROCESSING_ERROR";
                          "details"%string := JStr "Error" ]} |}].
Proof.
  split; [| reflexivity].
  apply (proj1 (proj2 (proj2 (RouterAgent_process_never_throws
                                (classifyAs "appointment.check")
                                {[ "appointment"%string :=
                                     failingAgent "calendar unavailable" ]}
                                tokenInput)))
         (failingAgent "calendar unavailable") "calendar unavailable"%string);
    vm_compute; reflexivity.
Defined.
(** ** Templates and the message body *)

Lemma string_app_nil_r (s : string) : (s ++ "")%string = s.
Proof.
  induction s as [| c s IH]; [reflexivity |].
  change (String c (s ++ "")%string = String c s). by rewrite IH.
Qed.

Lemma renderTemplate_eq (key : string) (vars : gmap string VarValue) :
  renderTemplate key vars
  = if String.eqb key "reminder.simple"
    then ("Hi" ++ varText vars "name" ++ ", this is your reminder: "
            ++ varText vars "text")%string
    else EmptyString.
Proof.
  unfold renderTemplate, templates.
  destruct (String.eqb_spec key "reminder.simple") as [-> | Hne].
  - rewrite lookup_singleton_eq. cbn [default]. unfold replaceAll, varText.
    cbv -[lookup varToString String.append]. by rewrite string_app_nil_r.
  - rewrite lookup_singleton_ne by congruence. reflexivity.
Qed.

Lemma trimEnd_idempotent (s : string) : trimEnd (trimEnd s) = trimEnd s.
Proof.
  induction s as [| c t IH]; [reflexivity |].
  cbn [trimEnd]. destruct (trimEnd t) as [| c' t'] eqn:Ht.
  - destruct (isSpace c) eqn:Hc; [reflexivity |].
    cbn [trimEnd]. by rewrite Hc.
  - cbn [trimEnd] in *. by rewrite IH.
Qed.

Lemma trimStart_head (s : string) :
  match trimStart s with
  | String c _ => isSpace c = false
  | EmptyString => True
  end.
Proof.
  induction s as [| c t IH]; [exact I |].
  cbn [trimStart]. destruct (isSpace c) eqn:Hc; [exact IH | exact Hc].
Qed.

Lemma trimEnd_head (c : ascii) (t : string) :
  isSpace c = false -> exists t', trimEnd (String c t) = String c t'.
Proof.
  intros Hc. cbn [trimEnd]. destruct (trimEnd t); rewrite ?Hc; eauto.
Qed.

Lemma trim_idempotent (s : string) : trim (trim s) = trim s.
Proof.
  unfold trim. pose proof (trimStart_head s) as Hh.
  destruct (trimStart s) as [| c t]; [reflexivity |].
  destruct (trimEnd_head c t Hh) as (t' & Ht).
  rewrite Ht. cbn [trimStart]. rewrite Hh, <- Ht. apply trimEnd_idempotent.
Qed.

Lemma pickBody_trimmed (i : NotificationIntent) (notes : list string)
  (ctx : PolicyContext) :
  trim (fst (pickBody i notes ctx)) = fst (pickBody i notes ctx).
Proof.
  unfold pickBody.
  destruct (truthy (trim _)); [apply trim_idempotent |].
  destruct (truthyOpt (templateKey i)); [apply trim_idempotent |].
  destruct (truthy (trim _)); [apply trim_idempotent | reflexivity].
Qed.

Lemma substring_length (n : nat) (s : string) :
  (String.length (substring 0 n s) <= n)%nat.
Proof.
  revert s. induction n as [| n IH]; intros s.
  - destruct s; simpl; lia.
  - destruct s as [| c s]; simpl; [lia |]. specialize (IH s). lia.
Qed.

(** X9. An intent without a message of its own that
    names a template that does not exist fails the evaluation with "Message
    body is empty.", whatever the user wrote: once a template key is given
    the utterance is not used as the body.  (For keys that are not names of
    members of [Object.prototype].) *)
Theorem unknown_template_fails (zone : Zone) (clock : nat -> Z)
  (sha256hex : string -> string) (i : NotificationIntent)
  (ctx : PolicyContext) (key : string) :
  trim (default EmptyString (message i)) = EmptyString ->
  templateKey i = Some key ->
  key <> EmptyString ->
  key <> "reminder.simple"%string ->
  key ∉ objectPrototypeKeys ->
  evaluatePolicy zone clock sha256hex i ctx
  = PolicyFail "Message body is empty.".
Proof.
  intros Hmsg Hkey Hne Hother Hproto.
  destruct (evaluatePolicy_cases zone clock sha256hex i ctx)
    as [[_ Hf] | (Hbody & _)]; [exact Hf |].
  exfalso. apply Hbody. unfold resolvedBody, pickBody.
  rewrite Hmsg, Hkey. cbn [truthy truthyOpt default].
  assert (Ht : truthy key = true) by (by destruct key).
  rewrite Ht. cbn [fst].
  rewrite renderTemplate_eq.
  unfold id. by destruct (String.eqb_spec key "reminder.simple").
Qed.

Lemma unknown_template_fails_witness :
  evaluatePolicy (fixedZone exampleTzOffset) (fun _ => exampleNow)
      exampleDigest
    unknownTemplateIntent (exampleContext "remind me to call mum at 5pm")
  = PolicyFail "Message body is empty.".
Proof.
  apply (unknown_template_fails _ _ _ unknownTemplateIntent _
           "reminder.fancy"%string eq_refl eq_refl);
    [discriminate | discriminate |].
  unfold objectPrototypeKeys. intros H.
  repeat (apply elem_of_cons in H as [H | H]; [discriminate H |]).
  by apply elem_of_nil in H.
Defined.
(** ** What every plan has *)

Lemma pickBody_notes (i : NotificationIntent) (notes : list string)
  (ctx : PolicyContext) :
  exists extra,
    snd (pickBody i notes ctx) = notes ++ extra
    /\ "Channel forced to sms."%string ∉ extra.
Proof.
  unfold pickBody.
  destruct (truthy (trim _)).
  { exists []. split; [by rewrite app_nil_r | apply not_elem_of_nil]. }
  destruct (truthyOpt (templateKey i)).
  { eexists [_]. split; [reflexivity |].
    intros H. apply list_elem_of_singleton in H. discriminate H. }
  destruct (truthy (trim _)).
  - eexists [_]. split; [reflexivity |].
    intros H. apply list_elem_of_singleton in H. discriminate H.
  - exists []. split; [by rewrite app_nil_r | apply not_elem_of_nil].
Qed.

Lemma pickSchedule_notes (zone : Zone) (clock : nat -> Z)
  (i : NotificationIntent) (tz : string) (ctx : PolicyContext) :
  "Channel forced to sms."%string
  ∉ extraNotes (pickSchedule zone clock i tz ctx).
Proof.
  assert (H1 : forall n : string,
            String.get 0 n <> Some "C"%char ->
            "Channel forced to sms."%string ∉ [n]).
  { intros n Hn H. apply list_elem_of_singleton in H. by subst n. }
  unfold pickSchedule.
  destruct (schedule i) as [[| iso z | d | expr z limit] |]; cbn;
    repeat match goal with
           | |- context [match ?x with _ => _ end] => destruct x; cbn
           end;
    first [apply not_elem_of_nil | by apply H1].
Qed.

(** X10. Every plan that [evaluatePolicy] builds is an SMS to
    the internal number with three attempts and a backoff of 2000 ms,
    labelled with the kind of the intent, whatever channel and recipients
    the intent asks for.  Its body is not empty and has no white space at
    either end, its key has at most 32 characters, and the note "Channel
    forced to sms." is among its notes exactly when another channel was
    asked for. *)
Theorem evaluatePolicy_plan_shape (zone : Zone) (clock : nat -> Z)
  (sha256hex : string -> string) (i : NotificationIntent)
  (ctx : PolicyContext) (plan : NotificationPlan) (notes : list string) :
  evaluatePolicy zone clock sha256hex i ctx = PolicyOk plan notes ->
  pl_channel plan = Sms
  /\ pl_to plan = ["+61412345678"%string]
  /\ pl_retry plan = {| attempts := 3; backoffMs := 2000 |}
  /\ pl_labels plan = Some [intentKindString (intent i)]
  /\ pl_body plan <> EmptyString
  /\ trim (pl_body plan) = pl_body plan
  /\ (String.length (pl_idempotencyKey plan) <= 32)%nat
  /\ pl_policyNotes plan
     = match notes with [] => None | _ => Some notes end
  /\ ("Channel forced to sms."%string ∈ notes <-> channel i <> Sms).
Proof.
  unfold evaluatePolicy, succeed, fail.
  destruct (forceChannel i []) as [ch notes0] eqn:Hch.
  cbn [pickRecipients length Nat.eqb].
  pose proof (pickBody_trimmed i notes0 ctx) as Htrim.
  destruct (pickBody i notes0 ctx) as [body notes1] eqn:Hbody.
  cbn [fst] in Htrim.
  destruct (String.length body =? 0)%nat eqn:Hlen; [discriminate |].
  intros [= <- <-]. cbn [buildPlan pl_channel pl_to pl_retry pl_labels
    pl_body pl_idempotencyKey pl_policyNotes a_channel a_to a_retry a_label
    a_body a_idempotencyKey a_notes].
  split.
  { unfold forceChannel in Hch. by destruct (channel i); injection Hch as <- _. }
  do 2 (split; [reflexivity |]).
  split; [by destruct (intent i) |].
  split; [intros ->; discriminate Hlen |].
  split; [exact Htrim |].
  split; [apply substring_length |].
  split; [by destruct (_ ++ _) |].
  destruct (pickBody_notes i notes0 ctx) as (extra & Hsnd & Hextra).
  rewrite Hbody in Hsnd. cbn [snd] in Hsnd. subst notes1.
  pose proof (pickSchedule_notes zone clock i (pickTimezone i ctx) ctx)
    as Hsched.
  unfold forceChannel in Hch.
  destruct (channel i); injection Hch as <- <-.
  - split; [| done]. rewrite !elem_of_app.
    intros [[H | H] | H]; [by apply elem_of_nil in H | done | done].
  - split; [intros _; discriminate |]. intros _.
    rewrite !elem_of_app. left. left. by apply list_elem_of_singleton.
Qed.

(** A reminder asked for through WhatsApp. *)
Lemma evaluatePolicy_plan_shape_witness :
  exists plan notes,
    evaluatePolicy (fixedZone exampleTzOffset) (fun _ => exampleNow)
      exampleDigest
      relativeIntent (exampleContext "remind me") = PolicyOk plan notes
    /\ pl_channel plan = Sms
    /\ pl_body plan = "Take your pill"%string
    /\ "Channel forced to sms."%string ∈ notes.
Proof.
  destruct (evaluatePolicy (fixedZone exampleTzOffset) (fun _ => exampleNow)
              exampleDigest relativeIntent (exampleContext "remind me"))
    as [plan notes | err] eqn:H; [| vm_compute in H; discriminate].
  exists plan, notes. split; [reflexivity |].
  destruct (evaluatePolicy_plan_shape _ _ _ _ _ _ _ H)
    as (Hc & _ & _ & _ & _ & _ & _ & _ & Hn).
  split; [exact Hc |]. split.
  - vm_compute in H. by injection H as <- _.
  - apply Hn. discriminate.
Defined.
(** ** The schedule of a plan *)

Lemma groupNumber_nonneg (i : nat) (m : mstate) : 0 <= groupNumber i m.
Proof.
  unfold groupNumber. destruct (group i m); [apply parseDigits_nonneg | lia].
Qed.

Lemma durationToMs_nonneg (iso : string) (ms : Z) :
  durationToMs iso = Ok ms -> 0 <= ms /\ (60000 | ms).
Proof.
  unfold durationToMs. destruct (search durationRe iso) as [m |];
    [| discriminate].
  intros [= <-].
  pose proof (groupNumber_nonneg 1 m). pose proof (groupNumber_nonneg 2 m).
  pose proof (groupNumber_nonneg 3 m).
  split; [nia |].
  exists ((groupNumber 1 m * 24 + groupNumber 2 m) * 60 + groupNumber 3 m).
  lia.
Qed.

(** X11. A resolved schedule never holds both a time and a
    repetition, and it holds a repetition exactly for a cron schedule.  A
    relative schedule whose duration is well formed adds a whole,
    non-negative number of minutes to the reading of the clock: when that
    instant is one that a [Date] can hold, the schedule resolves to it, so
    never to a time before the reading; when it is not ([toISOString]
    throws inside the [try]), and when the duration is malformed, the
    schedule resolves to neither a time nor a repetition. *)
Theorem pickSchedule_time_or_repeat (zone : Zone) (clock : nat -> Z)
  (i : NotificationIntent) (tz : string) (ctx : PolicyContext) :
  ~ (is_Some (scheduleAt (pickSchedule zone clock i tz ctx))
     /\ is_Some (repeat (pickSchedule zone clock i tz ctx)))
  /\ (is_Some (repeat (pickSchedule zone clock i tz ctx))
      <-> exists expr z limit, schedule i = Some (Cron expr z limit))
  /\ (forall d,
        schedule i = Some (Relative d) ->
        (exists ms,
           durationToMs d = Ok ms /\ 0 <= ms /\ (60000 | ms)
           /\ repeat (pickSchedule zone clock i tz ctx) = None
           /\ (validTime (clock 0%nat + ms) = true ->
               scheduleAt (pickSchedule zone clock i tz ctx)
               = Some (toISOString (clock 0%nat + ms)))
           /\ (validTime (clock 0%nat + ms) = false ->
               scheduleAt (pickSchedule zone clock i tz ctx) = None))
        \/ (durationToMs d = Throw "invalid duration"
            /\ scheduleAt (pickSchedule zone clock i tz ctx) = None
            /\ repeat (pickSchedule zone clock i tz ctx) = None)).
Proof.
  unfold pickSchedule. split; [| split].
  - destruct (schedule i) as [[| iso z | d | expr z limit] |]; cbn;
      repeat match goal with
             | |- context [match ?x with _ => _ end] => destruct x; cbn
             end;
      intros [[? H1] [? H2]]; discriminate.
  - destruct (schedule i) as [[| iso z | d | expr z limit] |]; cbn;
      repeat match goal with
             | |- context [match ?x with _ => _ end] => destruct x; cbn
             end;
      (split; [intros [? H]; try discriminate H; eauto
              | intros (? & ? & ? & H); try discriminate H; eauto]).
  - intros d ->. cbn.
    destruct (durationToMs d) as [ms | e] eqn:Hd; cbn.
    + left. exists ms. apply durationToMs_nonneg in Hd as [? ?].
      unfold newDate.
      destruct (validTime (clock 0%nat + ms)); cbn; repeat split; auto;
        discriminate.
    + right. unfold durationToMs in Hd.
      destruct (search durationRe d); [discriminate |].
      injection Hd as <-. auto.
Qed.

(** "PT2H" is two hours from the reading of the clock; two hundred million
    days from it is beyond what a [Date] can hold. *)
Lemma pickSchedule_time_or_repeat_witness :
  scheduleAt (pickSchedule (fixedZone exampleTzOffset) (fun _ => exampleNow)
                relativeIntent "Australia/Sydney" (exampleContext "remind me"))
  = Some (toISOString (exampleNow + 7200000))
  /\ durationToMs "P200000000D" = Ok 17280000000000000
  /\ validTime (exampleNow + 17280000000000000) = false.
Proof.
  split; [| split; reflexivity].
  destruct (proj2 (proj2 (pickSchedule_time_or_repeat
                            (fixedZone exampleTzOffset)
                            (fun _ => exampleNow) relativeIntent
                            "Australia/Sydney" (exampleContext "remind me")))
              "PT2H"%string eq_refl)
    as [(ms & Hd & _ & _ & _ & Hs & _) | (Hd & _)].
  - vm_compute in Hd. injection Hd as <-. exact (Hs eq_refl).
  - vm_compute in Hd. discriminate Hd.
Defined.
(** ** What plan matching returns *)

Lemma scoredCandidates_plan (utcMonthDay : string -> option (Z * Z))
  (utterance : string) (plans : list StoredPlan) (c : Candidate) :
  c ∈ scoredCandidates utcMonthDay utterance plans ->
  exists p, p ∈ plans /\ truthyOpt (planId p) = true
    /\ c_id c = planId p /\ c_plan c = planRef p.
Proof.
  unfold scoredCandidates. intros Hc.
  apply list_elem_of_In, filter_In in Hc as [Hc Hid].
  apply in_map_iff in Hc as (p & <- & Hp).
  exists p. split; [by apply list_elem_of_In |].
  unfold scoreCandidate, planId in *.
  destruct (negb _ || negb _) eqn:Hb; [discriminate Hid |].
  cbn [c_id c_plan] in *. auto.
Qed.

(** X12. Plan matching answers only with what the store
    holds: a match is a stored plan of the user and carries that plan's
    identifier, which is not empty; an ambiguous answer lists two or three
    candidates, each a stored plan with its identifier; a failure of the
    store is answered with the reason "error" and its message, and an empty
    store with not-found. *)
Theorem findMatchingPlanTool_sound
  (listUserPlans : string -> Exn (list StoredPlan))
  (utcMonthDay : string -> option (Z * Z)) (userId utterance : string) :
  (forall id ref,
     findMatchingPlanTool listUserPlans utcMonthDay userId utterance
     = Matched id ref ->
     exists plans p,
       listUserPlans userId = Ok plans /\ p ∈ plans
       /\ planId p = Some id /\ id <> EmptyString /\ ref = planRef p)
  /\ (forall cands,
        findMatchingPlanTool listUserPlans utcMonthDay userId utterance
        = Ambiguous cands ->
        (2 <= length cands <= 3)%nat
        /\ exists plans,
             listUserPlans userId = Ok plans
             /\ forall c, c ∈ cands ->
                  exists p, p ∈ plans /\ truthyOpt (planId p) = true
                    /\ c_id c = planId p /\ c_plan c = planRef p)
  /\ (forall e,
        listUserPlans userId = Throw e ->
        findMatchingPlanTool listUserPlans utcMonthDay userId utterance
        = MatchError e)
  /\ (listUserPlans userId = Ok [] ->
      findMatchingPlanTool listUserPlans utcMonthDay userId utterance
      = NotFound).
Proof.
  unfold findMatchingPlanTool, listUserPlansTool.
  destruct (listUserPlans userId) as [plans | e0].
  2: { repeat split; try discriminate. congruence. }
  destruct (length plans =? 0)%nat eqn:Hlen.
  { repeat split; try discriminate. }
  set (cs := scoredCandidates utcMonthDay utterance plans).
  destruct (sortDesc cs) as [| c0 others] eqn:Hsort.
  { repeat split; try discriminate. }
  destruct (length (mentionedDates utterance) =? 0)%nat.
  { repeat split; try discriminate. }
  set (top := if c_score c0 =? 0 then setScore c0 5 else c0).
  assert (Hsorted : forall c, c ∈ c0 :: others -> c ∈ cs).
  { intros c Hc. by rewrite <- (sortDesc_Permutation cs), Hsort. }
  assert (Htop : exists p, p ∈ plans /\ truthyOpt (planId p) = true
                   /\ c_id top = planId p /\ c_plan top = planRef p).
  { destruct (scoredCandidates_plan utcMonthDay utterance plans c0)
      as (p & Hp); [apply Hsorted; left |].
    exists p. subst top. by destruct (c_score c0 =? 0). }
  assert (Hall : forall c, c ∈ top :: others ->
            exists p, p ∈ plans /\ truthyOpt (planId p) = true
              /\ c_id c = planId p /\ c_plan c = planRef p).
  { intros c [-> | Hc]%elem_of_cons; [exact Htop |].
    apply (scoredCandidates_plan utcMonthDay utterance). apply Hsorted.
    by right. }
  set (ties := List.filter (fun c => c_score c =? c_score top)
                 (top :: others)).
  assert (Hsub : forall c, c ∈ ties -> c ∈ top :: others).
  { intros c Hc. apply list_elem_of_In, filter_In in Hc as [Hc _].
    by apply list_elem_of_In. }
  destruct (Nat.ltb_spec 1 (length ties)) as [Hties | Hties].
  - split; [discriminate |]. split; [| split; [discriminate |]].
    + intros cands [= <-]. split.
      * rewrite length_take. lia.
      * exists plans. split; [reflexivity |]. intros c Hc. apply Hall.
        apply Hsub. apply elem_of_take in Hc as (k & Hk & _).
        by apply list_elem_of_lookup_2 in Hk.
    + intros [= ->]. discriminate Hlen.
  - split; [| split; [discriminate | split; [discriminate |]]].
    + intros id ref [= Hi Hr].
      destruct Htop as (p & Hp & Ht & Hid & Href).
      exists plans, p. rewrite Hid in Hi. rewrite Href in Hr.
      destruct (planId p) as [id' |]; [| discriminate Ht].
      cbn in Hi. subst id' ref.
      repeat split; try assumption. intros ->. discriminate Ht.
    + intros [= ->]. discriminate Hlen.
Qed.
Lemma scoreCandidate_onMentionedDate (utcMonthDay : string -> option (Z * Z))
  (utterance : string) (p : StoredPlan) :
  let c := scoreCandidate utcMonthDay utterance (mentionedDates utterance) p in
  let bonus := if test vocabularyRe utterance then 1 else 0 in
  if onMentionedDate utcMonthDay utterance p
  then c_score c = 10 + bonus /\ c_id c = planId p
       /\ truthyOpt (c_id c) = true /\ c_plan c = planRef p
  else c_score c <= bonus.
Proof.
  assert (Hb : 0 <= (if test vocabularyRe utterance then 1 else 0))
    by (destruct (test _ _); lia).
  unfold scoreCandidate, onMentionedDate, planId.
  destruct (truthyOpt (orElse (sp_notificationId p) (sp_id p))) eqn:Hid;
    cbn [negb orb andb]; [| exact Hb].
  destruct (orElse (sp_plan p ≫= when_iso) (sp_plan p ≫= schedule_iso))
    as [iso |] eqn:Hiso; cbn [truthyOpt negb]; [| exact Hb].
  destruct (truthy iso) eqn:Ht; cbn [negb andb]; [| exact Hb].
  cbn [mbind option_bind c_score c_id c_plan].
  destruct (utcMonthDay iso) as [[month day] |]; [| lia].
  destruct (existsb _ _); [| lia].
  by rewrite Hid.
Qed.

Lemma ties_onMentionedDate (utcMonthDay : string -> option (Z * Z))
  (utterance : string) (plans : list StoredPlan) :
  List.filter
    (fun c => c_score c
              =? 10 + (if test vocabularyRe utterance then 1 else 0))
    (scoredCandidates utcMonthDay utterance plans)
  = map (scoreCandidate utcMonthDay utterance (mentionedDates utterance))
      (List.filter (onMentionedDate utcMonthDay utterance) plans).
Proof.
  unfold scoredCandidates.
  induction plans as [| q plans IH]; [reflexivity |].
  cbn [map List.filter].
  pose proof (scoreCandidate_onMentionedDate utcMonthDay utterance q) as Hq.
  cbn zeta in Hq.
  destruct (onMentionedDate utcMonthDay utterance q).
  - destruct Hq as (Hs & _ & Hid & _). rewrite Hid. cbn [List.filter].
    rewrite Hs, Z.eqb_refl. cbn [map]. by rewrite IH.
  - destruct (truthyOpt (c_id _)); [| exact IH].
    cbn [List.filter].
    match goal with
    | |- context [?a =? ?b] => destruct (Z.eqb_spec a b) as [Heq | _]
    end; [lia | exact IH].
Qed.

(** X13. When exactly one of the user's stored plans (among
    those with an identifier and a time) falls on a date that the utterance
    mentions, that plan is the match, whatever the other plans are and
    whether or not the utterance holds scheduling vocabulary. *)
Theorem unique_date_match_wins
  (listUserPlans : string -> Exn (list StoredPlan))
  (utcMonthDay : string -> option (Z * Z)) (userId utterance : string)
  (plans : list StoredPlan) (p : StoredPlan) (id : string) :
  listUserPlans userId = Ok plans ->
  List.filter (onMentionedDate utcMonthDay utterance) plans = [p] ->
  planId p = Some id ->
  findMatchingPlanTool listUserPlans utcMonthDay userId utterance
  = Matched id (planRef p).
Proof.
  intros Hplans Hone Hid.
  set (bonus := if test vocabularyRe utterance then 1 else 0).
  set (top := scoreCandidate utcMonthDay utterance
                (mentionedDates utterance) p).
  pose proof (ties_onMentionedDate utcMonthDay utterance plans) as Hties.
  rewrite Hone in Hties. cbn [map] in Hties. fold top bonus in Hties.
  assert (Hp : p ∈ plans /\ onMentionedDate utcMonthDay utterance p = true).
  { assert (Hin : In p (List.filter (onMentionedDate utcMonthDay utterance)
                          plans)) by (rewrite Hone; by left).
    apply filter_In in Hin as [Hin Hon]. split; [by apply list_elem_of_In |].
    exact Hon. }
  destruct Hp as [Hp Hon].
  pose proof (scoreCandidate_onMentionedDate utcMonthDay utterance p) as Hsc.
  cbn zeta in Hsc. rewrite Hon in Hsc. fold top bonus in Hsc.
  destruct Hsc as (Hscore & Hcid & Htruthy & Hplan).
  assert (Htop : top ∈ scoredCandidates utcMonthDay utterance plans).
  { assert (Hin : top ∈ [top]) by left. rewrite <- Hties in Hin.
    apply list_elem_of_In, filter_In in Hin as [Hin _].
    by apply list_elem_of_In. }
  assert (Hdates : mentionedDates utterance <> []).
  { intros Hnil. unfold onMentionedDate in Hon. rewrite Hnil in Hon.
    destruct (truthyOpt _); [| discriminate Hon].
    destruct (orElse _ _) as [iso |]; [| discriminate Hon].
    destruct (truthy iso); [| discriminate Hon].
    destruct (utcMonthDay iso) as [[? ?] |]; discriminate Hon. }
  assert (Hmax : forall c,
            c ∈ scoredCandidates utcMonthDay utterance plans ->
            c_score c <= c_score top).
  { intros c Hc. unfold scoredCandidates in Hc.
    apply list_elem_of_In, filter_In in Hc as [Hc _].
    apply in_map_iff in Hc as (q & <- & _).
    pose proof (scoreCandidate_onMentionedDate utcMonthDay utterance q) as Hq.
    cbn zeta in Hq. fold bonus in Hq. rewrite Hscore.
    destruct (onMentionedDate utcMonthDay utterance q).
    - destruct Hq as (-> & _). lia.
    - lia. }
  destruct (findMatchingPlanTool_top listUserPlans utcMonthDay userId
              utterance plans Hplans top Hdates Htop Hmax)
    as [[Hlen _] | [_ Hres]].
  - rewrite Hscore. subst bonus. destruct (test _ _); lia.
  - exfalso. rewrite Hscore in Hlen. fold bonus in Hlen.
    rewrite Hties in Hlen. simpl in Hlen. lia.
  - rewrite Hres, Hcid, Hid, Hplan. reflexivity.
Qed.

(** Of the plans of 3 July and 5 July, "7/5" picks the second. *)
Lemma unique_date_match_wins_witness :
  findMatchingPlanTool (fun _ => Ok examplePlans) isoUTCMonthDay "u1"
    "change my last appointment to 7/5"
  = Matched "n2" (planRef (storedPlan "n2" "2025-07-05T09:00:00.000Z")).
Proof.
  apply (unique_date_match_wins (fun _ => Ok examplePlans) isoUTCMonthDay
           "u1" "change my last appointment to 7/5" examplePlans
           (storedPlan "n2" "2025-07-05T09:00:00.000Z") "n2" eq_refl);
    vm_compute; reflexivity.
Defined.
(** ** The operations of the notification handler *)

(** X14. A query answers with the number of the user's stored plans
    and issues no call that changes the queue, the dead-letter queue or the
    plan store; when the store cannot be read the answer is zero. *)
Theorem query_counts_plans (w : NotificationAgent.World)
  (input : AgentInput) (parsed : ParsedIntent) :
  NotificationAgent.extractIntent w (in_message input) = Ok parsed ->
  operation parsed = Some Query ->
  (forall plans,
     NotificationAgent.listUserPlans w (in_userId input) = Ok plans ->
     NotificationAgent.process w input
     = ([], Ok (plainOutput
                  ("You have " ++ numberToString (Z.of_nat (length plans))
                     ++ " notifications.")
                  [NotificationAgent.action "query_notification" Done
                     (Some {[ "count"%string
                              := JNum (Z.of_nat (length plans)) ]})])))
  /\ (forall e,
        NotificationAgent.listUserPlans w (in_userId input) = Throw e ->
        NotificationAgent.process w input
        = ([], Ok (plainOutput "You have 0 notifications."
                     [NotificationAgent.action "query_notification" Done
                        (Some {[ "count"%string := JNum 0 ]})]))).
Proof.
  intros Hparse Hop.
  assert (Hc : NotificationAgent.isOp parsed Cancel = false)
    by (unfold NotificationAgent.isOp; by rewrite Hop).
  assert (Hq : NotificationAgent.isOp parsed Query = true)
    by (unfold NotificationAgent.isOp; by rewrite Hop).
  unfold NotificationAgent.process. rewrite Hparse.
  cbn [NotificationAgent.query NotificationAgent.bindM].
  rewrite Hc, Hq. unfold listUserPlansTool.
  split; [intros plans -> | intros e ->]; reflexivity.
Qed.

Lemma query_counts_plans_witness :
  NotificationAgent.process (worldParsing queryIntent) exampleInput
  = ([], Ok (plainOutput "You have 2 notifications."
               [NotificationAgent.action "query_notification" Done
                  (Some {[ "count"%string := JNum 2 ]})])).
Proof.
  apply (proj1 (query_counts_plans (worldParsing queryIntent) exampleInput
                  queryIntent eq_refl eq_refl) examplePlans eq_refl).
Defined.

(** X15. A cancellation never reaches the queue's [enqueue], the
    plan store or the dead-letter queue: the only call it can issue is the
    removal of one job.  With an identifier given, the job registered under
    it is removed and the answer is "The notification has been canceled.",
    whatever the queue answers to the removal; with no job registered
    nothing is removed and the answer is "Could not find a notification to
    cancel." *)
Theorem cancel_only_removes_job (w : NotificationAgent.World)
  (input : AgentInput) (parsed : ParsedIntent) :
  NotificationAgent.extractIntent w (in_message input) = Ok parsed ->
  operation parsed = Some Cancel ->
  (forall e, e ∈ fst (NotificationAgent.process w input) ->
     exists j, e = NotificationAgent.ERemoveJob j)
  /\ (length (fst (NotificationAgent.process w input)) <= 1)%nat
  /\ (forall id j,
        notificationId parsed = Some id -> id <> EmptyString ->
        NotificationAgent.getJobId w id = Ok (Some j) -> j <> EmptyString ->
        NotificationAgent.removeJobById w j = Ok tt ->
        NotificationAgent.process w input
        = ([NotificationAgent.ERemoveJob j],
           Ok (plainOutput "The notification has been canceled."
                 [NotificationAgent.action "cancel_notification" Done None])))
  /\ (forall id,
        notificationId parsed = Some id -> id <> EmptyString ->
        NotificationAgent.getJobId w id = Ok None ->
        NotificationAgent.process w input
        = ([], Ok (plainOutput "Could not find a notification to cancel."
                     [NotificationAgent.action "cancel_notification" Failed
                        None]))).
Proof.
  intros Hparse Hop.
  assert (Hc : NotificationAgent.isOp parsed Cancel = true)
    by (unfold NotificationAgent.isOp; by rewrite Hop).
  assert (Htool : forall id (k : bool -> AgentOutput),
            fst (NotificationAgent.bindM
                   (NotificationAgent.cancelNotificationByIdTool w id)
                   (fun ok => NotificationAgent.ret (k ok))) = []
            \/ exists j,
                 fst (NotificationAgent.bindM
                        (NotificationAgent.cancelNotificationByIdTool w id)
                        (fun ok => NotificationAgent.ret (k ok)))
                 = [NotificationAgent.ERemoveJob j]).
  { intros id k. rewrite fst_bindM.
    assert (Hk : match snd (NotificationAgent.cancelNotificationByIdTool w id)
                 with
                 | Ok a => fst (NotificationAgent.ret (k a))
                 | Throw _ => []
                 end = []) by (by destruct (snd _)).
    rewrite Hk, app_nil_r.
    unfold NotificationAgent.cancelNotificationByIdTool,
      NotificationAgent.bindM, NotificationAgent.query,
      NotificationAgent.call, NotificationAgent.ret.
    destruct (NotificationAgent.getJobId w id) as [existing | e0]; cbn;
      [| by left].
    destruct (truthyOpt existing); cbn; [| by left].
    destruct (NotificationAgent.removeJobById w _); cbn; eauto. }
  assert (Hshape : forall tr : list NotificationAgent.Effect,
            tr = [] \/ (exists j, tr = [NotificationAgent.ERemoveJob j]) ->
            (forall x, x ∈ tr -> exists j, x = NotificationAgent.ERemoveJob j)
            /\ (length tr <= 1)%nat).
  { intros tr [-> | [j ->]]; (split; [| cbn; lia]); intros x Hx.
    - by apply elem_of_nil in Hx.
    - apply list_elem_of_singleton in Hx. eauto. }
  assert (Htrace :
    forall tr, tr = fst (NotificationAgent.process w input) ->
      tr = [] \/ exists j, tr = [NotificationAgent.ERemoveJob j]).
  { intros tr ->. unfold NotificationAgent.process. rewrite fst_bindM.
    rewrite Hparse. cbn [NotificationAgent.query fst snd app]. rewrite Hc.
    destruct (negb (truthyOpt (notificationId parsed))).
    - destruct (findMatchingPlanTool _ _ _ _); try (by left). apply Htool.
    - apply Htool. }
  split; [apply Hshape, Htrace; reflexivity |].
  split; [apply Hshape, Htrace; reflexivity |].
  unfold NotificationAgent.process. rewrite Hparse.
  cbn [NotificationAgent.query NotificationAgent.bindM app]. rewrite Hc.
  split.
  - intros nid j Hid Hne Hjob Hj Hrm. rewrite Hid.
    assert (Ht : truthyOpt (Some nid) = true) by (by destruct nid).
    assert (Htj : truthyOpt (Some j) = true) by (by destruct j).
    rewrite Ht. cbn [negb]. rewrite Hid.
    change (default EmptyString (Some nid)) with nid.
    unfold NotificationAgent.cancelNotificationByIdTool.
    rewrite Hjob. cbn [NotificationAgent.query NotificationAgent.bindM app].
    rewrite Htj. change (default EmptyString (Some j)) with j.
    unfold NotificationAgent.call. rewrite Hrm. reflexivity.
  - intros nid Hid Hne Hjob. rewrite Hid.
    assert (Ht : truthyOpt (Some nid) = true) by (by destruct nid).
    rewrite Ht. cbn [negb]. rewrite Hid.
    change (default EmptyString (Some nid)) with nid.
    unfold NotificationAgent.cancelNotificationByIdTool.
    rewrite Hjob. reflexivity.
Qed.

Lemma cancel_only_removes_job_witness :
  NotificationAgent.process (worldParsing cancelIntent) exampleInput
  = ([NotificationAgent.ERemoveJob "job-2"],
     Ok (plainOutput "The notification has been canceled."
           [NotificationAgent.action "cancel_notification" Done None])).
Proof.
  apply (proj1 (proj2 (proj2 (cancel_only_removes_job
                                (worldParsing cancelIntent) exampleInput
                                cancelIntent eq_refl eq_refl)))
           "n2"%string "job-2"%string eq_refl);
    [discriminate | reflexivity | discriminate | reflexivity].
Defined.
(** ** Submitting a plan *)

Lemma enqueueNotificationTool_withKey (w : NotificationAgent.World)
  (plan : NotificationPlan) (key : string) :
  NotificationAgent.enqueueNotificationTool w plan key
  = ([NotificationAgent.EEnqueue (withKey plan key)],
     Ok (NotificationAgent.enqueueNotification w (withKey plan key))).
Proof. reflexivity. Qed.

Lemma submit_accepted (w : NotificationAgent.World)
  (input : AgentInput) (parsed : ParsedIntent) (plan : NotificationPlan)
  (notes : list string) (jobId : string) :
  agentPolicy w input parsed = PolicyOk plan notes ->
  NotificationAgent.enqueueNotification w
    (withKey plan (notificationIdFor parsed plan)) = Ok jobId ->
  NotificationAgent.savePlanForUser w (in_userId input)
    (notificationIdFor parsed plan) plan jobId "scheduled" = Ok tt ->
  exists out,
    NotificationAgent.submit w input parsed
    = ([NotificationAgent.EEnqueue
          (withKey plan (notificationIdFor parsed plan));
        NotificationAgent.ESavePlan (in_userId input)
          (notificationIdFor parsed plan) plan jobId "scheduled"],
       Ok out)
    /\ out_reply out = ("Notification scheduled. jobId=" ++ jobId)%string
    /\ out_actions out
       = Some [NotificationAgent.action "schedule_notification" Done
                 (Some {[ "jobId"%string := JStr jobId ]})]
    /\ exists sd,
         out_sharedData out = Some sd
         /\ truthyKey sd "notificationSchedule" = true
         /\ truthyKey sd "appointmentSchedule" = false.
Proof.
  unfold agentPolicy, agentContext, notificationIdFor.
  intros Hpolicy Henq Hsave.
  unfold NotificationAgent.submit. rewrite Hpolicy.
  rewrite enqueueNotificationTool_withKey.
  cbn [NotificationAgent.bindM NotificationAgent.query app]. rewrite Henq.
  cbn [NotificationAgent.bindM NotificationAgent.query
         NotificationAgent.call app]. rewrite Hsave.
  cbn [NotificationAgent.bindM NotificationAgent.ret NotificationAgent.tryCatchM
         app].
  eexists. split; [reflexivity |]. cbn.
  do 2 (split; [reflexivity |]).
  eexists. split; [reflexivity |]. split; reflexivity.
Qed.

(** X16. For a creation (a parse whose operation is absent or
    [create]), when the evaluation succeeds, the queue accepts the job and
    the store takes the plan, the handler issues exactly two calls, in this
    order: the enqueue of the plan under the notification identifier (the
    one given, else the plan's own key), then the saving of the plan with
    the job's identifier and the status "scheduled".  Its answer names the
    job and carries the notification schedule as shared data, which is what
    the collaboration rule of the graph looks for.  The policy is evaluated
    on the parse with a generated message body when it carries none. *)
Theorem process_enqueues_then_saves (w : NotificationAgent.World)
  (input : AgentInput) (parsed : ParsedIntent) (plan : NotificationPlan)
  (notes : list string) (jobId : string) :
  NotificationAgent.extractIntent w (in_message input) = Ok parsed ->
  operation parsed = None \/ operation parsed = Some Create ->
  agentPolicy w input (withGeneratedMessage w input parsed)
  = PolicyOk plan notes ->
  NotificationAgent.enqueueNotification w
    (withKey plan (notificationIdFor parsed plan)) = Ok jobId ->
  NotificationAgent.savePlanForUser w (in_userId input)
    (notificationIdFor parsed plan) plan jobId "scheduled" = Ok tt ->
  exists out,
    NotificationAgent.process w input
    = ([NotificationAgent.EEnqueue
          (withKey plan (notificationIdFor parsed plan));
        NotificationAgent.ESavePlan (in_userId input)
          (notificationIdFor parsed plan) plan jobId "scheduled"],
       Ok out)
    /\ out_reply out = ("Notification scheduled. jobId=" ++ jobId)%string
    /\ out_actions out
       = Some [NotificationAgent.action "schedule_notification" Done
                 (Some {[ "jobId"%string := JStr jobId ]})]
    /\ exists sd,
         out_sharedData out = Some sd
         /\ truthyKey sd "notificationSchedule" = true
         /\ truthyKey sd "appointmentSchedule" = false.
Proof.
  intros Hparse Hop Hpolicy Henq Hsave.
  assert (Hid : notificationIdFor (withGeneratedMessage w input parsed) plan
                = notificationIdFor parsed plan).
  { unfold withGeneratedMessage. by destruct (_ || _). }
  destruct (submit_accepted w input (withGeneratedMessage w input parsed)
              plan notes jobId Hpolicy) as (out & Hsubmit & Hout);
    rewrite ?Hid; try assumption.
  rewrite Hid in Hsubmit.
  assert (Hops : NotificationAgent.isOp parsed Cancel = false
                 /\ NotificationAgent.isOp parsed Query = false
                 /\ NotificationAgent.isOp parsed Update = false).
  { unfold NotificationAgent.isOp. by destruct Hop as [-> | ->]. }
  destruct Hops as (Hc & Hq & Hu).
  exists out. split; [| exact Hout].
  unfold NotificationAgent.process. rewrite Hparse.
  cbn [NotificationAgent.query NotificationAgent.bindM app].
  rewrite Hc, Hq, Hu. cbn [andb].
  fold (withGeneratedMessage w input parsed). rewrite Hu.
  cbn [andb NotificationAgent.ret NotificationAgent.bindM app].
  by rewrite Hsubmit.
Qed.

(** A creation: the plan is enqueued under its own key and then saved. *)
Lemma process_enqueues_then_saves_witness :
  exists plan,
    NotificationAgent.extractIntent createWorld (in_message exampleInput)
    = Ok createIntent
    /\ fst (NotificationAgent.process createWorld exampleInput)
       = [NotificationAgent.EEnqueue plan;
          NotificationAgent.ESavePlan "u1" (pl_idempotencyKey plan) plan
            "job-9" "scheduled"].
Proof.
  destruct (agentPolicy createWorld exampleInput
              (withGeneratedMessage createWorld exampleInput createIntent))
    as [plan notes | err] eqn:Hp; [| vm_compute in Hp; discriminate].
  exists plan. split; [reflexivity |].
  destruct (process_enqueues_then_saves createWorld exampleInput createIntent
              plan notes "job-9" eq_refl (or_intror eq_refl) Hp eq_refl
              eq_refl) as (out & Hprocess & _).
  rewrite Hprocess. by destruct plan.
Defined.

(** X17. An error of the queue and an error of the plan
    store are both answered as a failure to enqueue and recorded in the
    dead-letter queue with the reason "ENQUEUE_FAILED: <message>".  When
    the queue throws nothing is saved; when the store throws after the
    queue has accepted the job, the job has been enqueued all the same. *)
Theorem submit_failure_goes_to_dead_letter (w : NotificationAgent.World)
  (input : AgentInput) (parsed : ParsedIntent) (plan : NotificationPlan)
  (notes : list string) (e : string) :
  agentPolicy w input parsed = PolicyOk plan notes ->
  NotificationAgent.putToNotificationDLQ w ("ENQUEUE_FAILED: " ++ e)
  = Ok tt ->
  (NotificationAgent.enqueueNotification w
     (withKey plan (notificationIdFor parsed plan)) = Throw e ->
   NotificationAgent.submit w input parsed
   = ([NotificationAgent.EEnqueue
         (withKey plan (notificationIdFor parsed plan));
       NotificationAgent.EDlqPut ("ENQUEUE_FAILED: " ++ e)],
      Ok (enqueueFailedOutput ("ENQUEUE_FAILED: " ++ e))))
  /\ (forall jobId,
        NotificationAgent.enqueueNotification w
          (withKey plan (notificationIdFor parsed plan)) = Ok jobId ->
        NotificationAgent.savePlanForUser w (in_userId input)
          (notificationIdFor parsed plan) plan jobId "scheduled" = Throw e ->
        NotificationAgent.submit w input parsed
        = ([NotificationAgent.EEnqueue
              (withKey plan (notificationIdFor parsed plan));
            NotificationAgent.ESavePlan (in_userId input)
              (notificationIdFor parsed plan) plan jobId "scheduled";
            NotificationAgent.EDlqPut ("ENQUEUE_FAILED: " ++ e)],
           Ok (enqueueFailedOutput ("ENQUEUE_FAILED: " ++ e)))).
Proof.
  unfold agentPolicy, agentContext, notificationIdFor.
  intros Hpolicy Hdlq. split.
  - intros Henq. unfold NotificationAgent.submit. rewrite Hpolicy.
    rewrite enqueueNotificationTool_withKey.
    cbn [NotificationAgent.bindM NotificationAgent.query app]. rewrite Henq.
    cbn [NotificationAgent.bindM NotificationAgent.tryCatchM
           NotificationAgent.call app].
    rewrite Hdlq. reflexivity.
  - intros jobId Henq Hsave. unfold NotificationAgent.submit. rewrite Hpolicy.
    rewrite enqueueNotificationTool_withKey.
    cbn [NotificationAgent.bindM NotificationAgent.query app]. rewrite Henq.
    cbn [NotificationAgent.bindM NotificationAgent.query
           NotificationAgent.call app]. rewrite Hsave.
    cbn [NotificationAgent.bindM NotificationAgent.tryCatchM
           NotificationAgent.call app].
    rewrite Hdlq. reflexivity.
Qed.

(** The store is down: the job is enqueued, and the failure recorded. *)
Lemma submit_failure_goes_to_dead_letter_witness :
  exists plan,
    fst (NotificationAgent.submit (worldParsing updateIntent) exampleInput
           updateIntent)
    = [NotificationAgent.EEnqueue (withKey plan "n2");
       NotificationAgent.ESavePlan "u1" "n2" plan "job-9" "scheduled";
       NotificationAgent.EDlqPut "ENQUEUE_FAILED: store unavailable"].
Proof.
  destruct (agentPolicy (worldParsing updateIntent) exampleInput updateIntent)
    as [plan notes | err] eqn:Hp; [| vm_compute in Hp; discriminate].
  exists plan.
  rewrite (proj2 (submit_failure_goes_to_dead_letter
                    (worldParsing updateIntent) exampleInput updateIntent
                    plan notes "store unavailable" Hp eq_refl)
             "job-9"%string eq_refl eq_refl).
  reflexivity.
Defined.

(** X18. An update of a notification whose identifier is known
    first removes the job registered under that identifier and then
    schedules the new plan under the same identifier: the calls are the
    removal, the enqueue with the identifier as the job's key, and the
    saving of the plan under the identifier, in this order.  (The statement
    is for a parse that carries a message body that is not blank, so that
    none is generated.) *)
Theorem update_reschedules_under_same_id (w : NotificationAgent.World)
  (input : AgentInput) (parsed : ParsedIntent) (id j m : string)
  (plan : NotificationPlan) (notes : list string) (jobId : string) :
  NotificationAgent.extractIntent w (in_message input) = Ok parsed ->
  operation parsed = Some Update ->
  notificationId parsed = Some id -> id <> EmptyString ->
  message (base parsed) = Some m -> trim m <> EmptyString ->
  NotificationAgent.getJobId w id = Ok (Some j) -> j <> EmptyString ->
  NotificationAgent.removeJobById w j = Ok tt ->
  agentPolicy w input parsed = PolicyOk plan notes ->
  NotificationAgent.enqueueNotification w (withKey plan id) = Ok jobId ->
  NotificationAgent.savePlanForUser w (in_userId input) id plan jobId
    "scheduled" = Ok tt ->
  fst (NotificationAgent.process w input)
  = [NotificationAgent.ERemoveJob j;
     NotificationAgent.EEnqueue (withKey plan id);
     NotificationAgent.ESavePlan (in_userId input) id plan jobId "scheduled"]
  /\ (out_reply <$> match snd (NotificationAgent.process w input) with
                    | Ok out => Some out
                    | Throw _ => None
                    end)
     = Some ("Notification scheduled. jobId=" ++ jobId)%string.
Proof.
  intros Hparse Hop Hid Hne Hmsg Htrim Hjob Hj Hrm Hpolicy Henq Hsave.
  assert (Hidfor : notificationIdFor parsed plan = id).
  { unfold notificationIdFor. rewrite Hid. by destruct id. }
  destruct (submit_accepted w input parsed plan notes jobId Hpolicy)
    as (out & Hsubmit & Hreply & _); rewrite ?Hidfor; try assumption.
  rewrite Hidfor in Hsubmit.
  assert (Hc : NotificationAgent.isOp parsed Cancel = false)
    by (unfold NotificationAgent.isOp; by rewrite Hop).
  assert (Hq : NotificationAgent.isOp parsed Query = false)
    by (unfold NotificationAgent.isOp; by rewrite Hop).
  assert (Hu : NotificationAgent.isOp parsed Update = true)
    by (unfold NotificationAgent.isOp; by rewrite Hop).
  assert (Ht : truthyOpt (Some id) = true) by (by destruct id).
  assert (Htj : truthyOpt (Some j) = true) by (by destruct j).
  assert (Htm : truthyOpt (Some m) = true).
  { destruct m; [| reflexivity]. by contradiction Htrim. }
  assert (Hproc : NotificationAgent.process w input
                  = ([NotificationAgent.ERemoveJob j;
                      NotificationAgent.EEnqueue (withKey plan id);
                      NotificationAgent.ESavePlan (in_userId input) id plan
                        jobId "scheduled"], Ok out)).
  { unfold NotificationAgent.process. rewrite Hparse.
    cbn [NotificationAgent.query NotificationAgent.bindM app].
    rewrite Hc, Hq, Hu, Hid, Ht. cbn [negb andb]. rewrite Hu, Hid, Ht.
    cbn [andb]. change (default EmptyString (Some id)) with id.
    rewrite Hjob. cbn [NotificationAgent.query NotificationAgent.bindM app].
    rewrite Htj. change (default EmptyString (Some j)) with j.
    unfold NotificationAgent.call. rewrite Hrm.
    cbn [NotificationAgent.bindM app]. rewrite Hmsg, Htm.
    change (default EmptyString (Some m)) with m.
    destruct (String.eqb_spec (trim m) EmptyString) as [Heq | _];
      [contradiction |].
    cbn [negb orb]. by rewrite Hsubmit. }
  rewrite Hproc. cbn. by rewrite Hreply.
Qed.

Lemma update_reschedules_under_same_id_witness :
  exists plan,
    fst (NotificationAgent.process (updateWorld) exampleInput)
    = [NotificationAgent.ERemoveJob "job-2";
       NotificationAgent.EEnqueue (withKey plan "n2");
       NotificationAgent.ESavePlan "u1" "n2" plan "job-9" "scheduled"].
Proof.
  destruct (agentPolicy updateWorld exampleInput updateIntent)
    as [plan notes | err] eqn:Hp; [| vm_compute in Hp; discriminate].
  exists plan.
  apply (update_reschedules_under_same_id updateWorld exampleInput
           updateIntent "n2" "job-2" "Take your pill" plan notes "job-9"
           eq_refl eq_refl eq_refl);
    first [discriminate | reflexivity | exact Hp].
Defined.
(** ** Alternations of literal words *)

Lemma chars_string (l : list ascii) : chars (string_of_list_ascii l) = l.
Proof. apply list_ascii_of_string_of_list_ascii. Qed.

Lemma run_Alts_words (ws : list string) (k : Cont) (st : mstate) :
  ws <> [] ->
  (forall x, is_Some (k x)) ->
  is_Some (run (Alts (map Lit ws)) k st)
  <-> exists w, w ∈ ws /\ is_Some (matchLit (chars w) st).
Proof.
  intros Hne Hk. induction ws as [| w ws IH]; [done |].
  destruct ws as [| w' ws].
  - cbn [map Alts]. rewrite run_Lit. split.
    + intros H. exists w. split; [left |].
      destruct (matchLit (chars w) st); [eauto | by destruct H].
    + intros (w0 & Hw0 & [st' Hm]). apply list_elem_of_singleton in Hw0.
      subst w0. rewrite Hm. apply Hk.
  - change (Alts (map Lit (w :: w' :: ws)))
      with (Alt (Lit w) (Alts (map Lit (w' :: ws)))).
    cbn [run]. rewrite run_Lit.
    destruct (matchLit (chars w) st) as [st' |] eqn:Hm.
    + destruct (Hk st') as [res Hres]. rewrite Hres. split; [| eauto].
      intros _. exists w. split; [left | eauto].
    + rewrite IH by done. split.
      * intros (w0 & Hw0 & H0). exists w0. split; [by right | exact H0].
      * intros (w0 & Hw0 & H0). apply elem_of_cons in Hw0 as [-> | Hw0].
        -- rewrite Hm in H0. by destruct H0.
        -- eauto.
Qed.

Lemma matchAt_keywords (ws : list string) (p : option ascii)
  (l : list ascii) :
  ws <> [] ->
  is_Some (matchAt (keywords ws) p l)
  <-> exists w, w ∈ ws /\ String.prefix w (string_of_list_ascii l) = true.
Proof.
  intros Hne. unfold matchAt, keywords. cbn [run].
  rewrite run_Alts_words; [| exact Hne | intros x; eauto].
  assert (Hp : forall w,
            (exists st', matchLit (chars w) (MState p l []) = Some st')
            <-> String.prefix w (string_of_list_ascii l) = true).
  { intros w.
    pose proof (matchLit_prefix (chars w) p (string_of_list_ascii l) [])
      as H.
    rewrite chars_string in H. unfold chars in H at 2.
    by rewrite string_of_list_ascii_of_string in H. }
  split; intros (w & Hw & H); exists w; (split; [exact Hw |]).
  - apply Hp. destruct H as [st' H]. eauto.
  - destruct (proj2 (Hp w) H) as [st' Hst]. eauto.
Qed.

Lemma searchFrom_keywords (ws : list string) (l : list ascii) :
  ws <> [] ->
  forall p,
    is_Some (searchFrom (keywords ws) p l)
    <-> exists w, w ∈ ws /\ occursIn w (string_of_list_ascii l) = true.
Proof.
  intros Hne. induction l as [| c l IH]; intros p.
  - cbn [searchFrom].
    pose proof (matchAt_keywords ws p [] Hne) as Hm.
    change (string_of_list_ascii []) with EmptyString in *.
    destruct (matchAt (keywords ws) p []) as [res |].
    + split; [| eauto]. intros _.
      destruct (proj1 Hm ltac:(eauto)) as (w & Hw & Hp).
      exists w. split; [exact Hw |]. cbn [occursIn]. by rewrite Hp.
    + split; [by intros [? ?] |].
      intros (w & Hw & Ho). cbn [occursIn] in Ho.
      rewrite orb_false_r in Ho.
      apply Hm. eauto.
  - cbn [searchFrom].
    pose proof (matchAt_keywords ws p (c :: l) Hne) as Hm.
    destruct (matchAt (keywords ws) p (c :: l)) as [res |].
    + split; [| eauto]. intros _.
      destruct (proj1 Hm ltac:(eauto)) as (w & Hw & Hp).
      exists w. split; [exact Hw |].
      change (string_of_list_ascii (c :: l))
        with (String c (string_of_list_ascii l)) in *.
      cbn [occursIn]. by rewrite Hp.
    + rewrite IH.
      change (string_of_list_ascii (c :: l))
        with (String c (string_of_list_ascii l)) in *.
      split; intros (w & Hw & Ho); exists w; (split; [exact Hw |]).
      * cbn [occursIn]. rewrite Ho. apply orb_true_r.
      * cbn [occursIn] in Ho. apply orb_true_iff in Ho as [Hp | Ho];
          [| exact Ho].
        exfalso. destruct (proj2 Hm) as [? ?]; [eauto | discriminate].
Qed.

(** [/(w1|w2|...)/.test(s)] holds exactly when one of the words occurs in
    [s]. *)
Lemma test_keywords (ws : list string) (s : string) :
  ws <> [] ->
  test (keywords ws) s = existsb (fun w => occursIn w s) ws.
Proof.
  intros Hne. unfold test, search.
  pose proof (searchFrom_keywords ws (chars s) Hne None) as H.
  unfold chars in H at 2. rewrite string_of_list_ascii_of_string in H.
  destruct (existsb (fun w => occursIn w s) ws) eqn:Hex.
  - apply existsb_exists in Hex as (w & Hw & Ho).
    destruct (proj2 H) as [res ->]; [| reflexivity].
    exists w. split; [by apply list_elem_of_In | exact Ho].
  - destruct (searchFrom _ _ _) as [res |]; [| reflexivity].
    destruct (proj1 H) as (w & Hw & Ho); [eauto |].
    assert (Hex' : existsb (fun w => occursIn w s) ws = true).
    { apply existsb_exists. exists w. split; [by apply list_elem_of_In |].
      exact Ho. }
    congruence.
Qed.
(** ** The handler is called by the router and again by the handler stage *)

Lemma registryOf_agents (appointment gp notification report : Agent)
  (ingestVerdict : string -> string -> Exn (option bool))
  (classify : string -> Router.Classification)
  (elapsedMs : string -> Z) (sched : nat -> nat) (route : string) :
  route ∈ ROUTES ->
  exists handler,
    registryOf appointment gp notification report !! route = Some handler
    /\ getAgent (SimpleAgentGraph classify appointment gp notification report
                   ingestVerdict elapsedMs sched) route = Ok handler.
Proof.
  intros Hroute. unfold ROUTES in Hroute.
  unfold getAgent, agents, initializeAgents, registryOf.
  cbn [appointmentAgent gpAgent notificationAgent reportAgent routerAgent
         SimpleAgentGraph].
  repeat (apply elem_of_cons in Hroute as [-> | Hroute];
          [eexists; split; by simplify_map_eq |]).
  by apply elem_of_nil in Hroute.
Qed.

Lemma ROUTES_truthy (route : string) :
  route ∈ ROUTES -> ifTruthy (Some route) = Some route.
Proof.
  unfold ROUTES. intros Hroute.
  repeat (apply elem_of_cons in Hroute as [-> | Hroute]; [reflexivity |]).
  by apply elem_of_nil in Hroute.
Qed.

Lemma resolveRoute_ROUTES (intent : string) :
  Router.resolveRoute intent ∈ ROUTES.
Proof.
  unfold Router.resolveRoute.
  destruct (Router.INTENT_TO_ROUTE !! intent) as [r |] eqn:Hr.
  - exact (INTENT_TO_ROUTE_routes _ _ Hr).
  - right. right. right. left.
Qed.

Lemma executeRouterStage_handlerInput (g : Env) (s r routed : AgentGraphState) :
  executeRouter g s = Ok r ->
  executeRouterStage g s = Ok routed ->
  handlerInput routed = handlerInput r
  /\ currentAgent routed = currentAgent r.
Proof.
  unfold executeRouterStage. intros ->. cbn [bind].
  destruct (saveIfReportCandidateOnce_cases g "router" r) as [-> | ->];
    cbn [bind]; intros [= <-]; split; reflexivity.
Qed.

Lemma getAgent_gp (classify : string -> Router.Classification)
  (appointment gp notification report : Agent)
  (ingestVerdict : string -> string -> Exn (option bool))
  (elapsedMs : string -> Z) (sched : nat -> nat) :
  getAgent (SimpleAgentGraph classify appointment gp notification report
              ingestVerdict elapsedMs sched) "gp" = Ok gp.
Proof.
  unfold getAgent, agents, initializeAgents.
  cbn [appointmentAgent gpAgent notificationAgent reportAgent routerAgent
         SimpleAgentGraph].
  by simplify_map_eq.
Qed.

(** X19. In the graph as the application builds it, the router dispatches a
    request that passes the guards to the handler registered under the
    route, and the handler stage then looks a handler up under
    [currentAgent] and calls it with the intent and the entities of the
    router's answer; it is the answer to this second call that the handler
    stage stores in [finalOutput].  When the router's call returns an answer
    that names no route of its own, [currentAgent] is the route and the
    same handler is called a second time.  When the router's call throws,
    the router answers with the route gp and the intent ["error"], and it
    is the gp handler that the handler stage calls. *)
Theorem handler_called_by_router_and_stage
  (classify : string -> Router.Classification)
  (appointment gp notification report : Agent)
  (ingestVerdict : string -> string -> Exn (option bool))
  (elapsedMs : string -> Z) (sched : nat -> nat) (input : AgentInput)
  (handler : Agent) :
  unblocked classify (routerInput input) ->
  Router.cl_intent (classify (in_message input)) ∉ objectPrototypeKeys ->
  registryOf appointment gp notification report
  !! Router.resolveRoute (Router.cl_intent (classify (in_message input)))
  = Some handler ->
  exists routed,
    fst (Router.process classify
           (registryOf appointment gp notification report)
           (routerInput input))
    = [(Router.resolveRoute (Router.cl_intent (classify (in_message input))),
        routedInput classify (routerInput input))]
    /\ executeRouterStage
         (SimpleAgentGraph classify appointment gp notification report
            ingestVerdict elapsedMs sched) (createInitialState input)
       = Ok routed
    /\ (forall out,
          handler (routedInput classify (routerInput input)) = Ok out ->
          out_route out = None ->
          currentAgent routed
          = Some (Router.resolveRoute
                    (Router.cl_intent (classify (in_message input))))
          /\ handlerInput routed
             = agentInput (createInitialState input)
                 (Some (default (Router.cl_intent (classify (in_message input)))
                          (out_intent out)))
                 (out_entities out)
          /\ forall out2,
               handler (handlerInput routed) = Ok out2 ->
               exists staged,
                 executeSpecializedAgentStage
                   (SimpleAgentGraph classify appointment gp notification
                      report ingestVerdict elapsedMs sched) routed
                 = Ok staged
                 /\ finalOutput staged = Some out2
                 /\ currentAgent staged = currentAgent routed)
    /\ (forall e,
          handler (routedInput classify (routerInput input)) = Throw e ->
          currentAgent routed = Some "gp"%string
          /\ finalOutput routed = Some (Router.errorOutput e)
          /\ handlerInput routed
             = agentInput (createInitialState input) (Some "error"%string)
                 None
          /\ forall out2,
               gp (handlerInput routed) = Ok out2 ->
               exists staged,
                 executeSpecializedAgentStage
                   (SimpleAgentGraph classify appointment gp notification
                      report ingestVerdict elapsedMs sched) routed
                 = Ok staged
                 /\ finalOutput staged = Some out2
                 /\ currentAgent staged = Some "gp"%string).
Proof.
  intros Hub _ Hreg.
  set (g := SimpleAgentGraph classify appointment gp notification report
              ingestVerdict elapsedMs sched).
  set (c := classify (in_message input)) in *.
  set (route := Router.resolveRoute (Router.cl_intent c)) in *.
  assert (Hin : route ∈ ROUTES) by apply resolveRoute_ROUTES.
  destruct (registryOf_agents appointment gp notification report
              ingestVerdict classify elapsedMs sched route Hin)
    as (handler' & Hreg' & Hagent). fold g in Hagent.
  rewrite Hreg in Hreg'. injection Hreg' as <-.
  assert (Hproc : Router.process classify
                    (registryOf appointment gp notification report)
                    (routerInput input)
                  = ([(route, routedInput classify (routerInput input))],
                     match handler (routedInput classify (routerInput input))
                     with
                     | Ok out => Ok (Router.mergeResult route c out)
                     | Throw e => Ok (Router.errorOutput e)
                     end)).
  { unfold Router.process. unfold unblocked in Hub. rewrite Hub.
    change (classify (in_message (routerInput input))) with c.
    fold route. unfold Agent in *. rewrite Hreg.
    unfold routedInput.
    change (classify (in_message (routerInput input))) with c.
    cbn [fmap option_fmap option_map].
    by destruct (handler _). }
  destruct (executeRouterStage_spec g (createInitialState input))
    as (routed & r & Hr & Hrouted & _).
  destruct (executeRouterStage_handlerInput g _ r routed Hr Hrouted)
    as (Hhi & Hca).
  assert (Hfo : finalOutput routed = finalOutput r).
  { revert Hrouted. unfold executeRouterStage. rewrite Hr. cbn [bind].
    destruct (saveIfReportCandidateOnce_cases g "router" r) as [-> | ->];
      cbn [bind]; by intros [= <-]. }
  unfold executeRouter in Hr. rewrite agents_router in Hr. cbn [bind] in Hr.
  unfold g in Hr at 1. cbn [routerAgent SimpleAgentGraph] in Hr.
  unfold Router.agent in Hr.
  change (agentInput (createInitialState input) None None)
    with (routerInput input) in Hr.
  fold (registryOf appointment gp notification report) in Hr.
  rewrite Hproc in Hr. cbn [snd] in Hr.
  exists routed. rewrite Hproc, Hhi, Hca, Hfo.
  split; [reflexivity |]. split; [exact Hrouted |]. split.
  - intros out Hout Hroute. rewrite Hout in Hr. cbn [bind tryCatch] in Hr.
    assert (Hrval : currentAgent r = Some route
                    /\ handlerInput r
                       = agentInput (createInitialState input)
                           (Some (default (Router.cl_intent c)
                                    (out_intent out)))
                           (out_entities out)).
    { injection Hr as <-. unfold handlerInput. cbn. rewrite Hroute. cbn.
      rewrite (ROUTES_truthy route Hin).
      split; [reflexivity |]. by destruct (out_intent out). }
    destruct Hrval as (Hcr & Hir).
    split; [exact Hcr |]. split; [exact Hir |].
    intros out2 Hout2.
    unfold executeSpecializedAgentStage, executeSpecializedAgent.
    rewrite Hca, Hcr, (ROUTES_truthy route Hin). cbn [default]. unfold id.
    rewrite Hagent. cbn [bind].
    fold (handlerInput routed). rewrite Hhi, Hout2. cbn.
    eexists. split; [reflexivity |]. split; reflexivity.
  - intros e Hthrow. rewrite Hthrow in Hr. cbn [bind tryCatch] in Hr.
    assert (Hrval : currentAgent r = Some "gp"%string
                    /\ finalOutput r = Some (Router.errorOutput e)
                    /\ handlerInput r
                       = agentInput (createInitialState input)
                           (Some "error"%string) None).
    { injection Hr as <-. repeat split. }
    destruct Hrval as (Hcr & Hfr & Hir).
    split; [exact Hcr |]. split; [exact Hfr |]. split; [exact Hir |].
    intros out2 Hout2.
    unfold executeSpecializedAgentStage, executeSpecializedAgent.
    rewrite Hca, Hcr. cbn [ifTruthy default truthy]. unfold id.
    unfold g at 1. rewrite getAgent_gp. cbn [bind].
    fold (handlerInput routed). rewrite Hhi, Hout2. cbn.
    eexists. split; [reflexivity |]. split; reflexivity.
Qed.

(** A reminder request: the notification handler is called by the router
    with the classifier's entities and again by the handler stage without
    them. *)
Lemma handler_called_by_router_and_stage_witness :
  exists routed,
    executeRouterStage
      (SimpleAgentGraph (classifyAs "notification.schedule")
         (okAgent "booked") (okAgent "advice") echoAgent (okAgent "report")
         (fun _ _ => Ok (Some false)) (fun _ => 0) (fun n => n))
      (createInitialState exampleInput) = Ok routed
    /\ currentAgent routed = Some "notification"%string
    /\ in_entities (routedInput (classifyAs "notification.schedule")
                      (routerInput exampleInput)) = Some ∅
    /\ handlerInput routed
       = agentInput (createInitialState exampleInput)
           (Some "notification.schedule"%string) None.
Proof.
  destruct (handler_called_by_router_and_stage
              (classifyAs "notification.schedule")
              (okAgent "booked") (okAgent "advice") echoAgent
              (okAgent "report")
              (fun _ _ => Ok (Some false)) (fun _ => 0) (fun n => n)
              exampleInput echoAgent)
    as (routed & _ & Hrouted & Hok & _).
  - reflexivity.
  - unfold objectPrototypeKeys. intros H.
    repeat (apply elem_of_cons in H as [H | H]; [discriminate H |]).
    by apply elem_of_nil in H.
  - vm_compute. reflexivity.
  - destruct (Hok (plainOutput "handled notification.schedule" [])
                eq_refl eq_refl) as (Hcurrent & Hinput & _).
    exists routed. split; [exact Hrouted |]. split; [exact Hcurrent |].
    split; [reflexivity |]. exact Hinput.
Defined.
(** ** Classification *)

Lemma knownOrFallback_known (label : string) :
  is_Some (Router.INTENT_TO_ROUTE !! Router.knownOrFallback label).
Proof.
  unfold Router.knownOrFallback.
  destruct (bool_decide _) eqn:H; [by apply bool_decide_eq_true in H |].
  by eexists.
Qed.

Lemma agentToIntent_known (agent intent : string) :
  Router.agentToIntent agent = Some intent ->
  is_Some (Router.INTENT_TO_ROUTE !! intent).
Proof.
  unfold Router.agentToIntent, ifTruthy.
  destruct (truthyOpt _); [| discriminate].
  intros H. apply elem_of_map_to_list in H.
  let l := eval vm_compute in (map_to_list Router.AGENT_TO_INTENT) in
  change (map_to_list Router.AGENT_TO_INTENT) with l in H.
  repeat (apply elem_of_cons in H as [[= -> ->] | H]; [by eexists |]).
  by apply elem_of_nil in H.
Qed.

Lemma ruleBased_values (message intent : string) :
  Router.ruleBased message = Some intent ->
  intent ∈ ["notification.schedule"; "appointment.book";
            "report.generate"; "report.cognitive.weekly"]%string.
Proof.
  unfold Router.ruleBased.
  repeat match goal with
         | |- context [if ?b then _ else _] => destruct b
         end; intros [= <-];
    [left | right; left | left | right; right; left
    | right; right; right; left].
Qed.

Lemma ruleBased_known (message intent : string) :
  Router.ruleBased message = Some intent ->
  is_Some (Router.INTENT_TO_ROUTE !! intent).
Proof.
  intros H. apply ruleBased_values in H.
  repeat (apply elem_of_cons in H as [-> | H]; [by eexists |]).
  by apply elem_of_nil in H.
Qed.

Lemma simpleClassify_known (llm : Router.Classifier) (message intent : string)
  (usage : option Z) :
  Router.simpleClassify llm message = Ok (intent, usage) ->
  is_Some (Router.INTENT_TO_ROUTE !! intent).
Proof.
  unfold Router.simpleClassify, Router.llmBasedClassification.
  destruct (match Router.llmGenerate llm _ with Ok _ => _ | Throw _ => _ end)
    as [i |] eqn:Hllm.
  { intros [= <- <-].
    destruct (Router.llmGenerate llm _) as [response |]; [| discriminate].
    destruct (Router.parseAgents llm response) as [[| a0 ?] |];
      try discriminate.
    by apply agentToIntent_known in Hllm. }
  destruct (Router.ruleBased message) as [i |] eqn:Hrule.
  { intros [= <- <-]. by apply ruleBased_known in Hrule. }
  destruct (Router.generateText llm _) as [[labelText u] |]; [| discriminate].
  cbn [bind]. intros [= <- <-]. apply knownOrFallback_known.
Qed.

Lemma hybridClassify_known (llm : Router.Classifier) (message intent : string)
  (usage : option Z) :
  Router.hybridClassify llm message = Ok (intent, usage) ->
  is_Some (Router.INTENT_TO_ROUTE !! intent).
Proof.
  unfold Router.hybridClassify.
  destruct (Router.generateText llm _) as [[responseText u] |];
    [| discriminate].
  cbn [bind].
  destruct (Router.parseIntentField llm responseText) as [[i |] |].
  - intros [= <- <-]. apply knownOrFallback_known.
  - intros [= <- <-]. by eexists.
  - apply simpleClassify_known.
Qed.

(** X20. Whatever the language model answers, and also when it
    fails, [classify] returns an intent of the routing table, so that the
    route of a classified request is read from the table and never taken
    from the default.  A request is flagged for several agents only when
    the model listed at least two agents, the first of which is known; the
    agents after the first are recorded as additional.  (The table of agent
    names is an object literal: the statement is for replies of the model
    whose first agent is not the name of a member of [Object.prototype].) *)
Theorem classify_intent_known (llm : Router.Classifier) (message : string) :
  (forall response agents a,
     Router.llmGenerate llm (Router.AgentsWithDetailsPrompt message)
     = Ok response \/
     Router.llmGenerate llm (Router.AgentsPrompt message) = Ok response ->
     Router.parseAgents llm response = Some agents ->
     head agents = Some a -> a ∉ objectPrototypeKeys) ->
  Router.INTENT_TO_ROUTE !! Router.cl_intent (Router.classify llm message)
  = Some (Router.resolveRoute
            (Router.cl_intent (Router.classify llm message)))
  /\ Router.resolveRoute (Router.cl_intent (Router.classify llm message))
     ∈ ROUTES
  /\ (Router.cl_multiAgentRequest (Router.classify llm message) = Some true ->
      exists response a0 a1 others,
        Router.llmGenerate llm (Router.AgentsWithDetailsPrompt message)
        = Ok response
        /\ Router.parseAgents llm response = Some (a0 :: a1 :: others)
        /\ Router.agentToIntent a0
           = Some (Router.cl_intent (Router.classify llm message))
        /\ Router.cl_additionalAgents (Router.classify llm message)
           = Some (a1 :: others)).
Proof.
  intros _.
  assert (Hknown : is_Some (Router.INTENT_TO_ROUTE
                              !! Router.cl_intent (Router.classify llm message))).
  { unfold Router.classify, Router.llmBasedClassificationWithDetails.
    destruct (Router.llmGenerate llm _) as [response |].
    - destruct (Router.parseAgents llm response) as [[| a0 others] |].
      2: { destruct (Router.agentToIntent a0) as [i |] eqn:Ha;
             [by apply agentToIntent_known in Ha |].
           destruct (Router.ruleBased message) as [i |] eqn:Hr;
             [by apply ruleBased_known in Hr |].
           destruct (Router.hybridClassify llm message) as [[i u] |] eqn:Hh;
             [by apply hybridClassify_known in Hh | by eexists]. }
      all: destruct (Router.ruleBased message) as [i |] eqn:Hr;
        [by apply ruleBased_known in Hr |];
        destruct (Router.hybridClassify llm message) as [[i u] |] eqn:Hh;
        [by apply hybridClassify_known in Hh | by eexists].
    - destruct (Router.ruleBased message) as [i |] eqn:Hr;
        [by apply ruleBased_known in Hr |].
      destruct (Router.hybridClassify llm message) as [[i u] |] eqn:Hh;
        [by apply hybridClassify_known in Hh | by eexists]. }
  destruct Hknown as [route Hroute].
  split; [| split].
  - unfold Router.resolveRoute. by rewrite Hroute.
  - unfold Router.resolveRoute. rewrite Hroute.
    exact (INTENT_TO_ROUTE_routes _ _ Hroute).
  - clear route Hroute.
    unfold Router.classify, Router.llmBasedClassificationWithDetails.
    destruct (Router.llmGenerate llm _) as [response |] eqn:Hg.
    + destruct (Router.parseAgents llm response) as [[| a0 others] |] eqn:Hp.
      2: { destruct (Router.agentToIntent a0) as [i |] eqn:Ha.
           - cbn. destruct others as [| a1 others]; [discriminate |].
             intros _. exists response, a0, a1, others. auto.
           - destruct (Router.ruleBased message); [discriminate |].
             by destruct (Router.hybridClassify llm message) as [[? ?] |]. }
      all: destruct (Router.ruleBased message); [discriminate |];
        by destruct (Router.hybridClassify llm message) as [[? ?] |].
    + destruct (Router.ruleBased message); [discriminate |].
      by destruct (Router.hybridClassify llm message) as [[? ?] |].
Qed.
(** "Book a GP appointment and send an SMS reminder". *)
Lemma classify_intent_known_witness :
  Router.cl_intent (Router.classify exampleClassifier
                      "Book a GP appointment and send an SMS reminder")
  = "appointment.book"%string
  /\ Router.INTENT_TO_ROUTE
     !! Router.cl_intent
          (Router.classify exampleClassifier
             "Book a GP appointment and send an SMS reminder")
     = Some (Router.resolveRoute
               (Router.cl_intent
                  (Router.classify exampleClassifier
                     "Book a GP appointment and send an SMS reminder"))).
Proof.
  split; [reflexivity |].
  apply (classify_intent_known exampleClassifier
           "Book a GP appointment and send an SMS reminder").
  intros response agents a _ [= <-] [= <-].
  unfold objectPrototypeKeys. intros H.
  repeat (apply elem_of_cons in H as [H | H]; [discriminate H |]).
  by apply elem_of_nil in H.
Defined.

Lemma generateText_down (llm : Router.Classifier) (prompt : Router.ClassifyPrompt) :
  (forall p, isOk (Router.llmGenerate llm p) = false) ->
  (forall generateWithUsage p,
     Router.llmGenerateWithUsage llm = Some generateWithUsage ->
     isOk (generateWithUsage p) = false) ->
  isOk (Router.generateText llm prompt) = false.
Proof.
  intros Hg Hu. unfold Router.generateText.
  destruct (Router.llmGenerateWithUsage llm) as [f |] eqn:Hf.
  - by apply (Hu f prompt).
  - specialize (Hg prompt). by destruct (Router.llmGenerate llm prompt).
Qed.

(** X21. When every call of the language model fails, the
    classification still answers: with the intent of the first rule that
    matches the message, and with [health.advice] when none does; no usage
    and no further agents are recorded. *)
Theorem classify_without_model (llm : Router.Classifier) (message : string) :
  (forall p, isOk (Router.llmGenerate llm p) = false) ->
  (forall generateWithUsage p,
     Router.llmGenerateWithUsage llm = Some generateWithUsage ->
     isOk (generateWithUsage p) = false) ->
  Router.classify llm message
  = Router.plainClassification
      (default Router.FALLBACK_INTENT (Router.ruleBased message)) None.
Proof.
  intros Hg Hu.
  unfold Router.classify, Router.llmBasedClassificationWithDetails.
  pose proof (Hg (Router.AgentsWithDetailsPrompt message)) as H1.
  destruct (Router.llmGenerate llm _); [discriminate H1 |].
  destruct (Router.ruleBased message) as [i |]; [reflexivity |].
  unfold Router.hybridClassify.
  pose proof (generateText_down llm (Router.HybridPrompt message) Hg Hu) as H2.
  by destruct (Router.generateText llm _).
Qed.

(** Without the model, a request for a reminder is still a notification
    and small talk is general advice. *)
Lemma classify_without_model_witness :
  Router.cl_intent (Router.classify downClassifier
                      "remind me to take my pill")
  = "notification.schedule"%string
  /\ Router.cl_intent (Router.classify downClassifier "hello there")
     = "health.advice"%string.
Proof.
  split.
  - rewrite (classify_without_model downClassifier
               "remind me to take my pill");
      [vm_compute; reflexivity | reflexivity |].
    intros f p [= <-]. reflexivity.
  - rewrite (classify_without_model downClassifier "hello there");
      [vm_compute; reflexivity | reflexivity |].
    intros f p [= <-]. reflexivity.
Defined.

Lemma existsb_incl {A} (f : A -> bool) (l l' : list A) :
  l ⊆ l' -> existsb f l = true -> existsb f l' = true.
Proof.
  intros Hsub H. apply existsb_exists in H as (x & Hx & Hf).
  apply existsb_exists. exists x. split; [| exact Hf].
  apply list_elem_of_In, Hsub. by apply list_elem_of_In.
Qed.

(** X22. The rule-based tier answers with one of
    [notification.schedule], [appointment.book] and [report.generate] or
    with nothing: its last rule, for [report.cognitive.weekly], can never
    fire, since a message with "report" or "summary" is taken by the rule
    before it.  A message in which a medication word occurs is never taken
    for a report nor left unclassified, and a message left unclassified
    holds no medication word and no report word. *)
Theorem ruleBased_priorities (message : string) :
  Router.ruleBased message <> Some "report.cognitive.weekly"%string
  /\ (forall intent,
        Router.ruleBased message = Some intent ->
        intent ∈ ["notification.schedule"; "appointment.book";
                  "report.generate"]%string)
  /\ (existsb (fun w => occursIn w (toLowerCase message)) medicationWords
      = true ->
      Router.ruleBased message = Some "notification.schedule"%string
      \/ Router.ruleBased message = Some "appointment.book"%string)
  /\ (Router.ruleBased message = None ->
      existsb (fun w => occursIn w (toLowerCase message)) medicationWords
      = false
      /\ existsb (fun w => occursIn w (toLowerCase message)) reportWords
         = false).
Proof.
  assert (Hmed : test Router.medicationWordsRe (toLowerCase message)
                 = existsb (fun w => occursIn w (toLowerCase message))
                     medicationWords)
    by (by apply (test_keywords medicationWords)).
  assert (Hrep : test Router.reportWordsRe (toLowerCase message)
                 = existsb (fun w => occursIn w (toLowerCase message))
                     reportWords)
    by (by apply (test_keywords reportWords)).
  assert (Hsum : test Router.summaryWordsRe (toLowerCase message)
                 = existsb (fun w => occursIn w (toLowerCase message))
                     ["report"; "summary"]%string)
    by (by apply (test_keywords ["report"; "summary"]%string)).
  assert (Hdead : test Router.reportWordsRe (toLowerCase message) = false ->
                  test Router.summaryWordsRe (toLowerCase message) = false).
  { rewrite Hrep, Hsum. intros Hr.
    destruct (existsb _ ["report"; "summary"]%string) eqn:Hs; [| reflexivity].
    rewrite <- Hr. symmetry.
    apply (existsb_incl _ ["report"; "summary"]%string); [| exact Hs].
    unfold reportWords. intros x Hx.
    apply elem_of_cons in Hx as [-> | Hx]; [left |].
    apply list_elem_of_singleton in Hx as ->. right. left. }
  assert (Hweekly : Router.ruleBased message
                    <> Some "report.cognitive.weekly"%string).
  { unfold Router.ruleBased.
    destruct (_ && _); [discriminate |].
    destruct (_ && _); [discriminate |].
    destruct (test Router.medicationWordsRe _); [discriminate |].
    destruct (test Router.reportWordsRe _) eqn:Hr; [discriminate |].
    rewrite (Hdead eq_refl), andb_false_r. discriminate. }
  split; [exact Hweekly |]. split; [| split].
  - intros intent H. pose proof (ruleBased_values message intent H) as Hv.
    apply elem_of_cons in Hv as [-> | Hv]; [left |].
    apply elem_of_cons in Hv as [-> | Hv]; [right; left |].
    apply elem_of_cons in Hv as [-> | Hv]; [right; right; left |].
    apply list_elem_of_singleton in Hv as ->. by destruct Hweekly.
  - rewrite <- Hmed. intros Hm. unfold Router.ruleBased. rewrite Hm.
    destruct (_ && _); [by left |].
    destruct (_ && _); [by right | by left].
  - rewrite <- Hmed, <- Hrep. unfold Router.ruleBased.
    destruct (_ && _); [discriminate |].
    destruct (_ && _); [discriminate |].
    destruct (test Router.medicationWordsRe _); [discriminate |].
    destruct (test Router.reportWordsRe _); [discriminate |].
    auto.
Qed.
(** ** The options of a queued job *)

(** X23. The job that [enqueueNotification] adds carries the
    idempotency key of the plan as its id.  It has a delay exactly when
    the plan has a time and no repetition, and a repetition exactly when
    the plan has one, so never both.  A delay is never zero or negative:
    a time that is not after now gives 20 seconds, a later time the
    distance from now. *)
Theorem enqueueNotification_job_options (now : Z)
  (getTime : string -> option Z) (plan : NotificationPlan) :
  let opts := BullMQ.jobsOptions now getTime plan in
  BullMQ.jo_jobId opts = pl_idempotencyKey plan
  /\ (is_Some (BullMQ.jo_delay opts)
      <-> truthyOpt (pl_scheduleAt plan) = true /\ pl_repeat plan = None)
  /\ (is_Some (BullMQ.jo_repeat opts) <-> is_Some (pl_repeat plan))
  /\ ~ (is_Some (BullMQ.jo_delay opts) /\ is_Some (BullMQ.jo_repeat opts))
  /\ forall d,
       BullMQ.jo_delay opts = Some (BullMQ.Num d) ->
       0 < d
       /\ exists scheduleAt t,
            pl_scheduleAt plan = Some scheduleAt
            /\ getTime scheduleAt = Some t
            /\ d = if t <=? now then 20000 else t - now.
Proof.
  assert (Hnone : forall A, ~ @is_Some A None) by (intros A [x [=]]).
  unfold BullMQ.jobsOptions.
  destruct (pl_scheduleAt plan) as [s |] eqn:Hs;
    destruct (pl_repeat plan) as [r |] eqn:Hr; cbn.
  - split; [done |].
    split; [split; [intros H; by apply Hnone in H | by intros [_ [=]]] |].
    split; [split; eauto |]. split; [intros [H _]; by apply Hnone in H |].
    intros d [=].
  - destruct (truthy s) eqn:Ht; cbn.
    + split; [done |]. split; [split; eauto |].
      split; [split; intros H; by apply Hnone in H |].
      split; [intros [_ H]; by apply Hnone in H |].
      intros d Hd.
      destruct (getTime s) as [t |] eqn:Hg; cbn in Hd; [| discriminate].
      assert (Hd' : d = if t <=? now then 20000 else t - now).
      { destruct (Z.leb_spec t now).
        - replace (Z.max 0 (t - now)) with 0 in Hd by lia.
          by injection Hd as <-.
        - destruct (Z.max 0 (t - now)) eqn:Hm; try lia;
            injection Hd as <-; lia. }
      split; [destruct (Z.leb_spec t now); lia | eauto].
    + split; [done |].
      split; [split; [intros H; by apply Hnone in H | by intros [[=] _]] |].
      split; [split; intros H; by apply Hnone in H |].
      split; [intros [H _]; by apply Hnone in H |].
      intros d [=].
  - split; [done |].
    split; [split; [intros H; by apply Hnone in H | by intros [[=] _]] |].
    split; [split; eauto |]. split; [intros [H _]; by apply Hnone in H |].
    intros d [=].
  - split; [done |].
    split; [split; [intros H; by apply Hnone in H | by intros [[=] _]] |].
    split; [split; intros H; by apply Hnone in H |].
    split; [intros [H _]; by apply Hnone in H |].
    intros d [=].
Qed.
(** ** The semaphore bounds the branches that run at once *)

Lemma running_insert (l : list Semaphore.Status) (i : nat)
  (old new : Semaphore.Status) :
  l !! i = Some old ->
  Z.of_nat (length (List.filter Semaphore.isRunning (<[ i := new ]> l)))
  = Z.of_nat (length (List.filter Semaphore.isRunning l))
    - (if Semaphore.isRunning old then 1 else 0)
    + (if Semaphore.isRunning new then 1 else 0).
Proof.
  revert i. induction l as [| x l IH]; intros [| i] H; try discriminate.
  - injection H as ->. simpl.
    destruct (Semaphore.isRunning old), (Semaphore.isRunning new);
      cbn [length]; lia.
  - simpl in *. specialize (IH i H).
    destruct (Semaphore.isRunning x); cbn [length]; lia.
Qed.

Lemma start_invariant (n : Z) (rules : nat) :
  0 <= n -> semaphoreInvariant n (Semaphore.start n rules).
Proof.
  intros Hn. split; cbn.
  - exact Hn.
  - unfold Semaphore.running. cbn.
    assert (H : List.filter Semaphore.isRunning
                  (replicate rules Semaphore.Idle) = []).
    { induction rules as [| k IH]; [done |]. exact IH. }
    rewrite H. cbn. lia.
  - intros i. split; [by intros H%elem_of_nil |].
    intros H. apply lookup_replicate in H as [[=] _].
  - constructor.
  - done.
Qed.

Lemma step_invariant (n : Z) (i : nat) (e : Semaphore.Execution) :
  semaphoreInvariant n e -> semaphoreInvariant n (Semaphore.step i e).
Proof.
  intros [Hp Ht Hq Hn He]. unfold Semaphore.step.
  destruct (Semaphore.branches e !! i) as [[| | |] |] eqn:Hi;
    try (by split).
  - (* acquire *)
    unfold Semaphore.acquire.
    destruct (Z.ltb_spec 0 (Semaphore.permits (Semaphore.semaphore e)))
      as [Hlt | Hge].
    + split; cbn.
      * lia.
      * unfold Semaphore.running in *. cbn.
        rewrite (running_insert _ i Semaphore.Idle Semaphore.Running Hi).
        cbn. lia.
      * intros j. rewrite Hq.
        destruct (decide (j = i)) as [-> | Hne].
        -- rewrite Hi, list_lookup_insert_eq by by eapply lookup_lt_Some.
           split; intros [=].
        -- by rewrite list_lookup_insert_ne.
      * exact Hn.
      * intros Hw. apply He in Hw. lia.
    + split; cbn.
      * lia.
      * unfold Semaphore.running in *. cbn.
        rewrite (running_insert _ i Semaphore.Idle Semaphore.Waiting Hi).
        cbn. lia.
      * intros j. rewrite elem_of_app, list_elem_of_singleton, Hq.
        destruct (decide (j = i)) as [-> | Hne].
        -- rewrite list_lookup_insert_eq by by eapply lookup_lt_Some.
           split; auto.
        -- rewrite list_lookup_insert_ne by done. split; [| auto].
           by intros [H | H].
      * apply NoDup_app. split; [exact Hn |]. split; [| apply NoDup_singleton].
        intros j Hj ->%list_elem_of_singleton. apply Hq in Hj. congruence.
      * intros _. lia.
  - (* release *)
    unfold Semaphore.release.
    destruct (Semaphore.waiting (Semaphore.semaphore e)) as [| j rest]
      eqn:Hw.
    + split; cbn.
      * lia.
      * unfold Semaphore.running in *. cbn.
        rewrite (running_insert _ i Semaphore.Running Semaphore.Finished Hi).
        cbn. lia.
      * intros j. split; [by intros H%elem_of_nil |].
        destruct (decide (j = i)) as [-> | Hne].
        -- rewrite list_lookup_insert_eq by by eapply lookup_lt_Some.
           intros [=].
        -- rewrite list_lookup_insert_ne by done. intros H.
           apply Hq in H. by apply elem_of_nil in H.
      * constructor.
      * done.
    + assert (Hj : Semaphore.branches e !! j = Some Semaphore.Waiting)
        by (apply Hq; left).
      assert (Hij : i <> j) by congruence.
      assert (Hj' : <[ i := Semaphore.Finished ]> (Semaphore.branches e) !! j
                    = Some Semaphore.Waiting)
        by by rewrite list_lookup_insert_ne.
      apply NoDup_cons in Hn as [Hjr Hn].
      split; cbn.
      * lia.
      * unfold Semaphore.running in *. cbn.
        rewrite (running_insert _ j Semaphore.Waiting Semaphore.Running Hj').
        rewrite (running_insert _ i Semaphore.Running Semaphore.Finished Hi).
        cbn. lia.
      * intros k.
        destruct (decide (k = j)) as [-> | Hkj].
        -- rewrite list_lookup_insert_eq
             by (rewrite length_insert; by eapply lookup_lt_Some).
           split; [done | intros [=]].
        -- rewrite list_lookup_insert_ne by done.
           destruct (decide (k = i)) as [-> | Hki].
           ++ rewrite list_lookup_insert_eq by by eapply lookup_lt_Some.
              split; [| intros [=]].
              intros Hk. assert (Hk' : i ∈ j :: rest) by by right.
              apply Hq in Hk'. congruence.
           ++ rewrite list_lookup_insert_ne by done. rewrite <- Hq.
              rewrite elem_of_cons. split; [auto |]. by intros [-> | H].
      * exact Hn.
      * intros _. apply He. done.
Qed.

Lemma run_invariant (n : Z) (schedule : list nat) (e : Semaphore.Execution) :
  semaphoreInvariant n e -> semaphoreInvariant n (Semaphore.run schedule e).
Proof.
  revert e. induction schedule as [| i schedule IH]; intros e H; [done |].
  apply IH. by apply step_invariant.
Qed.

Lemma running_positive (l : list Semaphore.Status) :
  (0 < length (List.filter Semaphore.isRunning l))%nat ->
  exists k, l !! k = Some Semaphore.Running.
Proof.
  induction l as [| x l IH]; simpl; [lia |].
  destruct x; simpl; try (intros H; destruct (IH H) as [k Hk]; by exists (S k)).
  intros _. by exists 0%nat.
Qed.

Lemma allFinished_false (l : list Semaphore.Status) :
  forallb Semaphore.isFinished l = false ->
  exists i st, l !! i = Some st /\ st <> Semaphore.Finished.
Proof.
  induction l as [| x l IH]; simpl; [discriminate |].
  destruct x; simpl;
    try (intros _; exists 0%nat; eexists; split; [reflexivity | discriminate]).
  intros H. destruct (IH H) as (i & st & Hi & Hst). by exists (S i), st.
Qed.

Lemma step_changes (n : Z) (i : nat) (e : Semaphore.Execution) :
  semaphoreInvariant n e ->
  Semaphore.branches e !! i = Some Semaphore.Idle
  \/ Semaphore.branches e !! i = Some Semaphore.Running ->
  Semaphore.branches (Semaphore.step i e) !! i <> Semaphore.branches e !! i.
Proof.
  intros [_ _ Hq _ _] [Hi | Hi]; unfold Semaphore.step; rewrite Hi.
  - unfold Semaphore.acquire.
    destruct (0 <? _); cbn;
      rewrite list_lookup_insert_eq by (by eapply lookup_lt_Some);
      discriminate.
  - unfold Semaphore.release.
    destruct (Semaphore.waiting (Semaphore.semaphore e)) as [| j rest] eqn:Hw;
      cbn.
    + rewrite list_lookup_insert_eq by (by eapply lookup_lt_Some).
      discriminate.
    + assert (Hj : Semaphore.branches e !! j = Some Semaphore.Waiting)
        by (apply Hq; left).
      assert (Hij : j <> i) by congruence.
      rewrite list_lookup_insert_ne by done.
      rewrite list_lookup_insert_eq by (by eapply lookup_lt_Some).
      discriminate.
Qed.

(** X24. Whatever the interleaving of the branches of the
    parallel strategy, the branches that run their rule at one time are
    never more than the permits the semaphore was created with; a branch
    waits only while that many run; and until every branch has finished,
    some branch can take its next step, so no wake-up is lost. *)
Theorem semaphore_bounds_running (n : Z) (rules : nat)
  (schedule : list nat) :
  0 < n ->
  let e := Semaphore.run schedule (Semaphore.start n rules) in
  Z.of_nat (Semaphore.running e) <= n
  /\ (Semaphore.waiting (Semaphore.semaphore e) <> [] ->
      Z.of_nat (Semaphore.running e) = n)
  /\ (Semaphore.allFinished e = false ->
      exists i, Semaphore.step i e <> e).
Proof.
  intros Hn e.
  assert (Hinv : semaphoreInvariant n e).
  { apply run_invariant, start_invariant. lia. }
  pose proof Hinv as [Hp Ht Hq _ He].
  split; [lia |]. split; [intros Hw; apply He in Hw; lia |].
  intros Hf. apply allFinished_false in Hf as (i & st & Hi & Hst).
  assert (Hrun : exists k,
             Semaphore.branches e !! k = Some Semaphore.Idle
             \/ Semaphore.branches e !! k = Some Semaphore.Running).
  { destruct st; try done; [by exists i; left | | by exists i; right].
    apply Hq in Hi.
    assert (Hw : Semaphore.waiting (Semaphore.semaphore e) <> [])
      by (intros Hw; rewrite Hw in Hi; by apply elem_of_nil in Hi).
    apply He in Hw.
    destruct (running_positive (Semaphore.branches e)) as [k Hk].
    - unfold Semaphore.running in Ht. lia.
    - exists k. by right. }
  destruct Hrun as [k Hk]. exists k. intros Heq.
  apply (step_changes n k e Hinv Hk). by rewrite Heq.
Qed.

(** Three rules and the two permits of the repository: the third branch
    waits while the first two run. *)
Lemma semaphore_bounds_running_witness :
  Z.of_nat
    (Semaphore.running
       (Semaphore.run [0; 1; 2]%nat
          (Semaphore.start Semaphore.MAX_CONCURRENT_EXECUTIONS 3)))
  <= Semaphore.MAX_CONCURRENT_EXECUTIONS
  /\ Semaphore.waiting
       (Semaphore.semaphore
          (Semaphore.run [0; 1; 2]%nat
             (Semaphore.start Semaphore.MAX_CONCURRENT_EXECUTIONS 3)))
     = [2%nat].
Proof.
  split; [| reflexivity].
  apply (semaphore_bounds_running Semaphore.MAX_CONCURRENT_EXECUTIONS 3
           [0; 1; 2]%nat).
  reflexivity.
Defined.
(** ** The history of the event bus *)

Lemma slice_last {A} (n : nat) (l : list A) :
  (0 < n)%nat ->
  EventBus.slice (- Z.of_nat n) l = drop (length l - n) l.
Proof.
  intros Hn. unfold EventBus.slice. cbv zeta.
  destruct (Z.ltb_spec (- Z.of_nat n) 0); f_equal; lia.
Qed.

Lemma addToHistory_last {Content} (n : nat)
  (sent : list (EventBus.AgentMessage Content))
  (message : EventBus.AgentMessage Content) :
  (0 < n)%nat ->
  (let h := drop (length sent - n) sent ++ [message] in
   if (n <? length h)%nat then drop (length h - n) h else h)
  = drop (length (sent ++ [message]) - n) (sent ++ [message]).
Proof.
  intros Hn. cbv zeta. rewrite !length_app, length_drop. cbn [length].
  destruct (Nat.ltb_spec n (length sent - (length sent - n) + 1)) as [H | H].
  - rewrite drop_app_le by (rewrite length_drop; lia).
    rewrite drop_drop. rewrite drop_app_le by lia. do 2 f_equal. lia.
  - replace (length sent + 1 - n)%nat with (length sent - n)%nat by lia.
    by rewrite drop_app_le by lia.
Qed.

(** X25. The history of the bus holds the messages that were
    sent, in order, and once more than 1000 were sent the most recent
    1000 of them.  A query with a positive limit returns the most recent
    messages of the history that involve the agent, at most as many as
    the limit; with a negative limit it returns them without the
    oldest [- limit]. *)
Theorem history_keeps_recent_messages {Content}
  (sent : list (EventBus.AgentMessage Content))
  (agent : string) (limit : Z) :
  let history := foldl EventBus.addToHistory [] sent in
  let involved := List.filter (EventBus.involves agent) history in
  history = drop (length sent - 1000) sent
  /\ (length history <= 1000)%nat
  /\ (truthy agent = true -> 0 < limit ->
      EventBus.getMessageHistory history (Some agent) (Some limit)
      = drop (length involved - Z.to_nat limit) involved)
  /\ (truthy agent = true -> limit < 0 ->
      EventBus.getMessageHistory history (Some agent) (Some limit)
      = drop (Z.to_nat (- limit)) involved).
Proof.
  intros history involved.
  assert (Hh : history = drop (length sent - 1000) sent).
  { subst history. induction sent as [| m sent IH] using rev_ind; [done |].
    rewrite foldl_app. cbn [foldl]. rewrite IH.
    unfold EventBus.addToHistory. cbv zeta.
    fold EventBus.maxHistorySize.
    rewrite slice_last by (unfold EventBus.maxHistorySize; lia).
    apply (addToHistory_last EventBus.maxHistorySize).
    unfold EventBus.maxHistorySize. lia. }
  split; [exact Hh |]. split; [rewrite Hh, length_drop; lia |].
  unfold EventBus.getMessageHistory. fold involved.
  split; intros -> Hl.
  - destruct (Z.eqb_spec limit 0); [lia |].
    rewrite <- (Z2Nat.id limit) at 1 by lia. apply slice_last. lia.
  - destruct (Z.eqb_spec limit 0); [lia |].
    unfold EventBus.slice. cbv zeta.
    destruct (Z.ltb_spec (- limit) 0); [lia |].
    destruct (Z.le_gt_cases (- limit) (Z.of_nat (length involved))).
    + f_equal. lia.
    + rewrite !drop_ge by lia. reflexivity.
Qed.
(** ** The chat route *)

(** X26. A chat request that lacks one of [userId], [sessionId] and
    [message], or has it empty, is answered with status 400.  Every other
    request with a body is answered with the outcome of the graph, never
    with status 500 or an error event: the reply is not empty (a missing
    or empty reply is replaced by ["No response generated"]), the error
    and the agent of the final state are passed on, and the timeline is
    included exactly when it was asked for.  A streamed answer is the
    status event, the result and the done event. *)
Theorem chat_answers (g : Env) (body : ChatRoute.ChatRequest) :
  (~ wellFormed body ->
   ChatRoute.chat g (Some body)
   = ChatRoute.Status400
       "Missing required fields: userId, sessionId, message")
  /\ (wellFormed body ->
      exists result r,
        process g {| in_userId :=
                       default EmptyString (ChatRoute.rq_userId body);
                     in_sessionId :=
                       default EmptyString (ChatRoute.rq_sessionId body);
                     in_message :=
                       default EmptyString (ChatRoute.rq_message body);
                     in_metadata := ChatRoute.rq_metadata body;
                     in_intent := None; in_entities := None |}
        = Ok result
        /\ r = ChatRoute.response (ChatRoute.rq_timeline body) result
        /\ truthy (ChatRoute.rs_reply r) = true
        /\ ChatRoute.rs_error r = error result
        /\ ChatRoute.rs_currentAgent r = currentAgent result
        /\ (is_Some (ChatRoute.rs_timeline r)
            <-> ChatRoute.rq_timeline body = true)
        /\ ChatRoute.chat g (Some body)
           = if ChatRoute.rq_stream body
             then ChatRoute.EventStream
                    ([ChatRoute.EvStatus]
                     ++ (if ChatRoute.rq_tokenStream body
                         then [ChatRoute.EvStep] else [])
                     ++ [ChatRoute.EvResult r; ChatRoute.EvDone])
             else ChatRoute.Send r).
Proof.
  unfold wellFormed, ChatRoute.chat, ifTruthy. split.
  - intros H.
    destruct (truthyOpt (ChatRoute.rq_userId body)) eqn:Hu;
      destruct (ChatRoute.rq_userId body) as [u |]; try discriminate;
      try reflexivity.
    destruct (truthyOpt (ChatRoute.rq_sessionId body)) eqn:Hs;
      destruct (ChatRoute.rq_sessionId body) as [s |]; try discriminate;
      try reflexivity.
    destruct (truthyOpt (ChatRoute.rq_message body)) eqn:Hm;
      destruct (ChatRoute.rq_message body) as [m |]; try discriminate;
      try reflexivity.
    exfalso. apply H. auto.
  - intros (Hu & Hs & Hm). rewrite Hu, Hs, Hm.
    destruct (ChatRoute.rq_userId body) as [u |]; [| discriminate].
    destruct (ChatRoute.rq_sessionId body) as [s |]; [| discriminate].
    destruct (ChatRoute.rq_message body) as [m |]; [| discriminate].
    cbn [default].
    destruct (process_total g
                {| in_userId := u; in_sessionId := s; in_message := m;
                   in_metadata := ChatRoute.rq_metadata body;
                   in_intent := None; in_entities := None |})
      as [result Hresult].
    unfold id. rewrite Hresult. exists result. eexists.
    split; [reflexivity |]. split; [reflexivity |].
    split.
    { cbn. destruct (finalOutput result) as [out |]; [| reflexivity].
      by destruct (truthy (out_reply out)) eqn:Ht. }
    split; [reflexivity |]. split; [reflexivity |].
    split.
    { cbn. destruct (ChatRoute.rq_timeline body).
      - split; eauto.
      - split; [intros [x [=]] | discriminate]. }
    reflexivity.
Qed.

(** A request with the three fields that asks for the timeline, and one
    that lacks the message. *)
Lemma chat_answers_witness :
  (exists r, ChatRoute.chat exampleEnv (Some (chatRequest false true))
             = ChatRoute.Send r
             /\ truthy (ChatRoute.rs_reply r) = true
             /\ is_Some (ChatRoute.rs_timeline r)).
Proof.
  destruct (proj2 (chat_answers exampleEnv (chatRequest false true)))
    as (result & r & _ & _ & Hreply & _ & _ & Htl & Hchat).
  - split; [reflexivity |]. split; reflexivity.
  - exists r. split; [exact Hchat |]. split; [exact Hreply |].
    apply Htl. reflexivity.
Defined.
